(** * DeepSpace: the picture-of-the-day pipeline

    A shallow embedding of the parts of the DeepSpace repository that
    resolve "the picture of the day for date D":

    - the edge function [serve] (supabase/functions/getNasaImageOfDay),
    - the client resolver [getNasaImageOfDay] (src/services/supabase.ts),
    - the local image cache [getImage] (src/services/imageCache.ts),
    - the screen controller [loadImageForDate] with its walk-back retry and
      the neighbour preloading (src/screens/NasaApodScreen.tsx).

    Asynchronous code that can throw is written in a small state-and-exception
    monad; the outside world (the provider, the data base, the blob store, the
    device file system, the clock) is a record of oracles plus a store that the
    functions thread through, with a log of every call they make. *)

From Stdlib Require Import ZArith String Ascii List Lia DecimalString.
From stdpp Require Import gmap strings list.
From Equations Require Import Equations.

Open Scope Z_scope.

(** ** JavaScript values the code relies on *)

Module Js.

(** Truthiness of a string: only the empty string is falsy. *)
Definition truthy (s : string) : bool := negb (String.eqb s "").

(** Truthiness of [string | undefined]. *)
Definition truthy_opt (o : option string) : bool :=
  match o with Some s => truthy s | None => false end.

(** [a || b] on [string | undefined] and [string]. *)
Definition or_else (a : option string) (b : string) : string :=
  match a with
  | Some s => if truthy s then s else b
  | None => b
  end.

(** Template-literal rendering of an integer. *)
Definition show (z : Z) : string := NilZero.string_of_int (Z.to_int z).

(** [String(n).padStart(2, '0')] *)
Definition padStart2 (s : string) : string :=
  match String.length s with
  | O => "00" +:+ s
  | S O => "0" +:+ s
  | _ => s
  end.

Definition is_digit (c : ascii) : bool :=
  let n := nat_of_ascii c in (48 <=? n)%nat && (n <=? 57)%nat.

Definition is_upper (c : ascii) : bool :=
  let n := nat_of_ascii c in (65 <=? n)%nat && (n <=? 90)%nat.

Definition is_lower (c : ascii) : bool :=
  let n := nat_of_ascii c in (97 <=? n)%nat && (n <=? 122)%nat.

(** The fragment of regular expressions the code uses: an anchored sequence
    of atoms, each a digit class [\d] or a literal character. *)
Inductive atom := Digit | Lit (c : ascii).

Definition atom_matches (a : atom) (c : ascii) : bool :=
  match a with
  | Digit => is_digit c
  | Lit l => Ascii.eqb l c
  end.

(** [/^a1 a2 ... an$/.test(s)] *)
Fixpoint test (re : list atom) (s : string) : bool :=
  match re, s with
  | nil, EmptyString => true
  | a :: re', String c s' => atom_matches a c && test re' s'
  | _, _ => false
  end.

(** [s.replace(/[^a-z0-9]/gi, '_')] *)
Fixpoint replace_non_alnum (s : string) : string :=
  match s with
  | EmptyString => EmptyString
  | String c s' =>
      String (if is_digit c || is_lower c || is_upper c then c else "_"%char)
             (replace_non_alnum s')
  end.

Definition lower (c : ascii) : ascii :=
  if is_upper c then ascii_of_nat (nat_of_ascii c + 32) else c.

(** [s.toLowerCase()] on the characters [replace_non_alnum] leaves. *)
Fixpoint toLowerCase (s : string) : string :=
  match s with
  | EmptyString => EmptyString
  | String c s' => String (lower c) (toLowerCase s')
  end.

End Js.

(** ** Asynchronous computations: state passing with exceptions

    [Async S E A] is an [async] function body run against a store [S]: it
    either returns a value or throws, and in both cases leaves a store. *)

Module Eff.

Inductive outcome (E A : Type) : Type :=
| Returns (a : A)
| Throws (e : E).
Arguments Returns {E A} a.
Arguments Throws {E A} e.

Definition Async (S E A : Type) : Type := S -> outcome E A * S.

Section Ops.
Context {S E : Type}.

Definition ret {A} (a : A) : Async S E A := fun s => (Returns a, s).

Definition throw {A} (e : E) : Async S E A := fun s => (Throws e, s).

Definition bind {A B} (m : Async S E A) (k : A -> Async S E B) : Async S E B :=
  fun s =>
    match m s with
    | (Returns a, s') => k a s'
    | (Throws e, s') => (Throws e, s')
    end.

(** [try { m } catch (e) { h e }] *)
Definition try_catch {A} (m : Async S E A) (h : E -> Async S E A) : Async S E A :=
  fun s =>
    match m s with
    | (Returns a, s') => (Returns a, s')
    | (Throws e, s') => h e s'
    end.

(** A result that does not depend on the store. *)
Definition lift {A} (o : outcome E A) : Async S E A := fun s => (o, s).

Definition get : Async S E S := fun s => (Returns s, s).

Definition modify (f : S -> S) : Async S E unit := fun s => (Returns tt, f s).

(** A relation between the store before and the store after that every
    step of a computation maintains. *)
Definition maintains {A} (R : S -> S -> Prop) (m : Async S E A) : Prop :=
  forall s, R s (snd (m s)).

(** Two relations of that kind: a component of the store is left as it
    was, and a log in the store only grows. *)
Definition unchanged {X} (f : S -> X) (s s' : S) : Prop := f s' = f s.

Definition grows {X} (f : S -> list X) (s s' : S) : Prop := exists l, f s' = f s ++ l.

(** Every exception that escapes a computation satisfies [Q]. *)
Definition throws_only {A} (Q : E -> Prop) (m : Async S E A) : Prop :=
  forall s e s', m s = (Throws e, s') -> Q e.

End Ops.

End Eff.

Import Eff.

Declare Scope async_scope.
Delimit Scope async_scope with async.
Notation "'let*' x ':=' m 'in' k" := (bind m (fun x => k))
  (at level 10, x name, m at level 100, k at level 200) : async_scope.
Notation "m1 ';;' m2" := (bind m1 (fun _ => m2))
  (at level 100, m2 at level 200, right associativity) : async_scope.

(** ** Shared data model *)

(** Exceptions that the code throws or receives. [NasaNoDataError] is the
    class of src/services/supabase.ts; its two constructor arguments come from
    a destructured JSON body and may be [undefined]. *)
Inductive Exn :=
| Error (message : string)
| TypeError (message : string)
| SyntaxError (message : string)
| PostgrestError (code message : string)
| NasaNoDataError (message date : option string).

(** [error.message] *)
Definition message_of (e : Exn) : string :=
  match e with
  | Error m | TypeError m | SyntaxError m | PostgrestError _ m => m
  | NasaNoDataError m _ => match m with Some s => s | None => "" end
  end.

(** [err instanceof NasaNoDataError] *)
Definition instanceof_NasaNoDataError (e : Exn) : bool :=
  match e with NasaNoDataError _ _ => true | _ => false end.

(** [interface ImageDetails], a row of the [nasa_images] table. *)
Record ImageDetails := {
  id : string;
  date : string;
  title : string;
  explanation : string;
  url : string;
  media_type : string;
  copyright : option string;
  hdurl : option string;
  storage_path : option string;
  thumbnail_storage_path : option string;
  created_at : string;
  updated_at : string
}.

(** [interface NasaImageResponse], the success body of the endpoint. *)
Record NasaImageResponse := {
  data : ImageDetails;
  cached : bool
}.

(** JSON bodies, as far as the code builds and reads them: an object is a
    list of fields, a field holds a string, a boolean or a whole row. *)
Inductive JValue :=
| JString (s : string)
| JBool (b : bool)
| JRow (r : ImageDetails).

Definition JObject := list (string * JValue).

(** [obj[key]] *)
Fixpoint field (key : string) (o : JObject) : option JValue :=
  match o with
  | nil => None
  | (k, v) :: o' => if String.eqb k key then Some v else field key o'
  end.

(** A field read where the code expects a string. *)
Definition string_field (key : string) (o : JObject) : option string :=
  match field key o with Some (JString s) => Some s | _ => None end.

(** ** The edge function (supabase/functions/getNasaImageOfDay/index.ts) *)

(** [interface NasaApodResponse], the provider's record. *)
Module Apod.
Record NasaApodResponse := {
  date : string;
  explanation : string;
  hdurl : option string;
  media_type : string;
  service_version : string;
  title : string;
  url : string;
  copyright : option string
}.
End Apod.

Module EdgeFunction.

Import Js.

(** What the function receives: the HTTP method and
    [url.searchParams.get('date')]. *)
Record Request := {
  method : string;
  date_param : option string
}.

Record Blob := { blob_type : string; blob_bytes : string }.

(** A [fetch] response: [status], [text()], the result of [json()] when the
    body parses as a provider record, and [blob()]. *)
Record Response := {
  status : Z;
  text : string;
  json : option Apod.NasaApodResponse;
  blob : Blob
}.

(** [response.ok] *)
Definition ok (r : Response) : bool := (200 <=? status r) && (status r <=? 299).

Inductive FetchReply :=
| Rejects (reason : string)
| Resolves (r : Response).

Record PostgrestErr := { code : string; pg_message : string }.

(** The collaborators the function cannot see inside. [select_fault d] is
    the error, if any, with which the data base answers a select for the date
    [d]: the [date] column of [nasa_images] has the type [DATE], so the
    answer depends on the string that is compared with it. [racing] holds the
    rows that concurrent requests commit between this request's select and
    its insert. *)
Record Cloud := {
  NASA_API_KEY : option string;
  net : string -> FetchReply;
  select_fault : string -> option PostgrestErr;
  insert_fault : option PostgrestErr;
  upload_fault : string -> option string;
  racing : gmap string ImageDetails;
  new_id : string;
  db_now : string
}.

Inductive Call :=
| Select (d : string)
| Fetch (u : string)
| Upload (name : string)
| Insert (d : string).

(** The stores the function reads and writes, and the calls it has made,
    oldest first. The table is keyed by its unique [date] column. *)
Record Backend := {
  nasa_images : gmap string ImageDetails;
  bucket : gmap string Blob;
  calls : list Call
}.

Record HttpResponse := {
  resp_status : Z;
  resp_body : string + JObject
}.

(** [/^\d{4}-\d{2}-\d{2}$/] *)
Definition dateRegex : list atom :=
  [Digit; Digit; Digit; Digit; Lit "-"; Digit; Digit; Lit "-"; Digit; Digit].

Definition storageBucket : string := "nasa-images".

Definition nasaApiUrl (key d : string) : string :=
  "https://api.nasa.gov/planetary/apod?api_key=" +:+ key +:+ "&date=" +:+ d.

Definition fileName (d t : string) : string :=
  d +:+ "-" +:+ toLowerCase (replace_non_alnum t) +:+ ".jpg".

Definition hdFileName (d t : string) : string := "hd-" +:+ fileName d t.

Definition not_found : PostgrestErr :=
  {| code := "PGRST116"; pg_message := "JSON object requested, multiple (or no) rows returned" |}.

Definition unique_violation : PostgrestErr :=
  {| code := "23505";
     pg_message := "duplicate key value violates unique constraint" |}.

Local Open Scope async_scope.

Section Serve.
Context (cloud : Cloud).

Definition M := Async Backend Exn.

Definition log (c : Call) : M unit :=
  modify (fun b => {| nasa_images := nasa_images b; bucket := bucket b;
                      calls := calls b ++ [c] |}).

(** [await fetch(u)] *)
Definition fetch (u : string) : M Response :=
  log (Fetch u) ;;
  match net cloud u with
  | Rejects reason => throw (TypeError reason)
  | Resolves r => ret r
  end.

(** [supabase.from('nasa_images').select('*').eq('date', d).single()]; of
    the pair [{ data, error }] the client hands back exactly one is set. The
    data base answers with an error of its own where it cannot run the
    query for [d], with the row where there is one, and with [PGRST116]
    where there is none. *)
Definition select_single (d : string) : M (PostgrestErr + ImageDetails) :=
  log (Select d) ;;
  let* b := get in
  match select_fault cloud d with
  | Some e => ret (inl e)
  | None =>
      match nasa_images b !! d with
      | Some row => ret (inr row)
      | None => ret (inl not_found)
      end
  end.

(** [supabase.storage.from(bucket).upload(name, bytes, { upsert: false })] *)
Definition upload (name : string) (content : Blob) : M (option string) :=
  log (Upload name) ;;
  let* b := get in
  match upload_fault cloud name with
  | Some e => ret (Some e)
  | None =>
      match bucket b !! name with
      | Some _ => ret (Some "The resource already exists")
      | None =>
          modify (fun b => {| nasa_images := nasa_images b;
                              bucket := <[name := content]> (bucket b);
                              calls := calls b |}) ;;
          ret None
      end
  end.

(** [supabase.from('nasa_images').insert({...}).select().single()]: a plain
    insert, refused when the unique [date] is taken. *)
Definition insert_single (n : Apod.NasaApodResponse)
    (storagePath hdStoragePath : option string)
  : M (PostgrestErr + ImageDetails) :=
  log (Insert (Apod.date n)) ;;
  modify (fun b => {| nasa_images := nasa_images b ∪ racing cloud;
                      bucket := bucket b; calls := calls b |}) ;;
  let* b := get in
  match insert_fault cloud with
  | Some e => ret (inl e)
  | None =>
      match nasa_images b !! Apod.date n with
      | Some _ => ret (inl unique_violation)
      | None =>
          let row :=
            {| id := new_id cloud;
               date := Apod.date n;
               title := Apod.title n;
               explanation := Apod.explanation n;
               url := Apod.url n;
               media_type := Apod.media_type n;
               copyright := Apod.copyright n;
               hdurl := Apod.hdurl n;
               storage_path := storagePath;
               thumbnail_storage_path := hdStoragePath;
               created_at := db_now cloud;
               updated_at := db_now cloud |} in
          modify (fun b => {| nasa_images := <[Apod.date n := row]> (nasa_images b);
                              bucket := bucket b; calls := calls b |}) ;;
          ret (inr row)
      end
  end.

Definition json_response (st : Z) (o : JObject) : HttpResponse :=
  {| resp_status := st; resp_body := inr o |}.

(** The standard-resolution download and upload; a failed upload is logged
    and leaves [storagePath] undefined. *)
Definition store_standard (d : string) (n : Apod.NasaApodResponse) : M (option string) :=
  let* imageResponse := fetch (Apod.url n) in
  let* uploadError := upload (fileName d (Apod.title n)) (blob imageResponse) in
  match uploadError with
  | Some _ => ret None
  | None => ret (Some (storageBucket +:+ "/" +:+ fileName d (Apod.title n)))
  end.

(** The high-definition download and upload, inside its own [try]. *)
Definition store_hd (d : string) (n : Apod.NasaApodResponse) : M (option string) :=
  match Apod.hdurl n with
  | Some hd =>
      if truthy hd then
        try_catch
          (let* hdImageResponse := fetch hd in
           let* hdUploadError := upload (hdFileName d (Apod.title n)) (blob hdImageResponse) in
           match hdUploadError with
           | Some _ => ret None
           | None => ret (Some (storageBucket +:+ "/" +:+ hdFileName d (Apod.title n)))
           end)
          (fun _ => ret None)
      else ret None
  | None => ret None
  end.

(** [Deno.env.get('NASA_API_KEY')] and its check. *)
Definition require_key : M string :=
  match NASA_API_KEY cloud with
  | Some k =>
      if truthy k then ret k
      else throw (Error "NASA_API_KEY environment variable is not set")
  | None => throw (Error "NASA_API_KEY environment variable is not set")
  end.

(** The [date] query parameter and its validation. *)
Definition require_date (req : Request) : M string :=
  match date_param req with
  | Some d =>
      if truthy d && test dateRegex d then ret d
      else throw (Error "Invalid date format. Please provide date in YYYY-MM-DD format")
  | None => throw (Error "Invalid date format. Please provide date in YYYY-MM-DD format")
  end.

(** The look-up in the data base; "not found" is the one error that is
    not thrown. *)
Definition lookup (d : string) : M (option ImageDetails) :=
  let* found := select_single d in
  match found with
  | inl fetchError =>
      if negb (String.eqb (code fetchError) "PGRST116")
      then throw (PostgrestError (code fetchError) (pg_message fetchError))
      else ret None
  | inr existingImage => ret (Some existingImage)
  end.

(** The call to the provider: every response that is not [ok] is thrown
    as the same kind of error, whatever its status and text. *)
Definition fetch_from_nasa (key d : string) : M Apod.NasaApodResponse :=
  let* nasaResponse := fetch (nasaApiUrl key d) in
  if negb (ok nasaResponse) then
    throw (Error ("NASA API error: " +:+ show (status nasaResponse)
                  +:+ " - " +:+ text nasaResponse))
  else
    match json nasaResponse with
    | Some n => ret n
    | None => throw (SyntaxError "Unexpected token in JSON")
    end.

(** The copies in the blob store, for images only. *)
Definition store_images (d : string) (nasaData : Apod.NasaApodResponse)
  : M (option string * option string) :=
  if String.eqb (Apod.media_type nasaData) "image" then
    let* storagePath := store_standard d nasaData in
    let* hdStoragePath := store_hd d nasaData in
    ret (storagePath, hdStoragePath)
  else ret (None, None).

(** The insert and the answer; an insert error is thrown. *)
Definition persist (nasaData : Apod.NasaApodResponse)
    (paths : option string * option string) : M HttpResponse :=
  let* inserted := insert_single nasaData (fst paths) (snd paths) in
  match inserted with
  | inl insertError =>
      throw (PostgrestError (code insertError) (pg_message insertError))
  | inr insertedImage =>
      ret (json_response 200 [("data", JRow insertedImage); ("cached", JBool false)])
  end.

(** The body of the outer [try]. *)
Definition resolve (req : Request) : M HttpResponse :=
  let* key := require_key in
  let* d := require_date req in
  let* existing := lookup d in
  match existing with
  | Some existingImage =>
      ret (json_response 200 [("data", JRow existingImage); ("cached", JBool true)])
  | None =>
      let* nasaData := fetch_from_nasa key d in
      let* paths := store_images d nasaData in
      persist nasaData paths
  end.

(** The handler passed to [serve]. *)
Definition serve (req : Request) : M HttpResponse :=
  if String.eqb (method req) "OPTIONS" then
    ret {| resp_status := 200; resp_body := inl "ok" |}
  else
    try_catch (resolve req)
      (fun error => ret (json_response 400 [("error", JString (message_of error))])).

End Serve.

(** Calls to the record store and to the source provider. *)
Definition is_store_call (c : Call) : bool :=
  match c with Select _ | Insert _ => true | _ => false end.

Definition is_select (c : Call) : bool :=
  match c with Select _ => true | _ => false end.

Definition is_provider_call (c : Call) : bool :=
  match c with
  | Fetch u => String.prefix "https://api.nasa.gov/planetary/apod?" u
  | _ => false
  end.

Definition fresh : Backend := {| nasa_images := ∅; bucket := ∅; calls := [] |}.

End EdgeFunction.

(** ** The device: what the app's code runs against *)

(** [supabase.functions.invoke] hands back [{ data, error }]; [error] is one
    of three classes of supabase-js. A [FunctionsHttpError] carries the
    response, whose [json()] is the body when it parses to an object. *)
Module Functions.

Inductive FunctionsError :=
| FunctionsHttpError (context_json : option JObject)
| FunctionsRelayError (message : string)
| FunctionsFetchError (message : string).

Record InvokeResult := {
  data : option NasaImageResponse;
  error : option FunctionsError
}.

End Functions.

Module Phone.

(** [downloadAsync] either rejects or resolves with the HTTP status. *)
Inductive DownloadReply :=
| Fails (reason : string)
| Completes (status : Z).

(** The collaborators of the app: expo's cache directory, the project URL,
    the resolution endpoint, the network behind [downloadAsync], and the
    clock: [clock r] is what [new Date()] yields in the invocation of
    [loadImageForDate] whose retry count is [r]. *)
Record Platform := {
  cacheDirectory : string;
  supabaseUrl : string;
  invoke : string -> Functions.InvokeResult;
  download : string -> DownloadReply;
  clock : nat -> Z
}.

Inductive Call :=
| Invoke (d : string)
| GetInfo (path : string)
| MakeDirectory (path : string)
| Download (u path : string).

Inductive LogLine :=
| Loading (dateStr : string) (retry : nat)
| Preloading (dateStr : string)
| Retrying (retry : nat)
| Info (text : string)
| Warn (text : string)
| Fail (text : string).

(** The component's [useState] cells. *)
Record Screen := {
  currentDate : Z;
  imageData : option ImageDetails;
  localImageUri : option string;
  loading : bool;
  error : option string
}.

(** Everything the app's code reads and writes: the files on the device,
    the calls made so far (oldest first), the console (the lines the
    properties speak of), the screen, and the dates for which a preload has been
    started and is not awaited. *)
Record World := {
  files : gset string;
  calls : list Call;
  console : list LogLine;
  screen : Screen;
  background : list Z
}.

Definition with_files (f : gset string -> gset string) (w : World) : World :=
  {| files := f (files w); calls := calls w; console := console w;
     screen := screen w; background := background w |}.

Definition with_calls (f : list Call -> list Call) (w : World) : World :=
  {| files := files w; calls := f (calls w); console := console w;
     screen := screen w; background := background w |}.

Definition with_console (f : list LogLine -> list LogLine) (w : World) : World :=
  {| files := files w; calls := calls w; console := f (console w);
     screen := screen w; background := background w |}.

Definition with_screen (f : Screen -> Screen) (w : World) : World :=
  {| files := files w; calls := calls w; console := console w;
     screen := f (screen w); background := background w |}.

Definition with_background (f : list Z -> list Z) (w : World) : World :=
  {| files := files w; calls := calls w; console := console w;
     screen := screen w; background := f (background w) |}.

Definition M := Async World Exn.

Definition called (c : Call) : M unit := modify (with_calls (fun l => l ++ [c])).

Definition print (l : LogLine) : M unit := modify (with_console (fun ls => ls ++ [l])).

End Phone.

(** ** The client resolver (src/services/supabase.ts) *)

Module Supabase.

Import Js Phone.
Local Open Scope async_scope.

Section Client.
Context (P : Platform).

(** What [getNasaImageOfDay] does with the [{ data, error }] it awaited:
    only an HTTP error whose body carries [errorCode === "NASA_NO_DATA"] is
    thrown; after every other error the function falls through to
    [return data]. [error.context.json()] rejects when the body does not
    parse. *)
Definition settle (r : Functions.InvokeResult) : outcome Exn (option NasaImageResponse) :=
  match Functions.error r with
  | Some (Functions.FunctionsHttpError context_json) =>
      match context_json with
      | None => Throws (SyntaxError "Unexpected token in JSON")
      | Some body =>
          match field "errorCode" body with
          | Some (JString errorCode) =>
              if String.eqb errorCode "NASA_NO_DATA"
              then Throws (NasaNoDataError (string_field "error" body)
                                           (string_field "date" body))
              else Returns (Functions.data r)
          | _ => Returns (Functions.data r)
          end
      end
  | Some (Functions.FunctionsRelayError _) => Returns (Functions.data r)
  | Some (Functions.FunctionsFetchError _) => Returns (Functions.data r)
  | None => Returns (Functions.data r)
  end.

(** What [getNasaImageOfDay] prints on the way: the response it awaited,
    always, and the message of a relay or fetch error. *)
Definition report (r : Functions.InvokeResult) : list LogLine :=
  Info "[Supabase] getNasaImageOfDay response"
  :: match Functions.error r with
     | Some (Functions.FunctionsRelayError message) => [Info ("Relay error: " +:+ message)]
     | Some (Functions.FunctionsFetchError message) => [Info ("Fetch error: " +:+ message)]
     | _ => []
     end.

(** [getNasaImageOfDay(date)] *)
Definition getNasaImageOfDay (d : string) : M (option NasaImageResponse) :=
  called (Invoke d) ;;
  modify (with_console (fun ls => ls ++ report (invoke P d))) ;;
  lift (settle (invoke P d)).

(** [getNasaImagePublicUrl(storagePath)], with supabase-js's layout of
    public object URLs. *)
Definition getNasaImagePublicUrl (storagePath : string) : string :=
  supabaseUrl P +:+ "/storage/v1/object/public/nasa-images/" +:+ storagePath.

End Client.

End Supabase.

(** ** The first version of the client resolver

    The repository also holds the resolver as it was before the no-data signal
    was introduced (the other copy of src/services/supabase.ts): it throws
    whatever error [invoke] hands back, as the object it is. *)

Module SupabaseV1.

Import Phone.
Local Open Scope async_scope.

Section Client.
Context (P : Platform).

(** [getNasaImageOfDay(date)] *)
Definition getNasaImageOfDay (d : string)
  : Async World Functions.FunctionsError (option NasaImageResponse) :=
  modify (with_calls (fun l => l ++ [Invoke d])) ;;
  match Functions.error (invoke P d) with
  | Some error => throw error
  | None => ret (Functions.data (invoke P d))
  end.

End Client.

End SupabaseV1.

(** ** The local image cache (src/services/imageCache.ts) *)

Module ImageCache.

Import Js Phone Supabase.
Local Open Scope async_scope.

Section Cache.
Context (P : Platform).

Definition CACHE_DIR : string := cacheDirectory P +:+ "nasa-images/".

(** [(await getInfoAsync(path)).exists] *)
Definition getInfoAsync (path : string) : M bool :=
  called (GetInfo path) ;;
  let* w := get in
  ret (bool_decide (path ∈ files w)).

Definition makeDirectoryAsync (path : string) : M unit :=
  called (MakeDirectory path) ;;
  modify (with_files (fun fs => {[path]} ∪ fs)).

(** [downloadAsync(u, fileUri)]: expo stores the response body at
    [fileUri] and resolves with the status, whatever the status is; the
    [uri] of the result is [fileUri]. *)
Definition downloadAsync (u fileUri : string) : M (string * Z) :=
  called (Download u fileUri) ;;
  match download P u with
  | Fails reason => throw (Error reason)
  | Completes st =>
      modify (with_files (fun fs => {[fileUri]} ∪ fs)) ;;
      ret (fileUri, st)
  end.

Definition ensureCacheDir : M unit :=
  let* dirExists := getInfoAsync CACHE_DIR in
  if negb dirExists then makeDirectoryAsync CACHE_DIR else ret tt.

Definition getCacheFilePath (d : string) : string := CACHE_DIR +:+ d +:+ ".jpg".

Definition downloadAndCache (u d : string) : M string :=
  ensureCacheDir ;;
  let localUri := getCacheFilePath d in
  try_catch
    (let* downloadResult := downloadAsync u localUri in
     if negb (snd downloadResult =? 200)
     then throw (Error ("Download failed with status " +:+ show (snd downloadResult)))
     else ret (fst downloadResult))
    (fun error => print (Fail "[ImageCache] Error downloading image") ;; throw error).

Definition getCachedImage (d : string) : M (option string) :=
  let localUri := getCacheFilePath d in
  let* fileExists := getInfoAsync localUri in
  if fileExists then ret (Some localUri) else ret None.

(** [getImage(nasaUrl, storagePath, date)]: the cache, then the one remote
    URL it is given, then the blob store. A cached path ends in [.jpg], so
    [if (cached)] asks whether there is one. *)
Definition getImage (nasaUrl storagePath : option string) (d : string) : M string :=
  let* cached := getCachedImage d in
  match cached with
  | Some localUri => ret localUri
  | None =>
      let* fromNasa :=
        if truthy_opt nasaUrl then
          try_catch
            (let* uri := downloadAndCache (default "" nasaUrl) d in ret (Some uri))
            (fun _ =>
               print (Warn "[ImageCache] Failed to download from NASA, trying Supabase fallback") ;;
               ret None)
        else ret None in
      match fromNasa with
      | Some uri => ret uri
      | None =>
          if truthy_opt storagePath then
            try_catch (downloadAndCache (getNasaImagePublicUrl P (default "" storagePath)) d)
                      (fun error => print (Fail "[ImageCache] Failed to download from Supabase") ;;
                                    throw error)
          else throw (Error "No valid image URL available")
      end
  end.

Definition preloadImage (nasaUrl storagePath : option string) (d : string) : M unit :=
  try_catch (let* _ := getImage nasaUrl storagePath d in ret tt)
            (fun _ => print (Warn "[ImageCache] Failed to preload image")).

(** [deleteAsync(path, { idempotent: true })] on a directory: the directory
    goes with every entry below it, and a missing directory is no error.
    [path] ends with a slash, so the entries below it are the paths it is a
    prefix of. *)
Definition deleteAsync (path : string) : M unit :=
  modify (with_files (filter (fun p => String.prefix path p = false))).

(** [clearCache()] *)
Definition clearCache : M unit :=
  try_catch
    (let* dirExists := getInfoAsync CACHE_DIR in
     if dirExists
     then deleteAsync CACHE_DIR ;; print (Info "[ImageCache] Cache cleared")
     else ret tt)
    (fun _ => print (Fail "[ImageCache] Error clearing cache")).

End Cache.

End ImageCache.

(** ** The screen controller (src/screens/NasaApodScreen.tsx) *)

Module NasaApodScreen.

Import Js Phone Supabase ImageCache.
Local Open Scope async_scope.

Definition MAX_DAYS_BACK : Z := 50.
Definition MAX_RETRY_DAYS : nat := 20.

(** A [Date] is its time value, milliseconds since the epoch; calendar
    fields are read in a zone without offset or daylight saving. *)
Definition msPerDay : Z := 86400000.

(** [getFullYear()], [getMonth() + 1] and [getDate()] of the day numbered
    [z] since the epoch (proleptic Gregorian calendar). *)
Definition civil (z : Z) : Z * Z * Z :=
  let z := z + 719468 in
  let era := z / 146097 in
  let doe := z - era * 146097 in
  let yoe := (doe - doe / 1460 + doe / 36524 - doe / 146096) / 365 in
  let doy := doe - (365 * yoe + yoe / 4 - yoe / 100) in
  let mp := (5 * doy + 2) / 153 in
  let d := doy - (153 * mp + 2) / 5 + 1 in
  let m := if mp <? 10 then mp + 3 else mp - 9 in
  (if m <=? 2 then yoe + era * 400 + 1 else yoe + era * 400, m, d).

Definition formatDate (date : Z) : string :=
  let '(year, month, day) := civil (date / msPerDay) in
  show year +:+ "-" +:+ padStart2 (show month) +:+ "-" +:+ padStart2 (show day).

(** [result.setDate(result.getDate() + days)] *)
Definition addDays (date days : Z) : Z := date + days * msPerDay.

Definition setCurrentDate (d : Z) : World -> World :=
  with_screen (fun s => {| currentDate := d; imageData := imageData s;
                           localImageUri := localImageUri s; loading := loading s;
                           error := error s |}).

Definition setImageData (i : option ImageDetails) : World -> World :=
  with_screen (fun s => {| currentDate := currentDate s; imageData := i;
                           localImageUri := localImageUri s; loading := loading s;
                           error := error s |}).

Definition setLocalImageUri (u : option string) : World -> World :=
  with_screen (fun s => {| currentDate := currentDate s; imageData := imageData s;
                           localImageUri := u; loading := loading s;
                           error := error s |}).

Definition setLoading (b : bool) : World -> World :=
  with_screen (fun s => {| currentDate := currentDate s; imageData := imageData s;
                           localImageUri := localImageUri s; loading := b;
                           error := error s |}).

Definition setError (e : option string) : World -> World :=
  with_screen (fun s => {| currentDate := currentDate s; imageData := imageData s;
                           localImageUri := localImageUri s; loading := loading s;
                           error := e |}).

(** A call of [preloadImageForDate] that is not awaited. *)
Definition spawn (d : Z) : M unit := modify (with_background (fun l => l ++ [d])).

(** [preloadAdjacentImages(date)]; [today] is its [new Date()]. *)
Definition preloadAdjacentImages (today date : Z) : M unit :=
  let yesterday := addDays date (-1) in
  let tomorrow := addDays date 1 in
  let oldestDate := addDays today (- MAX_DAYS_BACK) in
  (if yesterday >=? oldestDate then spawn yesterday else ret tt) ;;
  (if tomorrow <=? today then spawn tomorrow else ret tt).

(** The message of the give-up branch. *)
Definition errorMessage (retryCount : nat) : string :=
  if (MAX_RETRY_DAYS <=? retryCount)%nat
  then "No NASA images available for the last " +:+ show (Z.of_nat MAX_RETRY_DAYS) +:+ " days"
  else "No NASA images available in the allowed date range".

Section Controller.
Context (P : Platform).

(** [response.data], which throws when [response] is undefined. *)
Definition data_of (response : option NasaImageResponse) : M ImageDetails :=
  match response with
  | Some r => ret (data r)
  | None => throw (TypeError "Cannot read property 'data' of undefined")
  end.

Definition preloadImageForDate (date : Z) : M unit :=
  try_catch
    (let dateStr := formatDate date in
     print (Preloading dateStr) ;;
     let* response := getNasaImageOfDay P dateStr in
     let* details := data_of response in
     if String.eqb (media_type details) "image" then
       preloadImage P (Some (or_else (hdurl details) (url details)))
                    (storage_path details) dateStr
     else ret tt)
    (fun err =>
       if instanceof_NasaNoDataError err
       then print (Warn "[NasaApod] No data available for preload date")
       else print (Warn "[NasaApod] Failed to preload image")).

(** The [try] block of [loadImageForDate] from the point where the resolver
    has answered: the record is shown, an image is materialized through the
    cache and a video is handed over by its URL, then the neighbours are
    preloaded. *)
Definition present (today date : Z) (dateStr : string)
    (response : option NasaImageResponse) : M unit :=
  let* details := data_of response in
  modify (setImageData (Some details)) ;;
  (if String.eqb (media_type details) "image" then
     let* localUri := getImage P (Some (or_else (hdurl details) (url details)))
                               (storage_path details) dateStr in
     modify (setLocalImageUri (Some localUri))
   else modify (setLocalImageUri (Some (url details)))) ;;
  preloadAdjacentImages today date.

(** The [try] block of [loadImageForDate]. *)
Definition attempt (date : Z) (retryCount : nat) : M unit :=
  let dateStr := formatDate date in
  print (Loading dateStr retryCount) ;;
  let* response := getNasaImageOfDay P dateStr in
  present (clock P retryCount) date dateStr response.

(** [loadImageForDate(date, retryCount)]: the resets, the [try] block, the
    [catch] with its walk back by one day, and the [finally]. *)
Equations? loadImageForDate (date : Z) (retryCount : nat) (w : World) : World
  by wf (MAX_RETRY_DAYS - retryCount)%nat lt :=
loadImageForDate date retryCount w
  with attempt date retryCount
         (setLocalImageUri None (setError None (setLoading true w))) => {
  | (Returns _, w1) => setLoading false w1;
  | (Throws err, w1) with instanceof_NasaNoDataError err => {
    | false => setLoading false (setError (Some (message_of err)) w1);
    | true with lt_dec retryCount MAX_RETRY_DAYS => {
      | right _ => setLoading false (setError (Some (errorMessage retryCount)) w1);
      | left _ with addDays date (-1) >=? addDays (clock P retryCount) (- MAX_DAYS_BACK) => {
        | true =>
            setLoading false
              (loadImageForDate (addDays date (-1)) (S retryCount)
                 (setCurrentDate (addDays date (-1))
                    (with_console (fun ls => ls ++ [Retrying (S retryCount)]) w1)));
        | false => setLoading false (setError (Some (errorMessage retryCount)) w1) } } } }.
Proof. unfold MAX_RETRY_DAYS in *. lia. Qed.

(** One schedule of the preloads that were started: each runs to its end,
    in the order of the calls. *)
Fixpoint run_preloads (ds : list Z) : M unit :=
  match ds with
  | nil => ret tt
  | d :: ds' => preloadImageForDate d ;; run_preloads ds'
  end.

(** [goToNextDay()] and [goToPreviousDay()]: [today] is the handler's
    [new Date()], and the load the handler starts is followed to its end. *)
Definition goToNextDay (today : Z) (w : World) : World :=
  let nextDate := addDays (currentDate (screen w)) 1 in
  if nextDate <=? today
  then loadImageForDate nextDate 0 (setCurrentDate nextDate w)
  else w.

Definition goToPreviousDay (today : Z) (w : World) : World :=
  let previousDate := addDays (currentDate (screen w)) (-1) in
  let oldestDate := addDays today (- MAX_DAYS_BACK) in
  if previousDate >=? oldestDate
  then loadImageForDate previousDate 0 (setCurrentDate previousDate w)
  else w.

End Controller.

(** What the component renders: the spinner, the error text, the
    placeholder, or one of the two viewers with the overlay when it is
    switched on. *)
Inductive View :=
| Spinner
| Failure (details : string)
| NoImage
| ImageViewer (imageUri : string) (overlay : option ImageDetails)
| VideoViewer (videoUrl : string) (overlay : option ImageDetails).

Definition render (s : Screen) (showOverlay : bool) : View :=
  if loading s then Spinner
  else if truthy_opt (error s) then Failure (default "" (error s))
  else
    match imageData s, localImageUri s with
    | Some details, Some uri =>
        if truthy uri then
          let overlay := if showOverlay then Some details else None in
          if String.eqb (media_type details) "image"
          then ImageViewer uri overlay
          else VideoViewer uri overlay
        else NoImage
    | _, _ => NoImage
    end.

End NasaApodScreen.

(** ** Observations used by the properties *)

Module Observe.

Import Js.

(** How [supabase.functions.invoke] turns the endpoint's HTTP response into
    [{ data, error }]: a 2xx body is the data, any other status is a
    [FunctionsHttpError] that carries the response. *)
Definition decode (o : JObject) : option NasaImageResponse :=
  match field "data" o, field "cached" o with
  | Some (JRow r), Some (JBool c) => Some {| data := r; cached := c |}
  | _, _ => None
  end.

Definition relay (r : EdgeFunction.HttpResponse) : Functions.InvokeResult :=
  if (200 <=? EdgeFunction.resp_status r) && (EdgeFunction.resp_status r <=? 299) then
    {| Functions.data := match EdgeFunction.resp_body r with
                         | inr o => decode o
                         | inl _ => None
                         end;
       Functions.error := None |}
  else
    {| Functions.data := None;
       Functions.error :=
         Some (Functions.FunctionsHttpError
                 match EdgeFunction.resp_body r with
                 | inr o => Some o
                 | inl _ => None
                 end) |}.

Definition digit_value (c : ascii) : Z := Z.of_nat (nat_of_ascii c) - 48.

Definition leap_year (y : Z) : bool :=
  ((y mod 4 =? 0) && negb (y mod 100 =? 0)) || (y mod 400 =? 0).

Definition days_in_month (y m : Z) : Z :=
  if m =? 2 then (if leap_year y then 29 else 28)
  else if (m =? 4) || (m =? 6) || (m =? 9) || (m =? 11) then 30
  else 31.

(** The specification's notion of a well-formed date: an ISO calendar date,
    that is [YYYY-MM-DD] whose month and day exist. *)
Definition iso_calendar_date (s : string) : bool :=
  match list_ascii_of_string s with
  | [y1; y2; y3; y4; s1; m1; m2; s2; d1; d2] =>
      forallb is_digit [y1; y2; y3; y4; m1; m2; d1; d2]
      && Ascii.eqb s1 "-" && Ascii.eqb s2 "-"
      && (let y := 1000 * digit_value y1 + 100 * digit_value y2
                   + 10 * digit_value y3 + digit_value y4 in
          let m := 10 * digit_value m1 + digit_value m2 in
          let d := 10 * digit_value d1 + digit_value d2 in
          (1 <=? m) && (m <=? 12) && (1 <=? d) && (d <=? days_in_month y m))
  | _ => false
  end.

(** The server's store after one more call. *)
Definition logged (c : EdgeFunction.Call) (b : EdgeFunction.Backend) : EdgeFunction.Backend :=
  {| EdgeFunction.nasa_images := EdgeFunction.nasa_images b;
     EdgeFunction.bucket := EdgeFunction.bucket b;
     EdgeFunction.calls := EdgeFunction.calls b ++ [c] |}.

(** Rows that are in the table stay as they are. *)
Definition keeps_rows (b b' : EdgeFunction.Backend) : Prop :=
  forall k row,
    EdgeFunction.nasa_images b !! k = Some row ->
    EdgeFunction.nasa_images b' !! k = Some row.

(** The calls a run has added to the server's log. *)
Definition server_since (b b' : EdgeFunction.Backend) : list EdgeFunction.Call :=
  drop (length (EdgeFunction.calls b)) (EdgeFunction.calls b').

(** The resets at the head of [loadImageForDate]. *)
Definition resets (w : Phone.World) : Phone.World :=
  NasaApodScreen.setLocalImageUri None
    (NasaApodScreen.setError None (NasaApodScreen.setLoading true w)).

(** The world after a call of the resolver. *)
Definition resolved (P : Phone.Platform) (d : string) (w : Phone.World) : Phone.World :=
  Phone.with_console (fun ls => ls ++ Supabase.report (Phone.invoke P d))
    (Phone.with_calls (fun l => l ++ [Phone.Invoke d]) w).

(** The world after the first two steps of the [try] block. *)
Definition asked (P : Phone.Platform) (date : Z) (r : nat) (w : Phone.World) : Phone.World :=
  let dateStr := NasaApodScreen.formatDate date in
  resolved P dateStr (Phone.with_console (fun ls => ls ++ [Phone.Loading dateStr r]) w).

(** The world after the first two steps of [preloadImageForDate]. *)
Definition preload_asked (P : Phone.Platform) (date : Z) (w : Phone.World) : Phone.World :=
  let dateStr := NasaApodScreen.formatDate date in
  resolved P dateStr (Phone.with_console (fun ls => ls ++ [Phone.Preloading dateStr]) w).

(** The neighbours for which [preloadAdjacentImages] starts a preload. *)
Definition neighbours (today date : Z) : list Z :=
  let yesterday := NasaApodScreen.addDays date (-1) in
  let tomorrow := NasaApodScreen.addDays date 1 in
  let oldestDate := NasaApodScreen.addDays today (- NasaApodScreen.MAX_DAYS_BACK) in
  (if yesterday >=? oldestDate then [yesterday] else [])
  ++ (if tomorrow <=? today then [tomorrow] else []).

(** An exception other than the no-data signal. *)
Definition plain (e : Exn) : Prop := instanceof_NasaNoDataError e = false.

(** A failure of the endpoint that does not carry the no-data code: an HTTP
    error whose body has another [errorCode] or none, a relay error, a fetch
    error. *)
Definition other_failure (r : Functions.InvokeResult) : Prop :=
  match Functions.error r with
  | Some (Functions.FunctionsHttpError (Some body)) =>
      field "errorCode" body <> Some (JString "NASA_NO_DATA")
  | Some (Functions.FunctionsHttpError None) => False
  | Some (Functions.FunctionsRelayError _) => True
  | Some (Functions.FunctionsFetchError _) => True
  | None => False
  end.

(** The calls a run has added to the device's log. *)
Definition since (w w' : Phone.World) : list Phone.Call :=
  drop (length (Phone.calls w)) (Phone.calls w').

(** The URLs handed to [downloadAsync], in order. *)
Definition downloads (l : list Phone.Call) : list string :=
  omap (fun c => match c with Phone.Download u _ => Some u | _ => None end) l.

(** The dates handed to the resolution endpoint, in order. *)
Definition invokes (l : list Phone.Call) : list string :=
  omap (fun c => match c with Phone.Invoke d => Some d | _ => None end) l.

(** The probes of [loadImageForDate]: date and retry count, from the line it
    prints on entry. *)
Definition probes (w : Phone.World) : list (string * nat) :=
  omap (fun l => match l with Phone.Loading d r => Some (d, r) | _ => None end)
       (Phone.console w).

(** A download counts as a success when it completes with status 200. *)
Definition succeeds (P : Phone.Platform) (u : string) : bool :=
  match Phone.download P u with
  | Phone.Completes st => st =? 200
  | Phone.Fails _ => false
  end.

(** Trying candidate URLs in order until one succeeds: the URLs tried and
    whether one succeeded. *)
Fixpoint first_success (P : Phone.Platform) (candidates : list string) : list string * bool :=
  match candidates with
  | nil => (nil, false)
  | u :: rest =>
      if succeeds P u then ([u], true)
      else let '(tried, okay) := first_success P rest in (u :: tried, okay)
  end.

(** The download sources [getImage] has for its arguments. *)
Definition sources (P : Phone.Platform) (nasaUrl storagePath : option string) : list string :=
  (if truthy_opt nasaUrl then [default "" nasaUrl] else [])
  ++ (if truthy_opt storagePath
      then [Supabase.getNasaImagePublicUrl P (default "" storagePath)] else []).

(** The asset of a record can be shown: it is a video, or one of the download
    sources [getImage] has for it answers with status 200. *)
Definition asset_ready (P : Phone.Platform) (r : ImageDetails) : Prop :=
  String.eqb (media_type r) "image" = false
  \/ snd (first_success P (sources P (Some (or_else (hdurl r) (url r))) (storage_path r)))
     = true.

(** A preload that cannot complete: the resolver throws or hands back
    nothing, or the record is an image that is not in the cache and none of
    whose download sources answers with status 200. *)
Definition preload_fails (P : Phone.Platform) (d : Z) (w : Phone.World) : Prop :=
  match Supabase.settle (Phone.invoke P (NasaApodScreen.formatDate d)) with
  | Throws _ => True
  | Returns None => True
  | Returns (Some resp) =>
      String.eqb (media_type (data resp)) "image" = true
      /\ (ImageCache.getCacheFilePath P (NasaApodScreen.formatDate d) ∉ Phone.files w)
      /\ snd (first_success P (sources P (Some (or_else (hdurl (data resp)) (url (data resp))))
                                 (storage_path (data resp)))) = false
  end.

(** The three sources the specification lists for a record: the
    high-definition URL, the standard URL, the blob-store URL. *)
Definition spec_sources (P : Phone.Platform) (r : ImageDetails) : list string :=
  (if truthy_opt (hdurl r) then [default "" (hdurl r)] else [])
  ++ (if truthy (url r) then [url r] else [])
  ++ (if truthy_opt (storage_path r)
      then [Supabase.getNasaImagePublicUrl P (default "" (storage_path r))] else []).

(** The row a successful insert creates from the provider's record and the
    two storage paths. *)
Definition inserted_row (cloud : EdgeFunction.Cloud) (n : Apod.NasaApodResponse)
    (storagePath hdStoragePath : option string) : ImageDetails :=
  {| id := EdgeFunction.new_id cloud;
     date := Apod.date n;
     title := Apod.title n;
     explanation := Apod.explanation n;
     url := Apod.url n;
     media_type := Apod.media_type n;
     copyright := Apod.copyright n;
     hdurl := Apod.hdurl n;
     storage_path := storagePath;
     thumbnail_storage_path := hdStoragePath;
     created_at := EdgeFunction.db_now cloud;
     updated_at := EdgeFunction.db_now cloud |}.

(** The success body of the endpoint. *)
Definition success (row : ImageDetails) (c : bool) : EdgeFunction.HttpResponse :=
  EdgeFunction.json_response 200 [("data", JRow row); ("cached", JBool c)].

(** The error body of the endpoint. *)
Definition failure (msg : string) : EdgeFunction.HttpResponse :=
  EdgeFunction.json_response 400 [("error", JString msg)].

(** Blobs that are in the bucket stay as they are. *)
Definition keeps_blobs (b b' : EdgeFunction.Backend) : Prop :=
  forall k blob,
    EdgeFunction.bucket b !! k = Some blob ->
    EdgeFunction.bucket b' !! k = Some blob.

(** The call to the provider does not yield a record: the request is
    rejected, the response is not [ok], or its body does not parse. *)
Definition provider_fails (cloud : EdgeFunction.Cloud) (key d : string) : Prop :=
  match EdgeFunction.net cloud (EdgeFunction.nasaApiUrl key d) with
  | EdgeFunction.Rejects _ => True
  | EdgeFunction.Resolves r => EdgeFunction.ok r = false \/ EdgeFunction.json r = None
  end.

(** A character of the sanitised part of an object name: a digit, a
    lower-case letter or the underscore. *)
Definition safe_char (c : ascii) : bool :=
  is_digit c || is_lower c || Ascii.eqb c "_".

(** The request that [supabase.functions.invoke(name, { body: { date } })]
    sends for [date]: a POST to the function's URL, which has no query string;
    the date travels in the JSON body, which the handler does not read. *)
Definition invoke_request (d : string) : EdgeFunction.Request :=
  {| EdgeFunction.method := "POST"; EdgeFunction.date_param := None |}.

(** The cache directory is in order: an entry below it is there only when
    the directory is. *)
Definition cache_consistent (P : Phone.Platform) (w : Phone.World) : Prop :=
  forall p, String.prefix (ImageCache.CACHE_DIR P) p = true ->
            p ∈ Phone.files w -> ImageCache.CACHE_DIR P ∈ Phone.files w.

(** A step either leaves the files as they are or leaves the cache directory
    in place. *)
Definition settles_cache (P : Phone.Platform) (w w' : Phone.World) : Prop :=
  Phone.files w' = Phone.files w \/ ImageCache.CACHE_DIR P ∈ Phone.files w'.

(** No file disappears. *)
Definition keeps_files (w w' : Phone.World) : Prop := Phone.files w ⊆ Phone.files w'.

(** The dates the screen lets the user reach at time [today]: from
    [MAX_DAYS_BACK] days back up to now. *)
Definition in_window (today d : Z) : Prop :=
  NasaApodScreen.addDays today (- NasaApodScreen.MAX_DAYS_BACK) <= d <= today.

(** The resolver does not signal "no data" for the date: it returns, or it
    throws something else. *)
Definition answers (P : Phone.Platform) (date : Z) : Prop :=
  match Supabase.settle (Phone.invoke P (NasaApodScreen.formatDate date)) with
  | Returns _ => True
  | Throws e => plain e
  end.

(** [date.getFullYear()] *)
Definition getFullYear (date : Z) : Z :=
  fst (fst (NasaApodScreen.civil (date / NasaApodScreen.msPerDay))).

(** Reading a [YYYY-MM-DD] string back: year, month and day. *)
Definition parse_date (s : string) : option (Z * Z * Z) :=
  match list_ascii_of_string s with
  | [y1; y2; y3; y4; _; m1; m2; _; d1; d2] =>
      Some (1000 * digit_value y1 + 100 * digit_value y2
            + 10 * digit_value y3 + digit_value y4,
            10 * digit_value m1 + digit_value m2,
            10 * digit_value d1 + digit_value d2)
  | _ => None
  end.

(** The number of the day, counted from the epoch, that has the given
    year, month and day in the proleptic Gregorian calendar. *)
Definition days_from_civil (ymd : Z * Z * Z) : Z :=
  let '(y, m, d) := ymd in
  let y := if m <=? 2 then y - 1 else y in
  let era := y / 400 in
  let yoe := y - era * 400 in
  let doy := (153 * (if m >? 2 then m - 3 else m + 9) + 2) / 5 + d - 1 in
  let doe := yoe * 365 + yoe / 4 - yoe / 100 + doy in
  era * 146097 + doe - 719468.

(** [p] holds for the [2 ^ n] integers from [lo] on. *)
Fixpoint all_from (n : nat) (lo : Z) (p : Z -> bool) : bool :=
  match n with
  | O => p lo
  | S n' => all_from n' lo p && all_from n' (lo + 2 ^ Z.of_nat n') p
  end.

(** A year of four digits is rendered as its four digits. *)
Definition year_checks (y : Z) : bool :=
  match list_ascii_of_string (show y) with
  | [a; b; c; d] =>
      forallb is_digit [a; b; c; d]
      && (1000 * digit_value a + 100 * digit_value b + 10 * digit_value c + digit_value d =? y)
  | _ => false
  end.

(** A month or a day is rendered, after padding, as its two digits. *)
Definition two_digit_checks (n : Z) : bool :=
  match list_ascii_of_string (padStart2 (show n)) with
  | [a; b] => forallb is_digit [a; b] && (10 * digit_value a + digit_value b =? n)
  | _ => false
  end.

(** The answer of a column of type [DATE] to a comparison with the string
    [d]: a string that names no day of the calendar, or a day of the year
    zero, cannot be read as a date, and the query fails with SQLSTATE 22008
    (the server's message goes on with the string it could not read). *)
Definition out_of_range : EdgeFunction.PostgrestErr :=
  {| EdgeFunction.code := "22008";
     EdgeFunction.pg_message := "date/time field value out of range" |}.

Definition date_column (d : string) : option EdgeFunction.PostgrestErr :=
  if iso_calendar_date d && negb (String.prefix "0000" d) then None
  else Some out_of_range.

(** A data base whose [date] column has the type [DATE], as the migration
    creates it: a select for a string that names no calendar day fails, and
    not with "no rows". *)
Definition date_typed (cloud : EdgeFunction.Cloud) : Prop :=
  forall d, iso_calendar_date d = false ->
    exists e, EdgeFunction.select_fault cloud d = Some e
              /\ String.eqb (EdgeFunction.code e) "PGRST116" = false.

(** The HTTP response of the edge function to [req] on the backend [b]; the
    runtime answers 500 for a handler that throws. *)
Definition response (cloud : EdgeFunction.Cloud) (req : EdgeFunction.Request)
    (b : EdgeFunction.Backend) : EdgeFunction.HttpResponse :=
  match fst (EdgeFunction.serve cloud req b) with
  | Returns r => r
  | Throws _ =>
      {| EdgeFunction.resp_status := 500;
         EdgeFunction.resp_body := inl "Internal Server Error" |}
  end.

(** The device [P] when its endpoint is the edge function itself: [invoke]
    sends the request [req d] and hands back what supabase-js makes of the
    response. Every request is answered from the state [b] of the stores;
    what is proved of the device holds for every [b]. *)
Definition deployed (cloud : EdgeFunction.Cloud) (b : EdgeFunction.Backend)
    (req : string -> EdgeFunction.Request) (P : Phone.Platform) : Phone.Platform :=
  {| Phone.cacheDirectory := Phone.cacheDirectory P;
     Phone.supabaseUrl := Phone.supabaseUrl P;
     Phone.invoke := fun d => relay (response cloud (req d) b);
     Phone.download := Phone.download P;
     Phone.clock := Phone.clock P |}.

End Observe.

(** ** Concrete worlds *)

Module Examples.

Import EdgeFunction.

Definition jpeg : Blob := {| blob_type := "image/jpeg"; blob_bytes := "" |}.

Definition andromeda : Apod.NasaApodResponse :=
  {| Apod.date := "2024-10-05";
     Apod.explanation := "The nearest large galaxy";
     Apod.hdurl := Some "https://apod.nasa.gov/image/m31_hd.jpg";
     Apod.media_type := "image";
     Apod.service_version := "v1";
     Apod.title := "M31: The Andromeda Galaxy";
     Apod.url := "https://apod.nasa.gov/image/m31.jpg";
     Apod.copyright := None |}.

(** A provider that has the picture of 2024-10-05, serves its two images and
    answers 404 "No data available" for every other date. *)
Definition provider (u : string) : FetchReply :=
  if String.eqb u (nasaApiUrl "KEY" "2024-10-05") then
    Resolves {| status := 200; text := ""; json := Some andromeda; blob := jpeg |}
  else if String.prefix "https://apod.nasa.gov/image/" u then
    Resolves {| status := 200; text := ""; json := None; blob := jpeg |}
  else
    Resolves {| status := 404; text := "No data available for date";
                json := None; blob := jpeg |}.

(** The cloud of the examples: the key is set, the table is the one the
    migration creates, with its [date] column of type [DATE], and neither the
    data base nor the blob store fails otherwise. *)
Definition cloud : Cloud :=
  {| NASA_API_KEY := Some "KEY";
     net := provider;
     select_fault := Observe.date_column;
     insert_fault := None;
     upload_fault := fun _ => None;
     racing := ∅;
     new_id := "6f1c";
     db_now := "2024-10-05T08:00:00Z" |}.

Definition request (d : string) : Request :=
  {| method := "POST"; date_param := Some d |}.

Definition stored : ImageDetails :=
  {| id := "01aa";
     date := "2024-10-05";
     title := "M31: The Andromeda Galaxy";
     explanation := "The nearest large galaxy";
     url := "https://apod.nasa.gov/image/m31.jpg";
     media_type := "image";
     copyright := None;
     hdurl := Some "https://apod.nasa.gov/image/m31_hd.jpg";
     storage_path := Some "nasa-images/2024-10-05-m31__the_andromeda_galaxy.jpg";
     thumbnail_storage_path := None;
     created_at := "2024-10-05T07:00:00Z";
     updated_at := "2024-10-05T07:00:00Z" |}.

(** A data base that already holds the row of 2024-10-05. *)
Definition seeded : Backend :=
  {| nasa_images := {[ "2024-10-05" := stored ]}; bucket := ∅; calls := [] |}.

(** The same cloud when a concurrent request commits the row of 2024-10-05
    between this request's select and its insert. *)
Definition cloud_with_race : Cloud :=
  {| NASA_API_KEY := Some "KEY";
     net := provider;
     select_fault := Observe.date_column;
     insert_fault := None;
     upload_fault := fun _ => None;
     racing := {[ "2024-10-05" := stored ]};
     new_id := "6f1c";
     db_now := "2024-10-05T08:00:00Z" |}.

(** The same cloud when the provider is down for every request. *)
Definition cloud_down : Cloud :=
  {| NASA_API_KEY := Some "KEY";
     net := fun _ => Resolves {| status := 503; text := "Service Unavailable";
                                 json := None; blob := jpeg |};
     select_fault := Observe.date_column;
     insert_fault := None;
     upload_fault := fun _ => None;
     racing := ∅;
     new_id := "6f1c";
     db_now := "2024-10-05T08:00:00Z" |}.

(** The same cloud without the provider's key. *)
Definition cloud_without_key : Cloud :=
  {| NASA_API_KEY := None;
     net := provider;
     select_fault := Observe.date_column;
     insert_fault := None;
     upload_fault := fun _ => None;
     racing := ∅;
     new_id := "6f1c";
     db_now := "2024-10-05T08:00:00Z" |}.

(** The record of a day whose picture is a video. *)
Definition eclipse : Apod.NasaApodResponse :=
  {| Apod.date := "2024-10-04";
     Apod.explanation := "An annular eclipse, filmed";
     Apod.hdurl := None;
     Apod.media_type := "video";
     Apod.service_version := "v1";
     Apod.title := "Ring of Fire";
     Apod.url := "https://www.youtube.com/embed/ring";
     Apod.copyright := None |}.

Definition eclipse_reply : Response :=
  {| status := 200; text := ""; json := Some eclipse; blob := jpeg |}.

(** A cloud whose provider has the video of 2024-10-04. *)
Definition cloud_video : Cloud :=
  {| NASA_API_KEY := Some "KEY";
     net := fun _ => Resolves eclipse_reply;
     select_fault := Observe.date_column;
     insert_fault := None;
     upload_fault := fun _ => None;
     racing := ∅;
     new_id := "6f1c";
     db_now := "2024-10-05T08:00:00Z" |}.

(** A cloud whose provider has the record of 2024-10-05 while the image
    host cannot be reached. *)
Definition cloud_image_unreachable : Cloud :=
  {| NASA_API_KEY := Some "KEY";
     net := fun u =>
              if String.eqb u (nasaApiUrl "KEY" "2024-10-05")
              then Resolves {| status := 200; text := ""; json := Some andromeda; blob := jpeg |}
              else Rejects "connection refused";
     select_fault := Observe.date_column;
     insert_fault := None;
     upload_fault := fun _ => None;
     racing := ∅;
     new_id := "6f1c";
     db_now := "2024-10-05T08:00:00Z" |}.

(** A cloud whose data base times out on every select. *)
Definition cloud_select_down : Cloud :=
  {| NASA_API_KEY := Some "KEY";
     net := provider;
     select_fault := fun _ => Some {| code := "57014";
                                      pg_message := "canceling statement due to timeout" |};
     insert_fault := None;
     upload_fault := fun _ => None;
     racing := ∅;
     new_id := "6f1c";
     db_now := "2024-10-05T08:00:00Z" |}.

(** The record of a day whose image has no high-definition version. *)
Definition comet : Apod.NasaApodResponse :=
  {| Apod.date := "2024-10-06";
     Apod.explanation := "A comet at dawn";
     Apod.hdurl := None;
     Apod.media_type := "image";
     Apod.service_version := "v1";
     Apod.title := "Comet at Dawn";
     Apod.url := "https://apod.nasa.gov/image/comet.jpg";
     Apod.copyright := Some "A. Observer" |}.

Definition comet_reply : Response :=
  {| status := 200; text := ""; json := Some comet; blob := jpeg |}.

(** A cloud whose provider has the record of 2024-10-06 and whose data base
    refuses every insert. *)
Definition cloud_insert_down : Cloud :=
  {| NASA_API_KEY := Some "KEY";
     net := fun _ => Resolves comet_reply;
     select_fault := Observe.date_column;
     insert_fault := Some {| code := "57014"; pg_message := "canceling statement due to timeout" |};
     upload_fault := fun _ => None;
     racing := ∅;
     new_id := "6f1c";
     db_now := "2024-10-06T08:00:00Z" |}.

(** The provider's answer for 2024-10-05. *)
Definition andromeda_reply : Response :=
  {| status := 200; text := ""; json := Some andromeda; blob := jpeg |}.

End Examples.

Module PhoneExamples.

Import Phone.

Definition hd : string := "https://apod.nasa.gov/image/m31_hd.jpg".
Definition std : string := "https://apod.nasa.gov/image/m31.jpg".

(** The record the endpoint holds for 2024-10-03. *)
Definition picture : ImageDetails :=
  {| id := "01aa";
     date := "2024-10-03";
     title := "M31: The Andromeda Galaxy";
     explanation := "The nearest large galaxy";
     url := std;
     media_type := "image";
     copyright := None;
     hdurl := Some hd;
     storage_path := Some "2024-10-03-m31__the_andromeda_galaxy.jpg";
     thumbnail_storage_path := None;
     created_at := "2024-10-03T07:00:00Z";
     updated_at := "2024-10-03T07:00:00Z" |}.

Definition no_data_body (d : string) : JObject :=
  [("error", JString "No data available for this date");
   ("errorCode", JString "NASA_NO_DATA");
   ("date", JString d)].

(** An endpoint that has 2024-10-03 and reports no data for any other date. *)
Definition endpoint (d : string) : Functions.InvokeResult :=
  if String.eqb d "2024-10-03" then
    {| Functions.data := Some {| data := picture; cached := true |};
       Functions.error := None |}
  else
    {| Functions.data := None;
       Functions.error := Some (Functions.FunctionsHttpError (Some (no_data_body d))) |}.

(** 2024-10-05, 00:00 and 12:00. *)
Definition midnight : Z := 1728086400000.
Definition noon : Z := 1728129600000.

(** Every download completes with status 200. *)
Definition online : Platform :=
  {| cacheDirectory := "file:///cache/";
     supabaseUrl := "https://project.supabase.co";
     invoke := endpoint;
     download := fun _ => Completes 200;
     clock := fun _ => noon |}.

(** The high-definition image cannot be fetched, the standard one can, the
    copy in the blob store is missing. *)
Definition hd_down : Platform :=
  {| cacheDirectory := "file:///cache/";
     supabaseUrl := "https://project.supabase.co";
     invoke := endpoint;
     download := fun u => if String.eqb u hd then Fails "connection reset"
                          else if String.eqb u std then Completes 200
                          else Completes 404;
     clock := fun _ => noon |}.

(** The endpoint is unreachable, or answers with an error that is not the
    no-data one. *)
Definition offline : Platform :=
  {| cacheDirectory := "file:///cache/";
     supabaseUrl := "https://project.supabase.co";
     invoke := fun _ => {| Functions.data := None;
                           Functions.error :=
                             Some (Functions.FunctionsFetchError "Network request failed") |};
     download := fun _ => Fails "offline";
     clock := fun _ => noon |}.

(** A device whose cache holds the image of 2024-10-03, beside a file of
    the app. *)
Definition stocked : World :=
  {| files := {[ "file:///cache/nasa-images/";
                 "file:///cache/nasa-images/2024-10-03.jpg";
                 "file:///cache/settings.json" ]};
     calls := [];
     console := [];
     screen := {| currentDate := midnight; imageData := None; localImageUri := None;
                  loading := false; error := None |};
     background := [] |}.

(** The endpoint reports no data for every date. *)
Definition barren : Platform :=
  {| cacheDirectory := "file:///cache/";
     supabaseUrl := "https://project.supabase.co";
     invoke := fun d =>
                 {| Functions.data := None;
                    Functions.error :=
                      Some (Functions.FunctionsHttpError (Some (no_data_body d))) |};
     download := fun _ => Completes 200;
     clock := fun _ => noon |}.

(** The high-definition image cannot be fetched and the copy in the blob
    store can. *)
Definition hd_lost : Platform :=
  {| cacheDirectory := "file:///cache/";
     supabaseUrl := "https://project.supabase.co";
     invoke := endpoint;
     download := fun u => if String.eqb u hd then Fails "connection reset"
                          else Completes 200;
     clock := fun _ => noon |}.

(** A gateway in front of the endpoint answers 502 with a page that is not
    JSON. *)
Definition gateway_down : Platform :=
  {| cacheDirectory := "file:///cache/";
     supabaseUrl := "https://project.supabase.co";
     invoke := fun _ => {| Functions.data := None;
                           Functions.error := Some (Functions.FunctionsHttpError None) |};
     download := fun _ => Completes 200;
     clock := fun _ => noon |}.

(** 2024-10-06, 00:00, and a device whose clock shows noon of that day. *)
Definition next_midnight : Z := 1728172800000.

Definition next_day : Platform :=
  {| cacheDirectory := "file:///cache/";
     supabaseUrl := "https://project.supabase.co";
     invoke := endpoint;
     download := fun _ => Completes 200;
     clock := fun _ => 1728216000000 |}.

(** A device with an empty cache, showing today. *)
Definition blank : World :=
  {| files := ∅;
     calls := [];
     console := [];
     screen := {| currentDate := midnight; imageData := None; localImageUri := None;
                  loading := true; error := None |};
     background := [] |}.

End PhoneExamples.

(** * Properties *)

(** ** The monad's equations *)

Section EffFacts.
Context {S E : Type}.

Lemma bind_returns {A B} (m : Async S E A) (k : A -> Async S E B) s a s' :
  m s = (Returns a, s') -> bind m k s = k a s'.
Proof. intros H. unfold bind. rewrite H. reflexivity. Qed.

Lemma bind_throws {A B} (m : Async S E A) (k : A -> Async S E B) s e s' :
  m s = (Throws e, s') -> bind m k s = (Throws e, s').
Proof. intros H. unfold bind. rewrite H. reflexivity. Qed.

Lemma try_catch_returns {A} (m : Async S E A) h s a s' :
  m s = (Returns a, s') -> try_catch m h s = (Returns a, s').
Proof. intros H. unfold try_catch. rewrite H. reflexivity. Qed.

Lemma try_catch_throws {A} (m : Async S E A) h s e s' :
  m s = (Throws e, s') -> try_catch m h s = h e s'.
Proof. intros H. unfold try_catch. rewrite H. reflexivity. Qed.

Lemma try_catch_bind_returns {A B} (m : Async S E A) (k : A -> Async S E B) h s a s' :
  m s = (Returns a, s') -> try_catch (bind m k) h s = try_catch (k a) h s'.
Proof. intros H. unfold try_catch, bind. rewrite H. reflexivity. Qed.

Lemma try_catch_bind_throws {A B} (m : Async S E A) (k : A -> Async S E B) h s e s' :
  m s = (Throws e, s') -> try_catch (bind m k) h s = h e s'.
Proof. intros H. unfold try_catch, bind. rewrite H. reflexivity. Qed.

Section Preorder.
Context (R : S -> S -> Prop) `{!PreOrder R}.

Lemma maintains_ret {A} (a : A) : maintains R (ret a : Async S E A).
Proof. intros s. reflexivity. Qed.

Lemma maintains_throw {A} (e : E) : maintains R (@throw S E A e).
Proof. intros s. reflexivity. Qed.

Lemma maintains_get : maintains R (@get S E).
Proof. intros s. reflexivity. Qed.

Lemma maintains_lift {A} (o : outcome E A) : maintains R (lift o).
Proof. intros s. reflexivity. Qed.

Lemma maintains_bind {A B} (m : Async S E A) (k : A -> Async S E B) :
  maintains R m -> (forall a, maintains R (k a)) -> maintains R (bind m k).
Proof.
  intros Hm Hk s. unfold bind. specialize (Hm s).
  destruct (m s) as [[a|e] s']; simpl in *.
  - etransitivity; [exact Hm | apply Hk].
  - exact Hm.
Qed.

Lemma maintains_try_catch {A} (m : Async S E A) h :
  maintains R m -> (forall e, maintains R (h e)) -> maintains R (try_catch m h).
Proof.
  intros Hm Hh s. unfold try_catch. specialize (Hm s).
  destruct (m s) as [[a|e] s']; simpl in *.
  - exact Hm.
  - etransitivity; [exact Hm | apply Hh].
Qed.
End Preorder.

(** Two relations that computations maintain: a component of the store is
    left as it was, and a log in the store only grows. *)
#[global] Instance unchanged_preorder {X} (f : S -> X) : PreOrder (unchanged f).
Proof.
  split.
  - intros s. reflexivity.
  - intros s1 s2 s3 H12 H23. unfold unchanged in *. congruence.
Qed.

#[global] Instance grows_preorder {X} (f : S -> list X) : PreOrder (grows f).
Proof.
  split.
  - intros s. exists []. symmetry. apply app_nil_r.
  - intros s1 s2 s3 [l1 H1] [l2 H2]. exists (l1 ++ l2).
    rewrite H2, H1. symmetry. apply app_assoc.
Qed.

Lemma modify_unchanged {X} (f : S -> X) (g : S -> S) :
  (forall s, f (g s) = f s) -> maintains (unchanged f) (modify g : Async S E unit).
Proof. intros H s. apply H. Qed.

Lemma modify_grows {X} (f : S -> list X) (g : S -> S) :
  (forall s, exists l, f (g s) = f s ++ l) -> maintains (grows f) (modify g : Async S E unit).
Proof. intros H s. apply H. Qed.

End EffFacts.

(** Frame conditions are proved by walking down a computation. *)
Create HintDb frame discriminated.

#[global] Hint Unfold Observe.probes Observe.invokes Observe.downloads : frame.

Ltac head_of t :=
  lazymatch t with
  | ?f _ => head_of f
  | _ => t
  end.

Ltac frame_step :=
  first
    [ solve [auto with frame]
    | apply maintains_ret; exact _
    | apply maintains_throw; exact _
    | apply maintains_get; exact _
    | apply maintains_lift; exact _
    | apply maintains_bind; [exact _ | | intros ?]
    | apply maintains_try_catch; [exact _ | | intros ?]
    | apply modify_unchanged; intros ?; autounfold with frame; simpl;
      rewrite ?filter_app, ?omap_app; simpl; rewrite ?app_nil_r; reflexivity
    | apply modify_grows; intros ?; simpl;
      solve [eexists; reflexivity | exists []; symmetry; apply app_nil_r]
    | match goal with
      | |- maintains _ (match ?x with _ => _ end) => destruct x
      | |- maintains _ ?m => let h := head_of m in progress unfold h
      end ].

Ltac frame := repeat frame_step.

(** ** Exceptions that escape *)

Section Throwing.
Context {S E : Type} (Q : E -> Prop).

Lemma throws_only_ret {A} (a : A) : throws_only Q (ret a : Async S E A).
Proof. intros s e s' H. discriminate H. Qed.

Lemma throws_only_get : throws_only Q (@get S E).
Proof. intros s e s' H. discriminate H. Qed.

Lemma throws_only_modify f : throws_only Q (modify f : Async S E unit).
Proof. intros s e s' H. discriminate H. Qed.

Lemma throws_only_throw {A} (e : E) : Q e -> throws_only Q (@throw S E A e).
Proof. intros He s e' s' [= <- _]. exact He. Qed.

Lemma throws_only_bind {A B} (m : Async S E A) (k : A -> Async S E B) :
  throws_only Q m -> (forall a, throws_only Q (k a)) -> throws_only Q (bind m k).
Proof.
  intros Hm Hk s e s'. unfold bind.
  destruct (m s) as [[a | e0] s0] eqn:Hms.
  - apply Hk.
  - intros [= <- _]. exact (Hm _ _ _ Hms).
Qed.

Lemma throws_only_try_catch {A} (m : Async S E A) h :
  (forall e, throws_only Q (h e)) -> throws_only Q (try_catch m h).
Proof.
  intros Hh s e s'. unfold try_catch.
  destruct (m s) as [[a | e0] s0]; [discriminate | apply Hh].
Qed.

Lemma throws_only_try_catch_with {A} (m : Async S E A) h :
  throws_only Q m -> (forall e, Q e -> throws_only Q (h e)) -> throws_only Q (try_catch m h).
Proof.
  intros Hm Hh s e s'. unfold try_catch.
  destruct (m s) as [[a | e0] s0] eqn:Hms; [discriminate |].
  apply Hh. exact (Hm _ _ _ Hms).
Qed.

End Throwing.

(** The same walk for the exceptions a computation lets escape. *)
Create HintDb throws discriminated.

Ltac throws_step :=
  first
    [ solve [auto with throws]
    | apply throws_only_ret
    | apply throws_only_get
    | apply throws_only_modify
    | apply throws_only_throw; solve [reflexivity | assumption | auto with throws]
    | apply throws_only_try_catch_with; [solve [repeat throws_step] | intros ? ?]
    | apply throws_only_try_catch; intros ?
    | apply throws_only_bind; [| intros ?]
    | match goal with
      | |- throws_only _ (match ?x with _ => _ end) => destruct x
      | |- throws_only _ ?m => let h := head_of m in progress unfold h
      end ].

Ltac throws := repeat throws_step.

(** ** The edge function *)

Section EdgeFunctionFacts.

Import Js EdgeFunction Observe.

Context (cloud : Cloud).

Lemma serve_returns req b :
  exists r b', serve cloud req b = (Returns r, b').
Proof.
  unfold serve. destruct (String.eqb (method req) "OPTIONS"); [eauto |].
  unfold try_catch. destruct (resolve cloud req b) as [[r | e] b']; eauto.
Qed.

(** Every error body the function builds has the single field [error]. *)
Lemma serve_error_body req b r b' :
  serve cloud req b = (Returns r, b') ->
  resp_status r <> 200 ->
  exists msg, r = json_response 400 [("error", JString msg)].
Proof.
  unfold serve. destruct (String.eqb (method req) "OPTIONS").
  - intros [= <- <-]. simpl. congruence.
  - unfold try_catch. destruct (resolve cloud req b) as [[r0 | e] b0] eqn:Hres.
    + intros [= <- <-] Hst. exfalso. apply Hst. revert Hres.
      unfold resolve, persist, lookup, require_key, require_date, bind, select_single,
        insert_single, fetch, log, modify, get, ret, throw.
      repeat (match goal with
              | |- context [match ?x with _ => _ end] => destruct x eqn:?
              end; simpl; try congruence);
      try (intros [= <- <-]; reflexivity).
    + intros [= <- <-] _. eauto.
Qed.

Lemma require_key_ok key b :
  NASA_API_KEY cloud = Some key -> truthy key = true ->
  require_key cloud b = (Returns key, b).
Proof. intros Hk Ht. unfold require_key. rewrite Hk, Ht. reflexivity. Qed.

Lemma require_key_state b : snd (require_key cloud b) = b.
Proof.
  unfold require_key.
  destruct (NASA_API_KEY cloud) as [k |]; [destruct (truthy k) |]; reflexivity.
Qed.

Lemma test_truthy re s : test re s = true -> re <> [] -> truthy s = true.
Proof. destruct s; [destruct re; [congruence | discriminate] | reflexivity]. Qed.

Lemma require_date_ok m d b :
  test dateRegex d = true ->
  require_date {| method := m; date_param := Some d |} b = (Returns d, b).
Proof.
  intros Hd. unfold require_date. cbn [date_param].
  rewrite Hd, (test_truthy dateRegex d Hd) by discriminate. reflexivity.
Qed.

Lemma require_date_bad m (d : option string) b :
  match d with Some s => test dateRegex s = false | None => True end ->
  require_date {| method := m; date_param := d |} b
  = (Throws (Error "Invalid date format. Please provide date in YYYY-MM-DD format"), b).
Proof.
  intros Hd. unfold require_date. cbn [date_param].
  destruct d as [s |]; [rewrite Hd, andb_false_r |]; reflexivity.
Qed.

Lemma lookup_hit d row b :
  select_fault cloud d = None -> nasa_images b !! d = Some row ->
  lookup cloud d b = (Returns (Some row), logged (Select d) b).
Proof.
  intros Hf Hrow. unfold lookup, select_single, bind, log, modify, get, ret. simpl.
  rewrite Hf, Hrow. reflexivity.
Qed.

Lemma lookup_miss d b :
  select_fault cloud d = None -> nasa_images b !! d = None ->
  lookup cloud d b = (Returns None, logged (Select d) b).
Proof.
  intros Hf Hrow. unfold lookup, select_single, bind, log, modify, get, ret. simpl.
  rewrite Hf, Hrow. reflexivity.
Qed.

Lemma lookup_state d b : snd (lookup cloud d b) = logged (Select d) b.
Proof.
  unfold lookup, select_single, bind, log, modify, get, ret, throw. simpl.
  destruct (select_fault cloud d) as [e |]; simpl.
  - destruct (negb _); reflexivity.
  - destruct (nasa_images b !! d); reflexivity.
Qed.

Lemma lookup_fault d e b :
  select_fault cloud d = Some e -> String.eqb (code e) "PGRST116" = false ->
  lookup cloud d b = (Throws (PostgrestError (code e) (pg_message e)), logged (Select d) b).
Proof.
  intros Hf Hcode. unfold lookup, select_single, bind, log, modify, get, ret, throw. simpl.
  rewrite Hf. simpl. rewrite Hcode. reflexivity.
Qed.

End EdgeFunctionFacts.

(** The example clouds keep their dates in a [DATE] column. *)
Lemma date_column_typed (d : string) :
  Observe.iso_calendar_date d = false ->
  Observe.date_column d = Some Observe.out_of_range.
Proof. intros H. unfold Observe.date_column. rewrite H. reflexivity. Qed.

Lemma example_cloud_is_date_typed : Observe.date_typed Examples.cloud.
Proof.
  intros d H. exists Observe.out_of_range. split; [| reflexivity].
  exact (date_column_typed d H).
Qed.

Section EdgeFunctionTheorems.

Import Js EdgeFunction Observe.

(** C6 (as amended). A request whose [date] is missing or does not match
    the pattern of four digits, dash, two digits, dash, two digits is
    answered without a single call to the record store, the blob store or the
    provider, and with status 400 unless it is a preflight. A date that does
    match the pattern is looked up in the record store, whether or not it
    names a calendar day. When it names none, the [DATE] column refuses the
    string: the request is answered 400 with the data base's message after
    that one select, and neither the provider nor the blob store is called. *)
Theorem unformatted_date_is_rejected_before_any_call cloud m (d : option string) b :
  match d with Some s => test dateRegex s = false | None => True end ->
  let req := {| method := m; date_param := d |} in
  snd (serve cloud req b) = b
  /\ (String.eqb m "OPTIONS" = false ->
      exists msg, fst (serve cloud req b) = Returns (json_response 400 [("error", JString msg)]))
  /\ (forall s key b0,
        test dateRegex s = true -> NASA_API_KEY cloud = Some key -> truthy key = true ->
        String.eqb m "OPTIONS" = false ->
        (exists rest,
            server_since b0 (snd (serve cloud {| method := m; date_param := Some s |} b0))
            = Select s :: rest)
        /\ (iso_calendar_date s = false -> date_typed cloud ->
            exists e,
              select_fault cloud s = Some e
              /\ serve cloud {| method := m; date_param := Some s |} b0
                 = (Returns (failure (pg_message e)), logged (Select s) b0))).
Proof.
  intros Hd req. subst req.
  assert (Hres : exists e, resolve cloud {| method := m; date_param := d |} b = (Throws e, b)).
  { unfold resolve, bind at 1. pose proof (require_key_state cloud b) as Hk.
    destruct (require_key cloud b) as [[k | e] b1]; simpl in Hk; subst b1; [| eauto].
    unfold bind. rewrite (require_date_bad m d b Hd). eauto. }
  destruct Hres as [e He].
  split; [| split].
  - unfold serve. cbn [method]. destruct (String.eqb m "OPTIONS"); [reflexivity |].
    rewrite (try_catch_throws _ _ _ _ _ He). reflexivity.
  - intros Hm. unfold serve. cbn [method]. rewrite Hm.
    rewrite (try_catch_throws _ _ _ _ _ He). simpl. eauto.
  - intros s key b0 Hs Hkey Htr Hm. split.
    + unfold serve, server_since. cbn [method]. rewrite Hm.
      unfold resolve.
      rewrite (try_catch_bind_returns _ _ _ _ _ _ (require_key_ok cloud key b0 Hkey Htr)).
      rewrite (try_catch_bind_returns _ _ _ _ _ _ (require_date_ok m s b0 Hs)).
      pose proof (lookup_state cloud s b0) as Hl.
      destruct (lookup cloud s b0) as [[existing | e0] b1] eqn:Hlook; simpl in Hl; subst b1.
      * rewrite (try_catch_bind_returns _ _ _ _ _ _ Hlook).
        match goal with
        | |- context [try_catch ?k ?h (logged _ _)] =>
            assert (Hk : maintains (grows calls) (try_catch k h)) by (destruct existing; frame)
        end.
        destruct (Hk (logged (Select s) b0)) as [l Hl]. exists l.
        rewrite Hl. simpl. rewrite <- app_assoc, drop_app_length. reflexivity.
      * rewrite (try_catch_bind_throws _ _ _ _ _ _ Hlook). exists []. simpl.
        rewrite drop_app_length. reflexivity.
    + intros Hcal Htyped. destruct (Htyped s Hcal) as (e0 & Hsel & Hcode).
      exists e0. split; [exact Hsel |].
      unfold serve. cbn [method]. rewrite Hm. unfold resolve.
      rewrite (try_catch_bind_returns _ _ _ _ _ _ (require_key_ok cloud key b0 Hkey Htr)).
      rewrite (try_catch_bind_returns _ _ _ _ _ _ (require_date_ok m s b0 Hs)).
      rewrite (try_catch_bind_throws _ _ _ _ _ _ (lookup_fault cloud s e0 b0 Hsel Hcode)).
      reflexivity.
Qed.

(** C6, an instance: the two dates of the specification. The wrongly ordered
    one is answered before any call, the one that names no calendar day after
    the select that the data base refuses. *)
Lemma unformatted_date_witness :
  test dateRegex "10-05-2024" = false
  /\ snd (serve Examples.cloud {| method := "POST"; date_param := Some "10-05-2024" |} fresh)
     = fresh
  /\ (exists msg,
        fst (serve Examples.cloud {| method := "POST"; date_param := Some "10-05-2024" |} fresh)
        = Returns (json_response 400 [("error", JString msg)]))
  /\ (exists e,
        select_fault Examples.cloud "2024-13-40" = Some e
        /\ serve Examples.cloud {| method := "POST"; date_param := Some "2024-13-40" |} fresh
           = (Returns (failure (pg_message e)), logged (Select "2024-13-40") fresh)).
Proof.
  pose proof (unformatted_date_is_rejected_before_any_call
                Examples.cloud "POST" (Some "10-05-2024") fresh eq_refl) as H.
  cbv zeta in H. destruct H as (H1 & H2 & H3).
  split; [reflexivity |]. split; [exact H1 |]. split; [exact (H2 eq_refl) |].
  destruct (H3 "2024-13-40" "KEY" fresh eq_refl eq_refl eq_refl eq_refl) as [_ H4].
  exact (H4 eq_refl example_cloud_is_date_typed).
Defined.

(** C6 as stated fails: "2024-13-40" names no calendar day, yet it matches the
    pattern and the function sends a select for it to the record store. The
    [DATE] column refuses the string, so that the request is answered 400 with
    the data base's message after that one call; the provider is not asked. *)
Lemma non_calendar_date_reaches_the_record_store :
  iso_calendar_date "2024-13-40" = false
  /\ test dateRegex "2024-13-40" = true
  /\ serve Examples.cloud (Examples.request "2024-13-40") fresh
     = (Returns (failure "date/time field value out of range"),
        logged (Select "2024-13-40") fresh)
  /\ calls (snd (serve Examples.cloud (Examples.request "2024-13-40") fresh))
     = [Select "2024-13-40"].
Proof. repeat split; vm_compute; reflexivity. Qed.

Lemma store_images_grows cloud d n : maintains (grows calls) (store_images cloud d n).
Proof. frame. Qed.

Lemma persist_grows cloud n paths : maintains (grows calls) (persist cloud n paths).
Proof. frame. Qed.

Lemma fetch_from_nasa_calls cloud key d b :
  calls (snd (fetch_from_nasa cloud key d b)) = calls b ++ [Fetch (nasaApiUrl key d)].
Proof.
  unfold fetch_from_nasa, fetch, bind, log, modify, ret, throw. simpl.
  destruct (net cloud _) as [reason | r]; simpl; [reflexivity |].
  destruct (negb (ok r)); simpl; [reflexivity |].
  destruct (json r); reflexivity.
Qed.

Lemma persist_returns cloud n paths b r b' :
  persist cloud n paths b = (Returns r, b') ->
  exists row, r = json_response 200 [("data", JRow row); ("cached", JBool false)]
              /\ nasa_images b' !! date row = Some row.
Proof.
  unfold persist, insert_single, bind, log, modify, get, ret, throw. simpl.
  destruct (insert_fault cloud); simpl; [discriminate |].
  destruct ((nasa_images b ∪ racing cloud) !! Apod.date n); simpl; [discriminate |].
  intros [= <- <-]. eexists. split; [reflexivity |]. simpl. apply lookup_insert_eq.
Qed.

(** C7. For a date that passes validation and has a row in the record store,
    the function answers 200 with that row and [cached = true] after a single
    select and nothing else: the provider is not called. When the date has no
    row and the function answers 200, the body carries [cached = false] with
    the row that was just inserted, and the provider was called. *)
Theorem stored_record_is_served_from_cache cloud m d key b :
  String.eqb m "OPTIONS" = false ->
  NASA_API_KEY cloud = Some key -> truthy key = true ->
  test dateRegex d = true ->
  select_fault cloud d = None ->
  let req := {| method := m; date_param := Some d |} in
  (forall row,
      nasa_images b !! d = Some row ->
      serve cloud req b
      = (Returns (json_response 200 [("data", JRow row); ("cached", JBool true)]),
         logged (Select d) b)
      /\ filter is_provider_call (server_since b (logged (Select d) b)) = [])
  /\ (nasa_images b !! d = None ->
      forall r b',
        serve cloud req b = (Returns r, b') -> resp_status r = 200 ->
        exists row,
          resp_body r = inr [("data", JRow row); ("cached", JBool false)]
          /\ nasa_images b' !! date row = Some row
          /\ In (Fetch (nasaApiUrl key d)) (calls b')).
Proof.
  intros Hm Hkey Htr Hd Hsel req. subst req. unfold serve. cbn [method]. rewrite Hm.
  unfold resolve.
  rewrite (try_catch_bind_returns _ _ _ _ _ _ (require_key_ok cloud key b Hkey Htr)).
  rewrite (try_catch_bind_returns _ _ _ _ _ _ (require_date_ok m d b Hd)).
  split.
  - intros row Hrow.
    rewrite (try_catch_bind_returns _ _ _ _ _ _ (lookup_hit cloud d row b Hsel Hrow)).
    split; [reflexivity |]. unfold server_since, logged. simpl.
    rewrite drop_app_length. reflexivity.
  - intros Hnone r b'.
    rewrite (try_catch_bind_returns _ _ _ _ _ _ (lookup_miss cloud d b Hsel Hnone)).
    pose proof (fetch_from_nasa_calls cloud key d (logged (Select d) b)) as Hcalls.
    destruct (fetch_from_nasa cloud key d (logged (Select d) b)) as [[n | e] b1] eqn:Hf.
    2:{ rewrite (try_catch_bind_throws _ _ _ _ _ _ Hf). intros [= <- <-]. discriminate. }
    rewrite (try_catch_bind_returns _ _ _ _ _ _ Hf).
    pose proof (store_images_grows cloud d n b1) as [l1 Hl1].
    destruct (store_images cloud d n b1) as [[paths | e] b2] eqn:Hs.
    2:{ rewrite (try_catch_bind_throws _ _ _ _ _ _ Hs). intros [= <- <-]. discriminate. }
    rewrite (try_catch_bind_returns _ _ _ _ _ _ Hs).
    pose proof (persist_grows cloud n paths b2) as [l2 Hl2].
    unfold try_catch.
    destruct (persist cloud n paths b2) as [[r0 | e] b3] eqn:Hp.
    2:{ intros [= <- <-]. discriminate. }
    intros [= <- <-] _. destruct (persist_returns _ _ _ _ _ _ Hp) as (row & -> & Hrow).
    exists row. split; [reflexivity |]. split; [exact Hrow |].
    simpl in *. rewrite Hl2, Hl1, Hcalls. rewrite !in_app_iff. simpl. tauto.
Qed.

(** C7, an instance: the row of 2024-10-05 is in the data base. *)
Lemma stored_record_witness :
  String.eqb "POST" "OPTIONS" = false
  /\ NASA_API_KEY Examples.cloud = Some "KEY" /\ truthy "KEY" = true
  /\ test dateRegex "2024-10-05" = true
  /\ select_fault Examples.cloud "2024-10-05" = None
  /\ (let req := {| method := "POST"; date_param := Some "2024-10-05" |} in
      (forall row,
          nasa_images Examples.seeded !! "2024-10-05" = Some row ->
          serve Examples.cloud req Examples.seeded
          = (Returns (json_response 200 [("data", JRow row); ("cached", JBool true)]),
             logged (Select "2024-10-05") Examples.seeded)
          /\ filter is_provider_call
               (server_since Examples.seeded (logged (Select "2024-10-05") Examples.seeded))
             = [])
      /\ (nasa_images Examples.seeded !! "2024-10-05" = None ->
          forall r b',
            serve Examples.cloud req Examples.seeded = (Returns r, b') ->
            resp_status r = 200 ->
            exists row,
              resp_body r = inr [("data", JRow row); ("cached", JBool false)]
              /\ nasa_images b' !! date row = Some row
              /\ In (Fetch (nasaApiUrl "KEY" "2024-10-05")) (calls b'))).
Proof.
  repeat (split; [reflexivity |]).
  apply (stored_record_is_served_from_cache Examples.cloud "POST" "2024-10-05" "KEY"
           Examples.seeded); reflexivity.
Defined.

#[global] Instance keeps_rows_preorder : PreOrder keeps_rows.
Proof.
  split.
  - intros b k row H. exact H.
  - intros b1 b2 b3 H12 H23 k row H. apply H23, H12, H.
Qed.

Lemma unchanged_keeps_rows {A} (m : M A) :
  maintains (unchanged nasa_images) m -> maintains keeps_rows m.
Proof. intros H b k row Hrow. rewrite (H b). exact Hrow. Qed.

Lemma insert_single_keeps_rows cloud n p q : maintains keeps_rows (insert_single cloud n p q).
Proof.
  intros b k row H.
  unfold insert_single, bind, log, modify, get, ret. simpl.
  assert (Hu : (nasa_images b ∪ racing cloud) !! k = Some row)
    by (apply lookup_union_Some_l; exact H).
  destruct (insert_fault cloud); simpl; [exact Hu |].
  destruct ((nasa_images b ∪ racing cloud) !! Apod.date n) eqn:Hn; simpl; [exact Hu |].
  rewrite lookup_insert_ne; [exact Hu | congruence].
Qed.

#[local] Hint Resolve insert_single_keeps_rows : frame.
#[local] Hint Extern 2 (maintains keeps_rows _) =>
  apply unchanged_keeps_rows; solve [frame] : frame.

Lemma serve_keeps_rows cloud req : maintains keeps_rows (serve cloud req).
Proof.
  unfold serve, resolve, persist.
  destruct (String.eqb (method req) "OPTIONS"); frame.
Qed.

Lemma persist_conflict cloud n paths b existing :
  (nasa_images b ∪ racing cloud) !! Apod.date n = Some existing ->
  exists e,
    persist cloud n paths b
    = (Throws (PostgrestError (code e) (pg_message e)),
       {| nasa_images := nasa_images b ∪ racing cloud;
          bucket := bucket b;
          calls := calls b ++ [Insert (Apod.date n)] |})
    /\ (insert_fault cloud = None -> e = unique_violation).
Proof.
  intros Hex. unfold persist, insert_single, bind, log, modify, get, ret, throw. simpl.
  destruct (insert_fault cloud) as [e |]; simpl.
  - exists e. split; [reflexivity | discriminate].
  - rewrite Hex. exists unique_violation. split; reflexivity.
Qed.

Lemma store_images_selects cloud d n :
  maintains (unchanged (fun b => filter is_select (calls b))) (store_images cloud d n).
Proof. frame. Qed.

Lemma store_images_table cloud d n :
  maintains (unchanged nasa_images) (store_images cloud d n).
Proof. frame. Qed.

(** C5 (as amended). The record is persisted by a plain insert: rows that are
    in the table are never changed, and when the date of the provider's record
    is taken at the time of the insert (a concurrent request committed it), the
    insert error is thrown. The request is then answered 400 with an error
    body, and its only select is the first one: the existing row is not read
    again. *)
Theorem insert_conflict_fails_the_request cloud m d key b r n existing :
  String.eqb m "OPTIONS" = false ->
  NASA_API_KEY cloud = Some key -> truthy key = true ->
  test dateRegex d = true ->
  select_fault cloud d = None ->
  nasa_images b !! d = None ->
  net cloud (nasaApiUrl key d) = Resolves r -> ok r = true -> json r = Some n ->
  (nasa_images b ∪ racing cloud) !! Apod.date n = Some existing ->
  let req := {| method := m; date_param := Some d |} in
  (forall paths b0,
      (nasa_images b0 ∪ racing cloud) !! Apod.date n = Some existing ->
      exists e,
        persist cloud n paths b0
        = (Throws (PostgrestError (code e) (pg_message e)),
           {| nasa_images := nasa_images b0 ∪ racing cloud;
              bucket := bucket b0;
              calls := calls b0 ++ [Insert (Apod.date n)] |})
        /\ (insert_fault cloud = None -> e = unique_violation))
  /\ (exists msg b',
        serve cloud req b = (Returns (json_response 400 [("error", JString msg)]), b')
        /\ filter is_select (server_since b b') = [Select d]
        /\ keeps_rows b b').
Proof.
  intros Hm Hkey Htr Hd Hsel Hnone Hnet Hok Hjson Hex req. subst req.
  split; [intros paths b0 H0; apply (persist_conflict _ _ _ _ existing H0) |].
  pose proof (serve_keeps_rows cloud {| method := m; date_param := Some d |} b) as Hkeep.
  unfold serve in *. cbn [method] in *. rewrite Hm in *.
  unfold resolve in *.
  rewrite (try_catch_bind_returns _ _ _ _ _ _ (require_key_ok cloud key b Hkey Htr)) in *.
  rewrite (try_catch_bind_returns _ _ _ _ _ _ (require_date_ok m d b Hd)) in *.
  rewrite (try_catch_bind_returns _ _ _ _ _ _ (lookup_miss cloud d b Hsel Hnone)) in *.
  assert (Hf : fetch_from_nasa cloud key d (logged (Select d) b)
               = (Returns n, logged (Fetch (nasaApiUrl key d)) (logged (Select d) b))).
  { unfold fetch_from_nasa, fetch, bind, log, modify, ret. simpl.
    rewrite Hnet. simpl. rewrite Hok, Hjson. reflexivity. }
  rewrite (try_catch_bind_returns _ _ _ _ _ _ Hf) in *.
  set (b1 := logged (Fetch (nasaApiUrl key d)) (logged (Select d) b)) in *.
  pose proof (store_images_selects cloud d n b1) as Hns.
  pose proof (store_images_table cloud d n b1) as Htab.
  pose proof (store_images_grows cloud d n b1) as [l1 Hl1].
  unfold unchanged in Hns, Htab.
  destruct (store_images cloud d n b1) as [[paths | e] b2] eqn:Hs; simpl in Hns, Htab, Hl1.
  - rewrite (try_catch_bind_returns _ _ _ _ _ _ Hs) in *.
    assert (Hex2 : (nasa_images b2 ∪ racing cloud) !! Apod.date n = Some existing)
      by (rewrite Htab; exact Hex).
    destruct (persist_conflict cloud n paths b2 existing Hex2) as (e & Hp & _).
    rewrite (try_catch_throws _ _ _ _ _ Hp) in *.
    eexists _, _. split; [reflexivity |]. split; [| exact Hkeep].
    unfold server_since. simpl. rewrite Hl1. simpl.
    rewrite <- !app_assoc, drop_app_length.
    rewrite Hl1 in Hns. simpl in Hns. rewrite !filter_app in Hns. simpl in Hns.
    rewrite !filter_app. simpl.
    apply (f_equal (drop (length (filter is_select (calls b))))) in Hns.
    rewrite <- !app_assoc, !drop_app_length in Hns. simpl in Hns.
    injection Hns as Hns. rewrite Hns. reflexivity.
  - rewrite (try_catch_bind_throws _ _ _ _ _ _ Hs) in *.
    eexists _, _. split; [reflexivity |]. split; [| exact Hkeep].
    unfold server_since. simpl. rewrite Hl1. simpl.
    rewrite <- !app_assoc, drop_app_length.
    rewrite Hl1 in Hns. simpl in Hns. rewrite !filter_app in Hns. simpl in Hns.
    rewrite !filter_app. simpl.
    apply (f_equal (drop (length (filter is_select (calls b))))) in Hns.
    rewrite <- !app_assoc, !drop_app_length in Hns. simpl in Hns.
    injection Hns as Hns. rewrite Hns. reflexivity.
Qed.

(** C5, an instance: a concurrent request commits 2024-10-05 first. *)
Lemma insert_conflict_witness :
  String.eqb "POST" "OPTIONS" = false
  /\ NASA_API_KEY Examples.cloud_with_race = Some "KEY" /\ truthy "KEY" = true
  /\ test dateRegex "2024-10-05" = true
  /\ select_fault Examples.cloud_with_race "2024-10-05" = None
  /\ nasa_images fresh !! "2024-10-05" = None
  /\ net Examples.cloud_with_race (nasaApiUrl "KEY" "2024-10-05")
     = Resolves Examples.andromeda_reply
  /\ ok Examples.andromeda_reply = true
  /\ json Examples.andromeda_reply = Some Examples.andromeda
  /\ (nasa_images fresh ∪ racing Examples.cloud_with_race) !! Apod.date Examples.andromeda
     = Some Examples.stored
  /\ exists msg b',
      serve Examples.cloud_with_race {| method := "POST"; date_param := Some "2024-10-05" |} fresh
      = (Returns (json_response 400 [("error", JString msg)]), b')
      /\ filter is_select (server_since fresh b') = [Select "2024-10-05"]
      /\ keeps_rows fresh b'.
Proof.
  repeat (split; [reflexivity |]).
  apply (insert_conflict_fails_the_request Examples.cloud_with_race "POST" "2024-10-05" "KEY"
           fresh Examples.andromeda_reply Examples.andromeda Examples.stored);
    reflexivity.
Defined.

(** C5 as stated fails: when a concurrent request has committed the row, the
    function answers 400 with the constraint violation although the row is in
    the table, and makes no call to the record store after its insert. *)
Lemma racing_insert_is_fatal :
  fst (serve Examples.cloud_with_race (Examples.request "2024-10-05") fresh)
  = Returns (json_response 400
               [("error", JString "duplicate key value violates unique constraint")])
  /\ nasa_images (snd (serve Examples.cloud_with_race (Examples.request "2024-10-05") fresh))
       !! "2024-10-05" = Some Examples.stored
  /\ filter is_store_call
       (calls (snd (serve Examples.cloud_with_race (Examples.request "2024-10-05") fresh)))
     = [Select "2024-10-05"; Insert "2024-10-05"].
Proof. repeat split; vm_compute; reflexivity. Qed.

(** No answer of the edge function makes the client resolver throw
    [NasaNoDataError]: its error bodies have no [errorCode]. *)
Lemma serve_never_signals_no_data cloud req b r b' :
  serve cloud req b = (Returns r, b') ->
  forall m dd, Supabase.settle (relay r) <> Throws (NasaNoDataError m dd).
Proof.
  intros Hs m dd. destruct (Z.eq_dec (resp_status r) 200) as [H200 | Hne].
  - unfold relay. rewrite H200. simpl. unfold Supabase.settle. simpl. discriminate.
  - destruct (serve_error_body cloud req b r b' Hs Hne) as [msg ->].
    unfold relay, Supabase.settle. simpl. discriminate.
Qed.

(** C1, at the failing input. The provider answers 404 "No data available"
    for 2025-10-06; the edge function answers as it does for an outage of the
    provider, 400 with only an [error] message, and the client resolver,
    instead of throwing [NasaNoDataError], returns the absent data in both
    cases. *)
Theorem provider_no_data_is_not_distinguished :
  fst (serve Examples.cloud (Examples.request "2025-10-06") fresh)
  = Returns (json_response 400
               [("error", JString "NASA API error: 404 - No data available for date")])
  /\ fst (serve Examples.cloud_down (Examples.request "2025-10-06") fresh)
     = Returns (json_response 400
                  [("error", JString "NASA API error: 503 - Service Unavailable")])
  /\ Supabase.settle
       (relay (json_response 400
                 [("error", JString "NASA API error: 404 - No data available for date")]))
     = Returns None
  /\ Supabase.settle
       (relay (json_response 400
                 [("error", JString "NASA API error: 503 - Service Unavailable")]))
     = Returns None.
Proof. repeat split; vm_compute; reflexivity. Qed.

End EdgeFunctionTheorems.

(** ** The local image cache *)

Section CacheFacts.
Import Js Phone Supabase ImageCache Observe.
Context (P : Platform).

Lemma getCacheFilePath_truthy d : truthy (getCacheFilePath P d) = true.
Proof.
  unfold getCacheFilePath, CACHE_DIR, truthy.
  destruct (cacheDirectory P); reflexivity.
Qed.

Lemma since_app w w' l : calls w' = calls w ++ l -> since w w' = l.
Proof. intros H. unfold since. rewrite H. apply drop_app_length. Qed.

Lemma getCachedImage_hit d w :
  getCacheFilePath P d ∈ files w ->
  getCachedImage P d w
  = (Returns (Some (getCacheFilePath P d)),
     with_calls (fun l => l ++ [GetInfo (getCacheFilePath P d)]) w).
Proof.
  intros Hin. unfold getCachedImage, getInfoAsync, called, bind, modify, get, ret. simpl.
  rewrite bool_decide_eq_true_2 by exact Hin. reflexivity.
Qed.

Lemma getCachedImage_miss d w :
  getCacheFilePath P d ∉ files w ->
  getCachedImage P d w
  = (Returns None, with_calls (fun l => l ++ [GetInfo (getCacheFilePath P d)]) w).
Proof.
  intros Hin. unfold getCachedImage, getInfoAsync, called, bind, modify, get, ret. simpl.
  rewrite bool_decide_eq_false_2 by exact Hin. reflexivity.
Qed.

Lemma downloads_info p l : downloads (GetInfo p :: l) = downloads l.
Proof. reflexivity. Qed.

Lemma downloads_app l1 l2 : downloads (l1 ++ l2) = downloads l1 ++ downloads l2.
Proof. apply omap_app. Qed.

(** One download: the URL is tried once; on status 200 the local path is
    returned and the file is there, otherwise the call throws. *)
Lemma downloadAndCache_spec u d w :
  exists l,
    calls (snd (downloadAndCache P u d w)) = calls w ++ l
    /\ downloads l = [u]
    /\ if succeeds P u
       then fst (downloadAndCache P u d w) = Returns (getCacheFilePath P d)
            /\ getCacheFilePath P d ∈ files (snd (downloadAndCache P u d w))
       else exists e, fst (downloadAndCache P u d w) = Throws e.
Proof.
  unfold downloadAndCache, ensureCacheDir, getInfoAsync, makeDirectoryAsync, downloadAsync,
    try_catch, called, print, bind, modify, get, ret, throw, succeeds.
  simpl.
  destruct (bool_decide (CACHE_DIR P ∈ files w)); simpl;
    destruct (download P u) as [reason | st]; simpl;
    try destruct (st =? 200); simpl;
    eexists; rewrite <- ?app_assoc; (split; [reflexivity |]); (split; [reflexivity |]);
    eauto; split; try reflexivity; set_solver.
Qed.

Lemma first_success_one cands :
  snd (first_success P cands) = true ->
  length (filter (fun u => succeeds P u = true) (fst (first_success P cands))) = 1%nat.
Proof.
  induction cands as [| u rest IH]; simpl; [discriminate |].
  destruct (succeeds P u) eqn:Hu.
  - intros _. simpl. rewrite filter_cons_True by exact Hu. reflexivity.
  - destruct (first_success P rest) as [tried okay]. simpl in *. intros Hok.
    rewrite filter_cons_False by congruence. apply IH, Hok.
Qed.

Lemma first_success_last cands :
  snd (first_success P cands) = true ->
  exists failed u,
    fst (first_success P cands) = failed ++ [u]
    /\ succeeds P u = true
    /\ Forall (fun v => succeeds P v = false) failed.
Proof.
  induction cands as [| u rest IH]; simpl; [discriminate |].
  destruct (succeeds P u) eqn:Hu.
  - intros _. exists [], u. repeat split; [exact Hu | constructor].
  - destruct (first_success P rest) as [tried okay]. simpl in *. intros Hok.
    destruct (IH Hok) as (failed & v & -> & Hv & Hall).
    exists (u :: failed), v. repeat split; [exact Hv | constructor; assumption].
Qed.

Lemma first_success_tried cands :
  snd (first_success P cands) = true -> (1 <= length (fst (first_success P cands)))%nat.
Proof.
  induction cands as [| u rest IH]; simpl; [discriminate |].
  destruct (succeeds P u); [simpl; lia |].
  destruct (first_success P rest) as [tried okay]. simpl. lia.
Qed.

Lemma first_success_length cands :
  (length (fst (first_success P cands)) <= length cands)%nat.
Proof.
  induction cands as [| u rest IH]; simpl; [lia |].
  destruct (succeeds P u); [simpl; lia |].
  destruct (first_success P rest) as [tried okay]. simpl in *. lia.
Qed.

Lemma sources_length nasaUrl storagePath :
  (length (sources P nasaUrl storagePath) <= 2)%nat.
Proof.
  unfold sources. destruct (truthy_opt nasaUrl), (truthy_opt storagePath); simpl; lia.
Qed.

(** A cache miss: the sources are tried in order up to the first success. *)
Lemma getImage_miss nasaUrl storagePath d w :
  getCacheFilePath P d ∉ files w ->
  exists l,
    calls (snd (getImage P nasaUrl storagePath d w)) = calls w ++ l
    /\ downloads l = fst (first_success P (sources P nasaUrl storagePath))
    /\ if snd (first_success P (sources P nasaUrl storagePath))
       then fst (getImage P nasaUrl storagePath d w) = Returns (getCacheFilePath P d)
            /\ getCacheFilePath P d ∈ files (snd (getImage P nasaUrl storagePath d w))
       else exists e, fst (getImage P nasaUrl storagePath d w) = Throws e.
Proof.
  intros Hmiss. unfold getImage, sources.
  rewrite (bind_returns _ _ _ _ _ (getCachedImage_miss d w Hmiss)).
  set (w0 := with_calls _ w).
  assert (Hblob : forall w2 l1,
             calls w2 = calls w0 ++ l1 ->
             truthy_opt storagePath = true ->
             exists l2 o w3,
               try_catch (downloadAndCache P (getNasaImagePublicUrl P (default "" storagePath)) d)
                 (fun error => bind (print (Fail "[ImageCache] Failed to download from Supabase"))
                                    (fun _ => throw error)) w2 = (o, w3)
               /\ calls w3 = calls w ++ GetInfo (getCacheFilePath P d) :: l1 ++ l2
               /\ downloads l2 = [getNasaImagePublicUrl P (default "" storagePath)]
               /\ if succeeds P (getNasaImagePublicUrl P (default "" storagePath))
                  then o = Returns (getCacheFilePath P d) /\ getCacheFilePath P d ∈ files w3
                  else exists e, o = Throws e).
  { intros w2 l1 Hc1 _.
    destruct (downloadAndCache_spec
                (getNasaImagePublicUrl P (default "" storagePath)) d w2)
      as (l2 & Hc2 & Hd2 & Hr2).
    destruct (downloadAndCache P _ d w2) as [[uri | e2] w3] eqn:H2; simpl in Hc2, Hr2.
    - rewrite (try_catch_returns _ _ _ _ _ H2).
      exists l2, (Returns uri), w3. split; [reflexivity |].
      split; [rewrite Hc2, Hc1; simpl; rewrite <- !app_assoc; reflexivity |].
      split; [exact Hd2 |].
      destruct (succeeds P _); [| destruct Hr2; discriminate]. exact Hr2.
    - rewrite (try_catch_throws _ _ _ _ _ H2).
      eexists l2, _, _. split; [reflexivity |]. simpl.
      split; [rewrite Hc2, Hc1; simpl; rewrite <- !app_assoc; reflexivity |].
      split; [exact Hd2 |].
      destruct (succeeds P _); [destruct Hr2; discriminate |]. eauto. }
  destruct (truthy_opt nasaUrl); simpl.
  - destruct (downloadAndCache_spec (default "" nasaUrl) d w0) as (l1 & Hc1 & Hd1 & Hr1).
    destruct (downloadAndCache P (default "" nasaUrl) d w0) as [[uri | e] w1] eqn:H1;
      simpl in Hc1, Hr1.
    + destruct (succeeds P (default "" nasaUrl)); [| destruct Hr1; discriminate].
      erewrite bind_returns;
        [| erewrite try_catch_returns; [reflexivity |];
           erewrite bind_returns; [reflexivity | exact H1]].
      simpl. exists (GetInfo (getCacheFilePath P d) :: l1).
      rewrite Hc1. simpl. rewrite <- app_assoc. split; [reflexivity |].
      split; [exact Hd1 |]. destruct Hr1 as [[= ->] Hin]. split; [reflexivity | exact Hin].
    + destruct (succeeds P (default "" nasaUrl)); [destruct Hr1; discriminate |].
      erewrite bind_returns;
        [| erewrite try_catch_throws; [reflexivity |];
           erewrite bind_throws; [reflexivity | exact H1]].
      simpl.
      set (w2 := with_console _ w1).
      destruct (truthy_opt storagePath) eqn:Hsp; simpl.
      * destruct (Hblob w2 l1 Hc1 eq_refl) as (l2 & o & w3 & Heq & Hc3 & Hd3 & Hr3).
        rewrite Heq. cbn [fst snd]. exists (GetInfo (getCacheFilePath P d) :: l1 ++ l2).
        split; [exact Hc3 |]. rewrite downloads_info, downloads_app, Hd1, Hd3.
        destruct (succeeds P (getNasaImagePublicUrl P (default "" storagePath)));
          simpl; (split; [reflexivity | exact Hr3]).
      * exists (GetInfo (getCacheFilePath P d) :: l1).
        split; [cbn [fst snd]; rewrite Hc1; simpl; rewrite <- app_assoc; reflexivity |].
        rewrite downloads_info, Hd1. split; [reflexivity |]. simpl. eauto.
  - erewrite bind_returns; [| reflexivity].
    destruct (truthy_opt storagePath) eqn:Hsp; simpl.
    + destruct (Hblob w0 [] (eq_sym (app_nil_r _)) eq_refl)
        as (l2 & o & w3 & Heq & Hc3 & Hd3 & Hr3).
      rewrite Heq. cbn [fst snd]. exists (GetInfo (getCacheFilePath P d) :: l2).
      split; [exact Hc3 |]. rewrite downloads_info, Hd3.
      destruct (succeeds P (getNasaImagePublicUrl P (default "" storagePath)));
        simpl; (split; [reflexivity | exact Hr3]).
    + exists [GetInfo (getCacheFilePath P d)]. simpl. split; [reflexivity |].
      split; [reflexivity |]. eauto.
Qed.

End CacheFacts.

Section CacheTheorems.

Import Js Phone Supabase ImageCache Observe.

(** C2 (as amended). For an image record with no local cache entry, [getImage]
    has at most two download sources, in this order: the one remote URL the
    screen passes, which is the high-definition URL when the record has one and
    the standard URL otherwise, then the public URL of the blob store derived
    from [storage_path]. They are tried in order up to the first download that
    completes with status 200; that one wins, its file is the local entry and
    its path is returned. When no source succeeds the call throws. *)
Theorem getImage_tries_remote_url_then_blob_store P (r : ImageDetails) d w :
  (getCacheFilePath P d ∉ files w) ->
  let nasaUrl := Some (or_else (hdurl r) (url r)) in
  let run := getImage P nasaUrl (storage_path r) d w in
  let candidates := sources P nasaUrl (storage_path r) in
  candidates
  = (if truthy (or_else (hdurl r) (url r)) then [or_else (hdurl r) (url r)] else [])
    ++ (if truthy_opt (storage_path r)
        then [getNasaImagePublicUrl P (default "" (storage_path r))] else [])
  /\ (truthy_opt (hdurl r) = true -> or_else (hdurl r) (url r) = default "" (hdurl r))
  /\ (truthy_opt (hdurl r) = false -> or_else (hdurl r) (url r) = url r)
  /\ downloads (since w (snd run)) = fst (first_success P candidates)
  /\ (snd (first_success P candidates) = true ->
      fst run = Returns (getCacheFilePath P d) /\ getCacheFilePath P d ∈ files (snd run))
  /\ (snd (first_success P candidates) = false -> exists e, fst run = Throws e).
Proof.
  intros Hmiss nasaUrl run candidates. subst run candidates nasaUrl.
  split; [reflexivity |].
  split; [destruct (hdurl r) as [h |]; simpl; [intros ->; reflexivity | discriminate] |].
  split; [destruct (hdurl r) as [h |]; simpl; [intros ->; reflexivity | reflexivity] |].
  destruct (getImage_miss P (Some (or_else (hdurl r) (url r))) (storage_path r) d w Hmiss)
    as (l & Hc & Hd & Hr).
  rewrite (since_app _ _ _ Hc). split; [exact Hd |].
  destruct (snd (first_success P _)); split; intros; try discriminate; exact Hr.
Qed.

(** C2, an instance: an empty cache and a record with all three URLs. *)
Lemma getImage_sources_witness :
  (getCacheFilePath PhoneExamples.hd_down "2024-10-03" ∉ files PhoneExamples.blank)
  /\ downloads (since PhoneExamples.blank
                  (snd (getImage PhoneExamples.hd_down
                          (Some (or_else (hdurl PhoneExamples.picture) (url PhoneExamples.picture)))
                          (storage_path PhoneExamples.picture) "2024-10-03" PhoneExamples.blank)))
     = fst (first_success PhoneExamples.hd_down
              (sources PhoneExamples.hd_down
                 (Some (or_else (hdurl PhoneExamples.picture) (url PhoneExamples.picture)))
                 (storage_path PhoneExamples.picture))).
Proof.
  split; [set_solver |].
  apply (getImage_tries_remote_url_then_blob_store PhoneExamples.hd_down PhoneExamples.picture
           "2024-10-03" PhoneExamples.blank).
  set_solver.
Defined.

(** C2 as stated fails: the high-definition download fails, the standard URL
    would succeed (so trying the three sources of the specification in order
    ends in a success at the second), yet [getImage] goes from the
    high-definition URL straight to the blob store and throws. *)
Lemma standard_url_is_not_tried_after_hd :
  let P := PhoneExamples.hd_down in
  let r := PhoneExamples.picture in
  let run := getImage P (Some (or_else (hdurl r) (url r))) (storage_path r) "2024-10-03"
               PhoneExamples.blank in
  (getCacheFilePath P "2024-10-03" ∉ files PhoneExamples.blank)
  /\ first_success P (spec_sources P r) = ([PhoneExamples.hd; PhoneExamples.std], true)
  /\ downloads (calls (snd run))
     = [PhoneExamples.hd;
        "https://project.supabase.co/storage/v1/object/public/nasa-images/2024-10-03-m31__the_andromeda_galaxy.jpg"]
  /\ fst run = Throws (Error "Download failed with status 404").
Proof. split; [set_solver |]. repeat split; vm_compute; reflexivity. Qed.

(** C8 (as amended). After a call of [getImage] for a date has returned a
    path, every further call for that date, whatever URLs it is given, returns
    the same path after a single existence check: it downloads nothing and
    leaves the files as they are. When the first call started without a local
    entry, the downloads of the two calls together are those of the first: its
    sources in order up to the first that succeeds, one or two downloads of
    which exactly the last succeeded. *)
Theorem getImage_second_call_is_a_cache_hit P nasaUrl storagePath d w p w1 :
  getImage P nasaUrl storagePath d w = (Returns p, w1) ->
  p = getCacheFilePath P d
  /\ (forall nasaUrl' storagePath',
        getImage P nasaUrl' storagePath' d w1
        = (Returns p, with_calls (fun l => l ++ [GetInfo p]) w1))
  /\ (forall nasaUrl' storagePath',
        downloads (since w1 (snd (getImage P nasaUrl' storagePath' d w1))) = [])
  /\ (getCacheFilePath P d ∉ files w ->
      forall nasaUrl' storagePath',
        let tried := downloads (since w (snd (getImage P nasaUrl' storagePath' d w1))) in
        tried = fst (first_success P (sources P nasaUrl storagePath))
        /\ length (filter (fun u => succeeds P u = true) tried) = 1%nat
        /\ (exists failed u, tried = failed ++ [u]
                             /\ succeeds P u = true
                             /\ Forall (fun v => succeeds P v = false) failed)
        /\ (1 <= length tried <= 2)%nat).
Proof.
  intros Hrun.
  assert (Hfacts : p = getCacheFilePath P d /\ getCacheFilePath P d ∈ files w1
                   /\ exists l, calls w1 = calls w ++ l
                      /\ (getCacheFilePath P d ∉ files w ->
                          downloads l = fst (first_success P (sources P nasaUrl storagePath))
                          /\ snd (first_success P (sources P nasaUrl storagePath)) = true)).
  { destruct (decide (getCacheFilePath P d ∈ files w)) as [Hin | Hout].
    - unfold getImage in Hrun.
      rewrite (bind_returns _ _ _ _ _ (getCachedImage_hit P d w Hin)) in Hrun.
      injection Hrun as <- <-. split; [reflexivity |]. split; [exact Hin |].
      eexists. split; [reflexivity |]. intros Hc. contradiction.
    - destruct (getImage_miss P nasaUrl storagePath d w Hout) as (l & Hc & Hd & Hr).
      rewrite Hrun in Hc, Hr. simpl in Hc, Hr.
      destruct (snd (first_success P (sources P nasaUrl storagePath))) eqn:Hok.
      + destruct Hr as [[= ->] Hin]. split; [reflexivity |]. split; [exact Hin |].
        exists l. split; [exact Hc |]. intros _. split; [exact Hd | reflexivity].
      + destruct Hr as [e He]. discriminate. }
  destruct Hfacts as (-> & Hin & l & Hc & Hone).
  assert (Hhit : forall nasaUrl' storagePath',
             getImage P nasaUrl' storagePath' d w1
             = (Returns (getCacheFilePath P d),
                with_calls (fun l => l ++ [GetInfo (getCacheFilePath P d)]) w1)).
  { intros n' s'. unfold getImage.
    rewrite (bind_returns _ _ _ _ _ (getCachedImage_hit P d w1 Hin)). reflexivity. }
  split; [reflexivity |]. split; [exact Hhit |]. split.
  - intros n' s'. rewrite Hhit. simpl. unfold since. simpl.
    rewrite drop_app_length. reflexivity.
  - intros Hout n' s'. cbv zeta. rewrite Hhit. simpl.
    rewrite (since_app w _ (l ++ [GetInfo (getCacheFilePath P d)]))
      by (simpl; rewrite Hc, <- app_assoc; reflexivity).
    rewrite downloads_app. simpl. rewrite app_nil_r.
    destruct (Hone Hout) as [Hd Hok]. rewrite Hd.
    split; [reflexivity |]. split; [apply first_success_one, Hok |].
    split; [apply first_success_last, Hok |].
    split; [apply first_success_tried, Hok |].
    etransitivity; [apply first_success_length | apply sources_length].
Qed.

(** C8, an instance: the first call downloads, the second finds the file. *)
Lemma getImage_idempotent_witness :
  let P := PhoneExamples.online in
  let w := PhoneExamples.blank in
  let p := "file:///cache/nasa-images/2024-10-03.jpg" in
  let w1 := snd (getImage P (Some PhoneExamples.hd) None "2024-10-03" w) in
  getImage P (Some PhoneExamples.hd) None "2024-10-03" w = (Returns p, w1)
  /\ forall nasaUrl' storagePath',
      getImage P nasaUrl' storagePath' "2024-10-03" w1
      = (Returns p, with_calls (fun l => l ++ [GetInfo p]) w1).
Proof.
  split; [vm_compute; reflexivity |].
  apply (getImage_second_call_is_a_cache_hit PhoneExamples.online (Some PhoneExamples.hd) None
           "2024-10-03" PhoneExamples.blank).
  vm_compute. reflexivity.
Defined.

(** C8 as stated fails in its count: when the high-definition download fails
    and the copy in the blob store is fetched, the first call succeeds after
    two downloads, so two downloads happen across the two calls although the
    second call is a pure cache hit. *)
Lemma first_call_may_download_twice :
  let P := PhoneExamples.hd_lost in
  let r := PhoneExamples.picture in
  let first := getImage P (Some (or_else (hdurl r) (url r))) (storage_path r) "2024-10-03"
                 PhoneExamples.blank in
  let second := getImage P (Some (or_else (hdurl r) (url r))) (storage_path r) "2024-10-03"
                  (snd first) in
  fst first = Returns "file:///cache/nasa-images/2024-10-03.jpg"
  /\ fst second = Returns "file:///cache/nasa-images/2024-10-03.jpg"
  /\ downloads (since (snd first) (snd second)) = []
  /\ downloads (calls (snd second))
     = [PhoneExamples.hd;
        "https://project.supabase.co/storage/v1/object/public/nasa-images/2024-10-03-m31__the_andromeda_galaxy.jpg"].
Proof.
  cbv zeta.
  split; [vm_compute; reflexivity |].
  split; [vm_compute; reflexivity |].
  split; vm_compute; reflexivity.
Qed.

End CacheTheorems.

(** ** The screen controller *)

Section ScreenFacts.
Import Js Phone Supabase ImageCache NasaApodScreen Observe.
Context (P : Platform).

Lemma loadImageForDate_step date r w :
  loadImageForDate P date r w
  = match attempt P date r (resets w) with
    | (Returns _, w1) => setLoading false w1
    | (Throws err, w1) =>
        if instanceof_NasaNoDataError err then
          if (r <? MAX_RETRY_DAYS)%nat then
            if addDays date (-1) >=? addDays (clock P r) (- MAX_DAYS_BACK) then
              setLoading false
                (loadImageForDate P (addDays date (-1)) (S r)
                   (setCurrentDate (addDays date (-1))
                      (with_console (fun ls => ls ++ [Retrying (S r)]) w1)))
            else setLoading false (setError (Some (errorMessage r)) w1)
          else setLoading false (setError (Some (errorMessage r)) w1)
        else setLoading false (setError (Some (message_of err)) w1)
    end.
Proof.
  rewrite loadImageForDate_unfold_eq. unfold loadImageForDate_unfold, resets.
  destruct (attempt P date r _) as [[u | err] w1]; simpl; [reflexivity |].
  destruct (instanceof_NasaNoDataError err); simpl; [| reflexivity].
  destruct (lt_dec r MAX_RETRY_DAYS) as [Hlt | Hge]; simpl.
  - rewrite (proj2 (Nat.ltb_lt _ _) Hlt).
    destruct (addDays date (-1) >=? addDays (clock P r) (- MAX_DAYS_BACK)); reflexivity.
  - rewrite (proj2 (Nat.ltb_ge _ _)) by lia. reflexivity.
Qed.

Lemma report_probes (res : Functions.InvokeResult) :
  omap (fun l => match l with Loading d r => Some (d, r) | _ => None end) (report res) = [].
Proof.
  unfold report. destruct (Functions.error res) as [[| |] |]; reflexivity.
Qed.

Lemma asked_probes date r w :
  probes (asked P date r w) = probes w ++ [(formatDate date, r)].
Proof.
  unfold probes, asked, resolved. simpl.
  rewrite !omap_app, report_probes, app_nil_r. reflexivity.
Qed.

Lemma attempt_throws date r w e :
  settle (invoke P (formatDate date)) = Throws e ->
  attempt P date r w = (Throws e, asked P date r w).
Proof.
  intros H. unfold attempt, getNasaImageOfDay, called, print, lift, bind, modify. simpl.
  rewrite H. reflexivity.
Qed.

Lemma attempt_returns date r w response :
  settle (invoke P (formatDate date)) = Returns response ->
  attempt P date r w = present P (clock P r) date (formatDate date) response (asked P date r w).
Proof.
  intros H. unfold attempt, getNasaImageOfDay, called, print, lift, bind, modify. simpl.
  rewrite H. reflexivity.
Qed.

(** What the rest of the [try] block leaves alone. *)
Lemma present_probes today date ds response :
  maintains (unchanged probes) (present P today date ds response).
Proof. frame. Qed.

Lemma present_invokes today date ds response :
  maintains (unchanged (fun w => invokes (calls w))) (present P today date ds response).
Proof. frame. Qed.

Lemma present_currentDate today date ds response :
  maintains (unchanged (fun w => currentDate (screen w))) (present P today date ds response).
Proof. frame. Qed.

Lemma present_error today date ds response :
  maintains (unchanged (fun w => error (screen w))) (present P today date ds response).
Proof. frame. Qed.

Lemma present_loading today date ds response :
  maintains (unchanged (fun w => loading (screen w))) (present P today date ds response).
Proof. frame. Qed.

Lemma present_throws_plain today date ds response :
  throws_only plain (present P today date ds response).
Proof. throws. Qed.

Lemma preloadAdjacentImages_run today date w :
  exists w',
    preloadAdjacentImages today date w = (Returns tt, w')
    /\ background w' = background w ++ neighbours today date
    /\ files w' = files w /\ calls w' = calls w /\ console w' = console w
    /\ screen w' = screen w.
Proof.
  unfold preloadAdjacentImages, neighbours, spawn, bind, modify, ret.
  destruct (addDays date (-1) >=? _), (addDays date 1 <=? today); simpl;
    eexists; (split; [reflexivity |]); simpl; rewrite <- ?app_assoc, ?app_nil_r;
    repeat split; reflexivity.
Qed.

Lemma getImage_ready n s d w :
  snd (first_success P (sources P n s)) = true ->
  exists w', getImage P n s d w = (Returns (getCacheFilePath P d), w').
Proof.
  intros Hok. destruct (decide (getCacheFilePath P d ∈ files w)) as [Hin | Hout].
  - unfold getImage. rewrite (bind_returns _ _ _ _ _ (getCachedImage_hit P d w Hin)). eauto.
  - destruct (getImage_miss P n s d w Hout) as (l & _ & _ & Hr). rewrite Hok in Hr.
    destruct (getImage P n s d w) as [o w']. simpl in Hr. destruct Hr as [-> _]. eauto.
Qed.

Lemma present_imageData today date ds resp w :
  imageData (screen (snd (present P today date ds (Some resp) w))) = Some (data resp).
Proof.
  unfold present.
  erewrite bind_returns by reflexivity. erewrite bind_returns by reflexivity.
  match goal with
  | |- imageData (screen (snd (?m ?w0))) = _ =>
      assert (Hm : maintains (unchanged (fun w => imageData (screen w))) m) by frame;
      rewrite (Hm w0)
  end.
  reflexivity.
Qed.

Lemma present_ready today date ds resp w :
  asset_ready P (data resp) ->
  exists w',
    present P today date ds (Some resp) w = (Returns tt, w')
    /\ exists uri, localImageUri (screen w') = Some uri.
Proof.
  intros Hready. unfold present.
  erewrite bind_returns by reflexivity. erewrite bind_returns by reflexivity.
  set (w0 := setImageData _ w).
  destruct (String.eqb (media_type (data resp)) "image") eqn:Hmedia.
  - destruct Hready as [Hv | Hs]; [congruence |].
    destruct (getImage_ready _ _ ds w0 Hs) as [w1 H1].
    erewrite bind_returns; [| erewrite bind_returns; [reflexivity | exact H1]].
    destruct (preloadAdjacentImages_run today date
                (setLocalImageUri (Some (getCacheFilePath P ds)) w1))
      as (w2 & -> & _ & _ & _ & _ & Hscreen).
    exists w2. split; [reflexivity |]. rewrite Hscreen. simpl. eauto.
  - erewrite bind_returns by reflexivity.
    destruct (preloadAdjacentImages_run today date
                (setLocalImageUri (Some (url (data resp))) w0))
      as (w2 & -> & _ & _ & _ & _ & Hscreen).
    exists w2. split; [reflexivity |]. rewrite Hscreen. simpl. eauto.
Qed.

(** The frame that finds the record: one probe, the cursor stays, the record
    is shown, and when the asset can be shown there is no error. *)
Lemma found_frame date r w resp :
  settle (invoke P (formatDate date)) = Returns (Some resp) ->
  let w' := loadImageForDate P date r w in
  probes w' = probes w ++ [(formatDate date, r)]
  /\ currentDate (screen w') = currentDate (screen w)
  /\ imageData (screen w') = Some (data resp)
  /\ loading (screen w') = false
  /\ (asset_ready P (data resp) ->
      error (screen w') = None /\ exists uri, localImageUri (screen w') = Some uri).
Proof.
  intros Hdata w'. subst w'. rewrite loadImageForDate_step.
  rewrite (attempt_returns date r _ _ Hdata).
  pose proof (present_probes (clock P r) date (formatDate date) (Some resp)
                (asked P date r (resets w))) as Hp.
  pose proof (present_currentDate (clock P r) date (formatDate date) (Some resp)
                (asked P date r (resets w))) as Hc.
  pose proof (present_error (clock P r) date (formatDate date) (Some resp)
                (asked P date r (resets w))) as He.
  pose proof (present_imageData (clock P r) date (formatDate date) resp
                (asked P date r (resets w))) as Hi.
  pose proof (present_throws_plain (clock P r) date (formatDate date) (Some resp)
                (asked P date r (resets w))) as Ht.
  unfold unchanged in *.
  assert (Hprobes : probes (asked P date r (resets w)) = probes w ++ [(formatDate date, r)])
    by apply (asked_probes date r (resets w)).
  destruct (present P (clock P r) date (formatDate date) (Some resp) (asked P date r (resets w)))
    as [[u | e] w1] eqn:Hrun; simpl in *.
  - repeat split.
    + unfold probes in *. simpl. rewrite Hp. exact Hprobes.
    + exact Hc.
    + exact Hi.
    + exact He.
    + destruct (present_ready (clock P r) date (formatDate date) resp
                  (asked P date r (resets w)) H) as (w2 & Hw2 & uri & Huri).
      rewrite Hrun in Hw2. assert (w2 = w1) as -> by congruence. eauto.
  - rewrite (Ht _ _ eq_refl). repeat split.
    + unfold probes in *. simpl. rewrite Hp. exact Hprobes.
    + exact Hc.
    + exact Hi.
    + destruct (present_ready (clock P r) date (formatDate date) resp
                  (asked P date r (resets w)) H) as (w2 & Hw2 & _).
      rewrite Hrun in Hw2. discriminate.
    + destruct (present_ready (clock P r) date (formatDate date) resp
                  (asked P date r (resets w)) H) as (w2 & Hw2 & _).
      rewrite Hrun in Hw2. discriminate.
Qed.

Lemma addDays_addDays d a b : addDays (addDays d a) b = addDays d (a + b).
Proof. unfold addDays. lia. Qed.

Lemma addDays_0 d : addDays d 0 = d.
Proof. unfold addDays. lia. Qed.

Lemma addDays_mono d a b : a <= b -> addDays d a <= addDays d b.
Proof. unfold addDays, msPerDay. lia. Qed.

(** The walk back over [n] dates without data to a date that has a record,
    started at any date and retry count. *)
Lemma walk_back n : forall date r w resp,
  (r + n <= MAX_RETRY_DAYS)%nat ->
  (forall i, (i < n)%nat ->
     exists m dd, settle (invoke P (formatDate (addDays date (- Z.of_nat i))))
                  = Throws (NasaNoDataError m dd)) ->
  settle (invoke P (formatDate (addDays date (- Z.of_nat n)))) = Returns (Some resp) ->
  (forall i, (i < n)%nat ->
     addDays date (- Z.of_nat n) >= addDays (clock P (r + i)) (- MAX_DAYS_BACK)) ->
  let w' := loadImageForDate P date r w in
  probes w'
  = probes w ++ map (fun i => (formatDate (addDays date (- Z.of_nat i)), (r + i)%nat))
                    (seq 0 (S n))
  /\ currentDate (screen w')
     = match n with O => currentDate (screen w) | S _ => addDays date (- Z.of_nat n) end
  /\ imageData (screen w') = Some (data resp)
  /\ loading (screen w') = false
  /\ (asset_ready P (data resp) ->
      error (screen w') = None /\ exists uri, localImageUri (screen w') = Some uri).
Proof.
  induction n as [| n IH]; intros date r w resp Hcap Hnone Hdata Hbound w'; subst w'.
  - simpl Z.of_nat in *. simpl Z.opp in *. rewrite addDays_0 in *.
    simpl. rewrite Nat.add_0_r, addDays_0.
    exact (found_frame date r w resp Hdata).
  - destruct (Hnone 0%nat ltac:(lia)) as (m & dd & H0).
    simpl Z.of_nat in H0. simpl Z.opp in H0. rewrite addDays_0 in H0.
    rewrite loadImageForDate_step, (attempt_throws date r _ _ H0). simpl instanceof_NasaNoDataError.
    cbv iota.
    rewrite (proj2 (Nat.ltb_lt r MAX_RETRY_DAYS)) by lia.
    assert (Hstep : (addDays date (-1) >=? addDays (clock P r) (- MAX_DAYS_BACK)) = true).
    { pose proof (Hbound 0%nat ltac:(lia)) as Hb. rewrite Nat.add_0_r in Hb.
      pose proof (addDays_mono date (- Z.of_nat (S n)) (-1) ltac:(lia)).
      apply Z.geb_le. lia. }
    rewrite Hstep.
    set (w2 := setCurrentDate (addDays date (-1)) _).
    specialize (IH (addDays date (-1)) (S r) w2 resp).
    assert (Hshift : forall i, addDays (addDays date (-1)) (- Z.of_nat i)
                               = addDays date (- Z.of_nat (S i))).
    { intros i. rewrite addDays_addDays. f_equal. lia. }
    destruct IH as (Hp & Hc & Hi & Hl & He).
    + lia.
    + intros i Hi. rewrite Hshift. apply Hnone. lia.
    + rewrite Hshift. exact Hdata.
    + intros i Hi. rewrite Hshift. replace (S r + i)%nat with (r + S i)%nat by lia.
      apply Hbound. lia.
    + split; [| split; [| split; [| split]]].
      * change (probes (setLoading false ?x)) with (probes x). rewrite Hp.
        assert (Hw2 : probes w2 = probes w ++ [(formatDate date, r)]).
        { unfold probes, w2, asked, resolved. simpl.
          rewrite !omap_app, report_probes. simpl. rewrite !app_nil_r. reflexivity. }
        rewrite Hw2, <- app_assoc. f_equal.
        change (seq 0 (S (S n))) with (0%nat :: seq 1 (S n)).
        rewrite <- seq_shift, map_cons, map_map. refine (f_equal2 cons _ _).
        -- simpl Z.of_nat. simpl Z.opp. rewrite addDays_0, Nat.add_0_r. reflexivity.
        -- apply map_ext. intros i. rewrite Hshift. f_equal. lia.
      * change (currentDate (screen (setLoading false ?x))) with (currentDate (screen x)).
        rewrite Hc. destruct n; [reflexivity |]. apply Hshift.
      * exact Hi.
      * reflexivity.
      * exact He.
Qed.

Lemma attempt_probes date r w :
  probes (snd (attempt P date r w)) = probes w ++ [(formatDate date, r)].
Proof.
  pose proof (asked_probes date r w) as Hasked.
  destruct (settle (invoke P (formatDate date))) as [response | e] eqn:Hs.
  - rewrite (attempt_returns date r w _ Hs), <- Hasked. apply present_probes.
  - rewrite (attempt_throws date r w _ Hs). exact Hasked.
Qed.

Lemma attempt_currentDate date r w :
  currentDate (screen (snd (attempt P date r w))) = currentDate (screen w).
Proof.
  destruct (settle (invoke P (formatDate date))) as [response | e] eqn:Hs.
  - rewrite (attempt_returns date r w _ Hs).
    apply (present_currentDate (clock P r) date (formatDate date) response (asked P date r w)).
  - rewrite (attempt_throws date r w _ Hs). reflexivity.
Qed.


Lemma preloadImageForDate_never_throws d :
  throws_only (fun _ => False) (preloadImageForDate P d).
Proof. throws. Qed.

Lemma preloadImageForDate_returns d w :
  fst (preloadImageForDate P d w) = Returns tt.
Proof.
  pose proof (preloadImageForDate_never_throws d w) as H.
  destruct (preloadImageForDate P d w) as [[[] | e] w']; [reflexivity |].
  destruct (H e w' eq_refl).
Qed.

Lemma preloadImageForDate_screen d : maintains (unchanged screen) (preloadImageForDate P d).
Proof. frame. Qed.

Lemma getNasaImageOfDay_run d w :
  getNasaImageOfDay P d w = (settle (invoke P d), resolved P d w).
Proof. reflexivity. Qed.

(** The three ways in which a preload ends before it reaches the cache. *)
Lemma preloadImageForDate_throws d w e :
  settle (invoke P (formatDate d)) = Throws e ->
  preloadImageForDate P d w
  = (Returns tt,
     with_console
       (fun ls => ls ++ [Warn (if instanceof_NasaNoDataError e
                               then "[NasaApod] No data available for preload date"
                               else "[NasaApod] Failed to preload image")])
       (preload_asked P d w)).
Proof.
  intros Hs. unfold preloadImageForDate.
  erewrite try_catch_throws
    by (erewrite bind_returns by reflexivity;
        erewrite bind_throws; [reflexivity |];
        rewrite getNasaImageOfDay_run, Hs; reflexivity).
  destruct (instanceof_NasaNoDataError e); reflexivity.
Qed.

Lemma preloadImageForDate_nothing d w :
  settle (invoke P (formatDate d)) = Returns None ->
  preloadImageForDate P d w
  = (Returns tt,
     with_console (fun ls => ls ++ [Warn "[NasaApod] Failed to preload image"])
       (preload_asked P d w)).
Proof.
  intros Hs. unfold preloadImageForDate.
  erewrite try_catch_throws
    by (erewrite bind_returns by reflexivity;
        erewrite bind_returns by (rewrite getNasaImageOfDay_run, Hs; reflexivity);
        erewrite bind_throws; reflexivity).
  reflexivity.
Qed.

Lemma preloadImageForDate_video d w resp :
  settle (invoke P (formatDate d)) = Returns (Some resp) ->
  String.eqb (media_type (data resp)) "image" = false ->
  preloadImageForDate P d w = (Returns tt, preload_asked P d w).
Proof.
  intros Hs Hmedia. unfold preloadImageForDate.
  erewrite try_catch_returns
    by (erewrite bind_returns by reflexivity;
        erewrite bind_returns by (rewrite getNasaImageOfDay_run, Hs; reflexivity);
        erewrite bind_returns by reflexivity;
        rewrite Hmedia; reflexivity).
  reflexivity.
Qed.

Lemma preloadImage_returns n s d w : fst (preloadImage P n s d w) = Returns tt.
Proof.
  unfold preloadImage, try_catch, bind.
  destruct (getImage P n s d w) as [[p | e] w1]; reflexivity.
Qed.

(** For an image the preload is the cache's [preloadImage], called with the
    record's remote URL and storage path. *)
Lemma preloadImageForDate_image d w resp :
  settle (invoke P (formatDate d)) = Returns (Some resp) ->
  String.eqb (media_type (data resp)) "image" = true ->
  preloadImageForDate P d w
  = preloadImage P (Some (or_else (hdurl (data resp)) (url (data resp))))
      (storage_path (data resp)) (formatDate d) (preload_asked P d w).
Proof.
  intros Hs Hmedia. unfold preloadImageForDate.
  pose proof (preloadImage_returns (Some (or_else (hdurl (data resp)) (url (data resp))))
                (storage_path (data resp)) (formatDate d) (preload_asked P d w)) as Hret.
  destruct (preloadImage P _ _ (formatDate d) (preload_asked P d w)) as [o w1] eqn:Hrun.
  simpl in Hret. subst o.
  erewrite try_catch_returns
    by (erewrite bind_returns by reflexivity;
        erewrite bind_returns by (rewrite getNasaImageOfDay_run, Hs; reflexivity);
        erewrite bind_returns by reflexivity;
        rewrite Hmedia; exact Hrun).
  reflexivity.
Qed.

(** What [preloadImage] does to the device: it is [getImage] with a warning
    in place of the exception. *)
Lemma preloadImage_run n s d w :
  snd (preloadImage P n s d w)
  = match fst (getImage P n s d w) with
    | Returns _ => snd (getImage P n s d w)
    | Throws _ =>
        with_console (fun ls => ls ++ [Warn "[ImageCache] Failed to preload image"])
          (snd (getImage P n s d w))
    end.
Proof.
  unfold preloadImage, try_catch, bind.
  destruct (getImage P n s d w) as [[p | e] w1]; reflexivity.
Qed.

Lemma preloadImage_hit n s d w :
  getCacheFilePath P d ∈ files w ->
  snd (preloadImage P n s d w)
  = with_calls (fun l => l ++ [GetInfo (getCacheFilePath P d)]) w.
Proof.
  intros Hin. rewrite preloadImage_run. unfold getImage.
  rewrite (bind_returns _ _ _ _ _ (getCachedImage_hit P d w Hin)). reflexivity.
Qed.

Lemma preloadImage_miss n s d w :
  getCacheFilePath P d ∉ files w ->
  (exists l, calls (snd (preloadImage P n s d w)) = calls w ++ l
             /\ downloads l = fst (first_success P (sources P n s)))
  /\ (snd (first_success P (sources P n s)) = true ->
      snd (preloadImage P n s d w) = snd (getImage P n s d w)
      /\ getCacheFilePath P d ∈ files (snd (preloadImage P n s d w)))
  /\ (snd (first_success P (sources P n s)) = false ->
      snd (preloadImage P n s d w)
      = with_console (fun ls => ls ++ [Warn "[ImageCache] Failed to preload image"])
          (snd (getImage P n s d w))).
Proof.
  intros Hmiss. rewrite preloadImage_run.
  destruct (getImage_miss P n s d w Hmiss) as (l & Hc & Hd & Hr).
  destruct (getImage P n s d w) as [[p | e] w1]; cbn [fst snd] in *.
  - split; [exists l; split; [exact Hc | exact Hd] |].
    destruct (snd (first_success P (sources P n s))).
    + split; [| discriminate]. intros _. split; [reflexivity | apply Hr].
    + destruct Hr as [e He]. discriminate.
  - split; [exists l; split; [exact Hc | exact Hd] |].
    destruct (snd (first_success P (sources P n s))).
    + destruct Hr as [Hr _]. discriminate.
    + split; [discriminate |]. intros _. reflexivity.
Qed.

Lemma preload_asked_invokes d w :
  invokes (calls (preload_asked P d w)) = invokes (calls w) ++ [formatDate d].
Proof. unfold invokes, preload_asked, resolved. simpl. rewrite omap_app. reflexivity. Qed.

Lemma preloadImageForDate_invokes d w :
  invokes (calls (snd (preloadImageForDate P d w))) = invokes (calls w) ++ [formatDate d].
Proof.
  pose proof (preload_asked_invokes d w) as H0.
  destruct (settle (invoke P (formatDate d))) as [[resp |] | e] eqn:Hs.
  - destruct (String.eqb (media_type (data resp)) "image") eqn:Hmedia.
    + rewrite (preloadImageForDate_image d w resp Hs Hmedia).
      match goal with
      | |- invokes (calls (snd (?m ?w1))) = _ =>
          assert (Hm : maintains (unchanged (fun w => invokes (calls w))) m) by frame;
          rewrite (Hm w1)
      end.
      exact H0.
    + rewrite (preloadImageForDate_video d w resp Hs Hmedia). exact H0.
  - rewrite (preloadImageForDate_nothing d w Hs). exact H0.
  - rewrite (preloadImageForDate_throws d w e Hs). exact H0.
Qed.

Lemma preloadImage_console n s d : maintains (grows console) (preloadImage P n s d).
Proof. frame. Qed.

Lemma preloadImageForDate_console d w :
  exists rest,
    console (snd (preloadImageForDate P d w)) = console w ++ Preloading (formatDate d) :: rest.
Proof.
  assert (H0 : exists rest,
             console (preload_asked P d w) = console w ++ Preloading (formatDate d) :: rest).
  { unfold preload_asked, resolved. simpl. rewrite <- app_assoc. eexists. reflexivity. }
  destruct H0 as [rest0 H0].
  destruct (settle (invoke P (formatDate d))) as [[resp |] | e] eqn:Hs.
  - destruct (String.eqb (media_type (data resp)) "image") eqn:Hmedia.
    + rewrite (preloadImageForDate_image d w resp Hs Hmedia).
      destruct (preloadImage_console (Some (or_else (hdurl (data resp)) (url (data resp))))
                  (storage_path (data resp)) (formatDate d) (preload_asked P d w)) as [l Hl].
      rewrite Hl, H0, <- app_assoc. eexists. reflexivity.
    + rewrite (preloadImageForDate_video d w resp Hs Hmedia). eauto.
  - rewrite (preloadImageForDate_nothing d w Hs).
    simpl. rewrite <- !app_assoc. eexists. reflexivity.
  - rewrite (preloadImageForDate_throws d w e Hs).
    simpl. rewrite <- !app_assoc. eexists. reflexivity.
Qed.

Lemma preloadImageForDate_warns d w :
  preload_fails P d w ->
  exists text, last (console (snd (preloadImageForDate P d w))) = Some (Warn text).
Proof.
  unfold preload_fails. intros Hfail.
  destruct (settle (invoke P (formatDate d))) as [[resp |] | e] eqn:Hs.
  - destruct Hfail as (Himg & Hmiss & Hnone).
    rewrite (preloadImageForDate_image d w resp Hs Himg).
    destruct (preloadImage_miss (Some (or_else (hdurl (data resp)) (url (data resp))))
                (storage_path (data resp)) (formatDate d) (preload_asked P d w) Hmiss)
      as (_ & _ & Hwarn).
    rewrite (Hwarn Hnone). simpl. eexists. apply last_snoc.
  - rewrite (preloadImageForDate_nothing d w Hs). simpl. eexists. apply last_snoc.
  - rewrite (preloadImageForDate_throws d w e Hs). simpl. eexists. apply last_snoc.
Qed.

Lemma run_preloads_quiet ds : forall w,
  fst (run_preloads P ds w) = Returns tt
  /\ screen (snd (run_preloads P ds w)) = screen w.
Proof.
  induction ds as [| d ds IH]; intros w; [split; reflexivity |].
  simpl. unfold bind.
  pose proof (preloadImageForDate_returns d w) as Hr.
  pose proof (preloadImageForDate_screen d w) as Hs. unfold unchanged in Hs.
  destruct (preloadImageForDate P d w) as [o w1]. simpl in Hr, Hs. subst o.
  destruct (IH w1) as [H1 H2]. split; [exact H1 | congruence].
Qed.

End ScreenFacts.

Section ScreenTheorems.
Import Js Phone Supabase ImageCache NasaApodScreen Observe.

(** The walk as the controller runs it, given the resolver's signal. When
    the resolver throws [NasaNoDataError] for D, D-1, ..., D-k with
    k below [MAX_RETRY_DAYS], has a record for D-(k+1), and D-(k+1) is not
    older than the oldest allowed date at any step, [loadImageForDate(D)]
    probes exactly D, D-1, ..., D-(k+1) with retry counts 0, 1, ..., k+1 and
    stops there: the last probe is D-(k+1) with count k+1, [currentDate] is
    D-(k+1), the record is shown, and there is no error when its asset can be
    shown. Whether the signal is ever given is another matter: see the end of
    the file for the walk behind the edge function. *)
Theorem retry_walk_lands_on_first_date_with_data P D k resp w :
  (k < MAX_RETRY_DAYS)%nat ->
  (forall i, (i <= k)%nat ->
     exists m dd, settle (invoke P (formatDate (addDays D (- Z.of_nat i))))
                  = Throws (NasaNoDataError m dd)) ->
  settle (invoke P (formatDate (addDays D (- Z.of_nat (S k))))) = Returns (Some resp) ->
  (forall i, (i <= k)%nat ->
     addDays D (- Z.of_nat (S k)) >= addDays (clock P i) (- MAX_DAYS_BACK)) ->
  let w' := loadImageForDate P D 0 w in
  probes w'
  = probes w ++ map (fun i => (formatDate (addDays D (- Z.of_nat i)), i)) (seq 0 (S (S k)))
  /\ last (probes w') = Some (formatDate (addDays D (- Z.of_nat (S k))), S k)
  /\ currentDate (screen w') = addDays D (- Z.of_nat (S k))
  /\ imageData (screen w') = Some (data resp)
  /\ loading (screen w') = false
  /\ (asset_ready P (data resp) ->
      error (screen w') = None /\ exists uri, localImageUri (screen w') = Some uri).
Proof.
  intros Hk Hnone Hdata Hbound w'. subst w'.
  destruct (walk_back P (S k) D 0%nat w resp) as (Hp & Hc & Hi & Hl & He).
  - simpl. lia.
  - intros i Hi. apply Hnone. lia.
  - exact Hdata.
  - intros i Hi. simpl. apply Hbound. lia.
  - simpl Nat.add in Hp. split; [exact Hp |]. split; [| auto].
    rewrite Hp, seq_S, map_app, app_assoc. simpl. apply last_snoc.
Qed.

(** An instance of the walk: the endpoint signals no data for 2024-10-05 and
    2024-10-04 and has a record for 2024-10-03. *)
Lemma retry_walk_witness :
  let P := PhoneExamples.online in
  let D := PhoneExamples.midnight in
  let w' := loadImageForDate P D 0 PhoneExamples.blank in
  (1 < MAX_RETRY_DAYS)%nat
  /\ (forall i, (i <= 1)%nat ->
        exists m dd, settle (invoke P (formatDate (addDays D (- Z.of_nat i))))
                     = Throws (NasaNoDataError m dd))
  /\ settle (invoke P (formatDate (addDays D (- Z.of_nat 2))))
     = Returns (Some {| data := PhoneExamples.picture; cached := true |})
  /\ (forall i, (i <= 1)%nat ->
        addDays D (- Z.of_nat 2) >= addDays (clock P i) (- MAX_DAYS_BACK))
  /\ probes w'
     = probes PhoneExamples.blank
       ++ map (fun i => (formatDate (addDays D (- Z.of_nat i)), i)) (seq 0 3)
  /\ last (probes w') = Some (formatDate (addDays D (- Z.of_nat 2)), 2%nat)
  /\ currentDate (screen w') = addDays D (- Z.of_nat 2).
Proof.
  assert (H1 : (1 < MAX_RETRY_DAYS)%nat) by (unfold MAX_RETRY_DAYS; lia).
  assert (H2 : forall i, (i <= 1)%nat ->
             exists m dd,
               settle (invoke PhoneExamples.online
                         (formatDate (addDays PhoneExamples.midnight (- Z.of_nat i))))
               = Throws (NasaNoDataError m dd)).
  { intros i Hi. destruct i as [| [| i]]; [| | lia]; eexists _, _; vm_compute; reflexivity. }
  assert (H3 : settle (invoke PhoneExamples.online
                         (formatDate (addDays PhoneExamples.midnight (- Z.of_nat 2))))
               = Returns (Some {| data := PhoneExamples.picture; cached := true |}))
    by (vm_compute; reflexivity).
  assert (H4 : forall i, (i <= 1)%nat ->
             addDays PhoneExamples.midnight (- Z.of_nat 2)
             >= addDays (clock PhoneExamples.online i) (- MAX_DAYS_BACK))
    by (intros i _; vm_compute; discriminate).
  pose proof (retry_walk_lands_on_first_date_with_data PhoneExamples.online
                PhoneExamples.midnight 1 _ PhoneExamples.blank H1 H2 H3 H4)
    as (Hp & Hlast & Hc & _).
  repeat (split; [assumption |]). assumption.
Defined.



(** C9 (as amended). [preloadAdjacentImages] starts preloads for date-1 and
    date+1 only, each checked against one bound: date-1 exactly when it is not
    before the oldest allowed date, date+1 exactly when it is not after now.
    For a date within the window from the oldest allowed date to now these are
    exactly the neighbours within the window, so none lies in the future. It
    neither waits for the preloads nor touches the screen. Each preload prints
    its date, calls the resolver once, for its own date only, and always
    returns normally and leaves the screen alone, as does any sequence of
    preloads. When the resolver throws or hands back nothing, the preload ends
    there with a warning. A video is not downloaded. For an image the preload
    is the cache's [preloadImage] with the record's remote URL (the
    high-definition one when there is one) and storage path: a cached image
    costs one existence check, an uncached one is downloaded from its sources
    in order up to the first success and is in the cache afterwards, and when
    no source succeeds the last thing the preload does is print a warning. *)
Theorem preloading_is_bounded_single_shot_and_silent P today date w :
  let w' := snd (preloadAdjacentImages today date w) in
  let started := neighbours today date in
  let oldestDate := addDays today (- MAX_DAYS_BACK) in
  fst (preloadAdjacentImages today date w) = Returns tt
  /\ background w' = background w ++ started
  /\ calls w' = calls w /\ files w' = files w /\ screen w' = screen w
  /\ console w' = console w
  /\ (forall x, In x started -> x = addDays date (-1) \/ x = addDays date 1)
  /\ (In (addDays date (-1)) started <-> oldestDate <= addDays date (-1))
  /\ (In (addDays date 1) started <-> addDays date 1 <= today)
  /\ (oldestDate <= date <= today ->
      forall x, In x started <->
                (x = addDays date (-1) \/ x = addDays date 1) /\ oldestDate <= x <= today)
  /\ (forall d w0,
        let dateStr := formatDate d in
        let run := preloadImageForDate P d w0 in
        fst run = Returns tt
        /\ screen (snd run) = screen w0
        /\ invokes (calls (snd run)) = invokes (calls w0) ++ [dateStr]
        /\ (exists rest,
              console (snd run) = console w0 ++ Preloading dateStr :: rest)
        /\ (preload_fails P d w0 ->
            exists text, last (console (snd run)) = Some (Warn text))
        /\ (forall e,
              settle (invoke P dateStr) = Throws e ->
              snd run
              = with_console
                  (fun ls => ls ++ [Warn (if instanceof_NasaNoDataError e
                                          then "[NasaApod] No data available for preload date"
                                          else "[NasaApod] Failed to preload image")])
                  (preload_asked P d w0))
        /\ (settle (invoke P dateStr) = Returns None ->
            snd run
            = with_console (fun ls => ls ++ [Warn "[NasaApod] Failed to preload image"])
                (preload_asked P d w0))
        /\ (forall resp,
              settle (invoke P dateStr) = Returns (Some resp) ->
              let nasaUrl := Some (or_else (hdurl (data resp)) (url (data resp))) in
              let storagePath := storage_path (data resp) in
              (String.eqb (media_type (data resp)) "image" = false ->
               snd run = preload_asked P d w0)
              /\ (String.eqb (media_type (data resp)) "image" = true ->
                  run = preloadImage P nasaUrl storagePath dateStr (preload_asked P d w0)
                  /\ (getCacheFilePath P dateStr ∈ files w0 ->
                      snd run
                      = with_calls (fun l => l ++ [GetInfo (getCacheFilePath P dateStr)])
                          (preload_asked P d w0))
                  /\ (getCacheFilePath P dateStr ∉ files w0 ->
                      let fetched := getImage P nasaUrl storagePath dateStr
                                       (preload_asked P d w0) in
                      downloads (since w0 (snd run))
                      = fst (first_success P (sources P nasaUrl storagePath))
                      /\ (snd (first_success P (sources P nasaUrl storagePath)) = true ->
                          snd run = snd fetched
                          /\ getCacheFilePath P dateStr ∈ files (snd run))
                      /\ (snd (first_success P (sources P nasaUrl storagePath)) = false ->
                          snd run
                          = with_console
                              (fun ls => ls ++ [Warn "[ImageCache] Failed to preload image"])
                              (snd fetched))))))
  /\ (forall ds w0,
        fst (run_preloads P ds w0) = Returns tt
        /\ screen (snd (run_preloads P ds w0)) = screen w0).
Proof.
  intros w' started oldestDate. subst w' started oldestDate.
  destruct (preloadAdjacentImages_run today date w) as (w1 & Hrun & Hb & Hf & Hc & Hcon & Hs).
  rewrite Hrun. simpl.
  split; [reflexivity |]. split; [exact Hb |]. split; [exact Hc |].
  split; [exact Hf |]. split; [exact Hs |]. split; [exact Hcon |].
  assert (Hwindow :
            (forall x, In x (neighbours today date) ->
                       x = addDays date (-1) \/ x = addDays date 1)
            /\ (In (addDays date (-1)) (neighbours today date)
                <-> addDays today (- MAX_DAYS_BACK) <= addDays date (-1))
            /\ (In (addDays date 1) (neighbours today date) <-> addDays date 1 <= today)).
  { unfold neighbours.
    destruct (addDays date (-1) >=? addDays today (- MAX_DAYS_BACK)) eqn:Hy;
      destruct (addDays date 1 <=? today) eqn:Ht;
      rewrite ?Z.geb_leb, ?Z.leb_le, ?Z.leb_gt in Hy, Ht;
      unfold addDays, msPerDay, MAX_DAYS_BACK in *; simpl; intuition lia. }
  destruct Hwindow as (Hsub & Hprev & Hnext).
  split; [exact Hsub |]. split; [exact Hprev |]. split; [exact Hnext |].
  split; [| split].
  - intros Hwin x. split.
    + intros Hx. split; [apply Hsub, Hx |].
      destruct (Hsub x Hx) as [-> | ->].
      * apply Hprev in Hx. unfold addDays, msPerDay, MAX_DAYS_BACK in *. lia.
      * apply Hnext in Hx. unfold addDays, msPerDay, MAX_DAYS_BACK in *. lia.
    + intros [[-> | ->] Hx]; [apply Hprev | apply Hnext]; lia.
  - intros d w0. cbv zeta.
    split; [apply preloadImageForDate_returns |].
    split; [apply (preloadImageForDate_screen P d w0) |].
    split; [apply preloadImageForDate_invokes |].
    split; [apply preloadImageForDate_console |].
    split; [apply preloadImageForDate_warns |].
    split; [intros e He; rewrite (preloadImageForDate_throws P d w0 e He); reflexivity |].
    split; [intros He; rewrite (preloadImageForDate_nothing P d w0 He); reflexivity |].
    intros resp Hresp. split.
    + intros Hmedia. rewrite (preloadImageForDate_video P d w0 resp Hresp Hmedia). reflexivity.
    + intros Hmedia. rewrite (preloadImageForDate_image P d w0 resp Hresp Hmedia).
      split; [reflexivity |]. split.
      * intros Hin. apply preloadImage_hit. exact Hin.
      * intros Hout.
        destruct (preloadImage_miss P (Some (or_else (hdurl (data resp)) (url (data resp))))
                    (storage_path (data resp)) (formatDate d) (preload_asked P d w0) Hout)
          as ((l & Hl & Hd) & Hok & Hno).
        split; [| split; [intros H; apply (Hok H) | exact Hno]].
        rewrite (since_app w0 _ (Invoke (formatDate d) :: l))
          by (rewrite Hl; simpl; rewrite <- app_assoc; reflexivity).
        exact Hd.
  - intros ds w0. apply run_preloads_quiet.
Qed.

(** C9, an instance: at noon of 2024-10-05 only the day before is
    preloaded, and a preload of 2024-10-03 on a device with an empty cache
    leaves the image of that day in the cache. *)
Lemma preloading_witness :
  addDays PhoneExamples.noon (- MAX_DAYS_BACK) <= PhoneExamples.midnight <= PhoneExamples.noon
  /\ neighbours PhoneExamples.noon PhoneExamples.midnight = [addDays PhoneExamples.midnight (-1)]
  /\ (forall x, In x (neighbours PhoneExamples.noon PhoneExamples.midnight) <->
                (x = addDays PhoneExamples.midnight (-1) \/ x = addDays PhoneExamples.midnight 1)
                /\ addDays PhoneExamples.noon (- MAX_DAYS_BACK) <= x <= PhoneExamples.noon)
  /\ formatDate (addDays PhoneExamples.midnight (-2)) = "2024-10-03"
  /\ "file:///cache/nasa-images/2024-10-03.jpg"
     ∈ files (snd (preloadImageForDate PhoneExamples.online (addDays PhoneExamples.midnight (-2))
                     PhoneExamples.blank)).
Proof.
  assert (H : addDays PhoneExamples.noon (- MAX_DAYS_BACK) <= PhoneExamples.midnight
              <= PhoneExamples.noon) by (vm_compute; split; discriminate).
  split; [exact H |]. split; [vm_compute; reflexivity |].
  pose proof (preloading_is_bounded_single_shot_and_silent PhoneExamples.online
                PhoneExamples.noon PhoneExamples.midnight PhoneExamples.blank) as Hthm.
  cbv zeta in Hthm. destruct Hthm as (_ & _ & _ & _ & _ & _ & _ & _ & _ & Hwin & Hpre & _).
  split; [exact (Hwin H) |]. split; [vm_compute; reflexivity |].
  destruct (Hpre (addDays PhoneExamples.midnight (-2)) PhoneExamples.blank)
    as (_ & _ & _ & _ & _ & _ & _ & Himage).
  assert (Hs : settle (invoke PhoneExamples.online
                         (formatDate (addDays PhoneExamples.midnight (-2))))
               = Returns (Some {| data := PhoneExamples.picture; cached := true |}))
    by (vm_compute; reflexivity).
  destruct (Himage _ Hs) as (_ & Hcache).
  destruct (Hcache eq_refl) as (_ & _ & Hmiss).
  assert (Hout : getCacheFilePath PhoneExamples.online
                   (formatDate (addDays PhoneExamples.midnight (-2)))
                 ∉ files PhoneExamples.blank) by apply not_elem_of_empty.
  destruct (Hmiss Hout) as (_ & Hok & _).
  assert (Hfs : snd (first_success PhoneExamples.online
                       (sources PhoneExamples.online
                          (Some (or_else (hdurl PhoneExamples.picture)
                                   (url PhoneExamples.picture)))
                          (storage_path PhoneExamples.picture))) = true)
    by (vm_compute; reflexivity).
  pose proof (proj2 (Hok Hfs)) as Hin.
  assert (Hp : getCacheFilePath PhoneExamples.online
                 (formatDate (addDays PhoneExamples.midnight (-2)))
               = "file:///cache/nasa-images/2024-10-03.jpg") by (vm_compute; reflexivity).
  rewrite Hp in Hin. exact Hin.
Defined.

(** C9 as stated fails for a date outside the window, since each neighbour
    is checked against one bound only. At noon of 2024-10-05 the oldest
    allowed date is 2024-08-16: for 2024-08-14 the day after is preloaded
    although it is older than that, and for 2024-10-07 the day before is
    preloaded although it lies in the future. *)
Lemma neighbour_outside_the_window_is_preloaded :
  let today := PhoneExamples.noon in
  let oldestDate := addDays today (- MAX_DAYS_BACK) in
  let early := addDays PhoneExamples.midnight (-52) in
  let late := addDays PhoneExamples.midnight 2 in
  formatDate oldestDate = "2024-08-16"
  /\ formatDate early = "2024-08-14"
  /\ background (snd (preloadAdjacentImages today early PhoneExamples.blank))
     = [addDays early 1]
  /\ formatDate (addDays early 1) = "2024-08-15"
  /\ addDays early 1 < oldestDate
  /\ formatDate late = "2024-10-07"
  /\ background (snd (preloadAdjacentImages today late PhoneExamples.blank))
     = [addDays late (-1)]
  /\ formatDate (addDays late (-1)) = "2024-10-06"
  /\ today < addDays late (-1).
Proof. repeat split; vm_compute; reflexivity. Qed.

(** C10. When the endpoint fails with an error that does not carry
    [errorCode = "NASA_NO_DATA"] (an HTTP error whose body has another code or
    none, a relay error, a fetch error), [getNasaImageOfDay] does not throw: it
    prints the response it got, error included, and returns the [data] that
    came with the error, which is absent on a failure. *)
Theorem resolver_returns_data_after_other_failures P d w :
  other_failure (invoke P d) ->
  getNasaImageOfDay P d w = (Returns (Functions.data (invoke P d)), resolved P d w)
  /\ (exists rest,
        console (resolved P d w)
        = console w ++ Info "[Supabase] getNasaImageOfDay response" :: rest)
  /\ (Functions.data (invoke P d) = None -> fst (getNasaImageOfDay P d w) = Returns None).
Proof.
  intros Hother.
  assert (Hs : settle (invoke P d) = Returns (Functions.data (invoke P d))).
  { unfold other_failure in Hother. unfold settle.
    destruct (Functions.error (invoke P d)) as [[[body |] | msg | msg] |];
      try reflexivity; try contradiction.
    destruct (field "errorCode" body) as [[code | b | row] |]; try reflexivity.
    destruct (String.eqb_spec code "NASA_NO_DATA") as [-> | Hne]; [| reflexivity].
    contradiction Hother. reflexivity. }
  assert (Hrun : getNasaImageOfDay P d w
                 = (Returns (Functions.data (invoke P d)), resolved P d w)).
  { unfold getNasaImageOfDay, called, lift, bind, modify. simpl. rewrite Hs. reflexivity. }
  split; [exact Hrun |]. split.
  - unfold resolved, report. simpl. eexists. reflexivity.
  - intros Hnone. rewrite Hrun, Hnone. reflexivity.
Qed.

(** C10, an instance: the network is down. *)
Lemma resolver_other_failure_witness :
  other_failure (invoke PhoneExamples.offline "2024-10-05")
  /\ fst (getNasaImageOfDay PhoneExamples.offline "2024-10-05" PhoneExamples.blank)
     = Returns None.
Proof.
  assert (H : other_failure (invoke PhoneExamples.offline "2024-10-05")) by exact I.
  split; [exact H |].
  destruct (resolver_returns_data_after_other_failures PhoneExamples.offline "2024-10-05"
              PhoneExamples.blank H) as (_ & _ & Hnone).
  apply Hnone. reflexivity.
Defined.

(** C10 as stated fails for one kind of error without the code: when the
    body of an HTTP error cannot be read as JSON (here the page of a gateway
    that answers 502), awaiting [error.context.json()] rejects and the
    resolver throws, after it has made its call and printed the response; what
    it throws is not [NasaNoDataError]. *)
Lemma unreadable_error_body_makes_the_resolver_throw :
  let P := PhoneExamples.gateway_down in
  let run := getNasaImageOfDay P "2024-10-05" PhoneExamples.blank in
  Functions.error (invoke P "2024-10-05") = Some (Functions.FunctionsHttpError None)
  /\ relay {| EdgeFunction.resp_status := 502;
              EdgeFunction.resp_body := inl "<html>502 Bad Gateway</html>" |}
     = invoke P "2024-10-05"
  /\ (exists e, fst run = Throws e /\ instanceof_NasaNoDataError e = false)
  /\ fst run <> Returns (Functions.data (invoke P "2024-10-05"))
  /\ calls (snd run) = [Invoke "2024-10-05"]
  /\ console (snd run) = [Info "[Supabase] getNasaImageOfDay response"].
Proof.
  cbv zeta.
  split; [vm_compute; reflexivity |].
  split; [vm_compute; reflexivity |].
  split; [eexists; split; vm_compute; reflexivity |].
  split; [vm_compute; discriminate |].
  split; vm_compute; reflexivity.
Qed.

End ScreenTheorems.

(** * More of the code

    Properties of the parts of the four files that the theorems above do not
    reach: the other paths of the edge function, the names it gives to stored
    objects, the maintenance of the cache, the navigation handlers and the
    rendering of the screen, and the dates the screen formats. *)

(** ** Strings *)

Lemma append_cons c s t : String c s +:+ t = String c (s +:+ t).
Proof. reflexivity. Qed.

Lemma length_append s t : String.length (s +:+ t) = (String.length s + String.length t)%nat.
Proof.
  induction s as [| c s IH]; [reflexivity |].
  rewrite append_cons. simpl. rewrite IH. reflexivity.
Qed.

Lemma prefix_append s t : String.prefix s (s +:+ t) = true.
Proof.
  induction s as [| c s IH]; [destruct t; reflexivity |].
  rewrite append_cons. simpl. destruct (ascii_dec c c); [exact IH | contradiction].
Qed.

Lemma append_inj_r t : forall s1 s2, s1 +:+ t = s2 +:+ t -> s1 = s2.
Proof.
  induction s1 as [| c s1 IH]; intros s2 H.
  - apply (f_equal String.length) in H. rewrite !length_append in H.
    destruct s2; [reflexivity | simpl in H; lia].
  - destruct s2 as [| c2 s2].
    + apply (f_equal String.length) in H. rewrite !length_append in H. simpl in H. lia.
    + rewrite !append_cons in H. injection H as -> H. f_equal. apply IH, H.
Qed.

(** ** The edge function: the other paths *)

Section EdgeFunctionMore.
Import Js EdgeFunction Observe.

(** The body of the outer [try] returns only the two success bodies. *)
Lemma resolve_returns cloud req b r b' :
  resolve cloud req b = (Returns r, b') ->
  exists row c, r = json_response 200 [("data", JRow row); ("cached", JBool c)].
Proof.
  unfold resolve, persist, lookup, require_key, require_date, bind, select_single,
    insert_single, fetch, log, modify, get, ret, throw.
  repeat (match goal with
          | |- context [match ?x with _ => _ end] => destruct x eqn:?
          end; simpl; try congruence);
    try (intros [= <- <-]; eauto).
Qed.

(** On a miss the handler runs the provider call, the copies and the insert. *)
Lemma serve_miss cloud m d key b :
  String.eqb m "OPTIONS" = false ->
  NASA_API_KEY cloud = Some key -> truthy key = true ->
  test dateRegex d = true ->
  select_fault cloud d = None ->
  nasa_images b !! d = None ->
  serve cloud {| method := m; date_param := Some d |} b
  = try_catch
      (bind (fetch_from_nasa cloud key d)
         (fun nasaData => bind (store_images cloud d nasaData)
                            (fun paths => persist cloud nasaData paths)))
      (fun error => ret (json_response 400 [("error", JString (message_of error))]))
      (logged (Select d) b).
Proof.
  intros Hm Hkey Htr Hd Hsel Hnone. unfold serve. cbn [method]. rewrite Hm.
  unfold resolve.
  rewrite (try_catch_bind_returns _ _ _ _ _ _ (require_key_ok cloud key b Hkey Htr)).
  rewrite (try_catch_bind_returns _ _ _ _ _ _ (require_date_ok m d b Hd)).
  rewrite (try_catch_bind_returns _ _ _ _ _ _ (lookup_miss cloud d b Hsel Hnone)).
  reflexivity.
Qed.

Lemma fetch_from_nasa_ok cloud key d b r n :
  net cloud (nasaApiUrl key d) = Resolves r -> ok r = true -> json r = Some n ->
  fetch_from_nasa cloud key d b = (Returns n, logged (Fetch (nasaApiUrl key d)) b).
Proof.
  intros Hnet Hok Hjson. unfold fetch_from_nasa, fetch, bind, log, modify, ret. simpl.
  rewrite Hnet. simpl. rewrite Hok, Hjson. reflexivity.
Qed.

(** The insert of a record whose date is free. *)
Lemma persist_ok cloud n paths b :
  insert_fault cloud = None ->
  (nasa_images b ∪ racing cloud) !! Apod.date n = None ->
  persist cloud n paths b
  = (Returns (success (inserted_row cloud n (fst paths) (snd paths)) false),
     {| nasa_images := <[Apod.date n := inserted_row cloud n (fst paths) (snd paths)]>
                         (nasa_images b ∪ racing cloud);
        bucket := bucket b;
        calls := calls b ++ [Insert (Apod.date n)] |}).
Proof.
  intros Hf Hfree. unfold persist, insert_single, bind, log, modify, get, ret. simpl.
  rewrite Hf, Hfree. reflexivity.
Qed.

(** The standard copy, when the image can be fetched. *)
Lemma store_standard_run cloud d n b ri :
  net cloud (Apod.url n) = Resolves ri ->
  store_standard cloud d n b
  = let name := fileName d (Apod.title n) in
    let b1 := logged (Upload name) (logged (Fetch (Apod.url n)) b) in
    match upload_fault cloud name, bucket b !! name with
    | None, None =>
        (Returns (Some (storageBucket +:+ "/" +:+ name)),
         {| nasa_images := nasa_images b;
            bucket := <[name := blob ri]> (bucket b);
            calls := calls b1 |})
    | _, _ => (Returns None, b1)
    end.
Proof.
  intros Hnet. unfold store_standard, fetch, upload, bind, log, modify, get, ret. simpl.
  rewrite Hnet. simpl.
  destruct (upload_fault cloud _); simpl; [reflexivity |].
  destruct (bucket b !! _); reflexivity.
Qed.

Lemma store_standard_rejected cloud d n b reason :
  net cloud (Apod.url n) = Rejects reason ->
  store_standard cloud d n b = (Throws (TypeError reason), logged (Fetch (Apod.url n)) b).
Proof.
  intros Hnet. unfold store_standard, fetch, bind, log, modify, throw. simpl.
  rewrite Hnet. reflexivity.
Qed.

Lemma store_hd_never_throws cloud d n : throws_only (fun _ => False) (store_hd cloud d n).
Proof. throws. Qed.

Lemma store_hd_table cloud d n : maintains (unchanged nasa_images) (store_hd cloud d n).
Proof. frame. Qed.

#[global] Instance keeps_blobs_preorder : PreOrder keeps_blobs.
Proof.
  split.
  - intros b k x H. exact H.
  - intros b1 b2 b3 H12 H23 k x H. apply H23, H12, H.
Qed.

Lemma unchanged_keeps_blobs {A} (m : M A) :
  maintains (unchanged bucket) m -> maintains keeps_blobs m.
Proof. intros H b k x Hx. rewrite (H b). exact Hx. Qed.

Lemma upload_keeps_blobs cloud name content : maintains keeps_blobs (upload cloud name content).
Proof.
  intros b k x H. unfold upload, bind, log, modify, get, ret. simpl.
  destruct (upload_fault cloud name); simpl; [exact H |].
  destruct (bucket b !! name) eqn:Hn; simpl; [exact H |].
  rewrite lookup_insert_ne; [exact H | congruence].
Qed.

#[local] Hint Resolve upload_keeps_blobs : frame.
#[local] Hint Extern 2 (maintains keeps_blobs _) =>
  apply unchanged_keeps_blobs; solve [frame] : frame.

Lemma serve_keeps_blobs cloud req : maintains keeps_blobs (serve cloud req).
Proof.
  unfold serve, resolve, persist, store_images, store_standard, store_hd.
  destruct (String.eqb (method req) "OPTIONS"); frame.
Qed.

Lemma store_hd_run cloud d n b hd rh :
  Apod.hdurl n = Some hd -> truthy hd = true -> net cloud hd = Resolves rh ->
  store_hd cloud d n b
  = let name := hdFileName d (Apod.title n) in
    let b1 := logged (Upload name) (logged (Fetch hd) b) in
    match upload_fault cloud name, bucket b !! name with
    | None, None =>
        (Returns (Some (storageBucket +:+ "/" +:+ name)),
         {| nasa_images := nasa_images b;
            bucket := <[name := blob rh]> (bucket b);
            calls := calls b1 |})
    | _, _ => (Returns None, b1)
    end.
Proof.
  intros Hhd Htr Hnet.
  unfold store_hd, try_catch, fetch, upload, bind, log, modify, get, ret. simpl.
  rewrite Hhd, Htr, Hnet. simpl.
  destruct (upload_fault cloud _); simpl; [reflexivity |].
  destruct (bucket b !! _); reflexivity.
Qed.

Lemma hdFileName_fresh d t : fileName d t <> hdFileName d t.
Proof.
  unfold hdFileName. generalize (fileName d t). intros s H.
  apply (f_equal String.length) in H.
  change ("hd-" +:+ s) with (String "h" (String "d" (String "-" s))) in H.
  simpl in H. lia.
Qed.

Lemma serve_hit cloud m d key b row :
  String.eqb m "OPTIONS" = false ->
  NASA_API_KEY cloud = Some key -> truthy key = true ->
  test dateRegex d = true ->
  select_fault cloud d = None ->
  nasa_images b !! d = Some row ->
  serve cloud {| method := m; date_param := Some d |} b
  = (Returns (success row true), logged (Select d) b).
Proof.
  intros Hm Hkey Htr Hd Hsel Hrow. unfold serve. cbn [method]. rewrite Hm.
  unfold resolve.
  rewrite (try_catch_bind_returns _ _ _ _ _ _ (require_key_ok cloud key b Hkey Htr)).
  rewrite (try_catch_bind_returns _ _ _ _ _ _ (require_date_ok m d b Hd)).
  rewrite (try_catch_bind_returns _ _ _ _ _ _ (lookup_hit cloud d row b Hsel Hrow)).
  reflexivity.
Qed.

(** A success answer on a miss carries the row that is in the table. *)
Lemma serve_miss_row cloud m d key b row c b' :
  String.eqb m "OPTIONS" = false ->
  NASA_API_KEY cloud = Some key -> truthy key = true ->
  test dateRegex d = true ->
  select_fault cloud d = None ->
  nasa_images b !! d = None ->
  serve cloud {| method := m; date_param := Some d |} b = (Returns (success row c), b') ->
  c = false /\ nasa_images b' !! date row = Some row.
Proof.
  intros Hm Hkey Htr Hd Hsel Hnone.
  rewrite (serve_miss cloud m d key b Hm Hkey Htr Hd Hsel Hnone).
  unfold try_catch, bind.
  destruct (fetch_from_nasa cloud key d _) as [[n | e] b1]; [| discriminate].
  destruct (store_images cloud d n b1) as [[paths | e] b2]; [| discriminate].
  destruct (persist cloud n paths b2) as [[r0 | e] b3] eqn:Hp; [| discriminate].
  intros [= -> <-]. destruct (persist_returns _ _ _ _ _ _ Hp) as (row' & Heq & Hrow).
  injection Heq as -> ->. split; [reflexivity | exact Hrow].
Qed.

(** X1. No exception escapes the handler: every request is answered. A
    preflight gets 200 with the text "ok" and leaves the stores and the call
    log as they are; every other request gets either 200 with a record and its
    [cached] flag or 400 with a single [error] message. *)
Theorem serve_always_answers cloud req b :
  exists r b',
    serve cloud req b = (Returns r, b')
    /\ (if String.eqb (method req) "OPTIONS"
        then r = {| resp_status := 200; resp_body := inl "ok" |} /\ b' = b
        else (exists row c, r = json_response 200 [("data", JRow row); ("cached", JBool c)])
             \/ (exists msg, r = json_response 400 [("error", JString msg)])).
Proof.
  unfold serve. destruct (String.eqb (method req) "OPTIONS").
  - eexists _, _. split; [reflexivity |]. split; reflexivity.
  - unfold try_catch. destruct (resolve cloud req b) as [[r | e] b'] eqn:Hres.
    + eexists _, _. split; [reflexivity |]. left. exact (resolve_returns _ _ _ _ _ Hres).
    + eexists _, _. split; [reflexivity |]. right. eauto.
Qed.

(** X2. Without [NASA_API_KEY] (unset or empty) every request that is not a
    preflight is answered 400 "NASA_API_KEY environment variable is not set"
    before the date is looked at and before any call: a record that is in the
    table is not served either. A preflight is still answered 200. *)
Theorem request_without_api_key_is_refused cloud req b :
  truthy_opt (NASA_API_KEY cloud) = false ->
  serve cloud req b
  = (Returns (if String.eqb (method req) "OPTIONS"
              then {| resp_status := 200; resp_body := inl "ok" |}
              else failure "NASA_API_KEY environment variable is not set"),
     b).
Proof.
  intros Hkey. unfold serve. destruct (String.eqb (method req) "OPTIONS"); [reflexivity |].
  unfold resolve, require_key, try_catch, bind.
  destruct (NASA_API_KEY cloud) as [k |]; simpl in *; [rewrite Hkey |]; reflexivity.
Qed.

(** X2, an instance: a stored date asked of a cloud that has no key. *)
Lemma request_without_api_key_witness :
  truthy_opt (NASA_API_KEY Examples.cloud_without_key) = false
  /\ serve Examples.cloud_without_key (Examples.request "2024-10-05") Examples.seeded
     = (Returns (failure "NASA_API_KEY environment variable is not set"), Examples.seeded).
Proof.
  split; [reflexivity |].
  apply (request_without_api_key_is_refused Examples.cloud_without_key
           (Examples.request "2024-10-05") Examples.seeded).
  reflexivity.
Defined.

(** X3. When the date has no row and the call to the provider yields no
    record (the request is rejected, the response is not [ok], or its body does
    not parse), the request is answered 400 after the select and the one
    provider call; the table and the bucket are as before, so nothing is
    remembered about the failure. For a response that is not [ok] the message is
    "NASA API error: <status> - <text>". *)
Theorem provider_failure_stores_nothing cloud m d key b :
  String.eqb m "OPTIONS" = false ->
  NASA_API_KEY cloud = Some key -> truthy key = true ->
  test dateRegex d = true ->
  select_fault cloud d = None ->
  nasa_images b !! d = None ->
  provider_fails cloud key d ->
  exists msg,
    serve cloud {| method := m; date_param := Some d |} b
    = (Returns (failure msg), logged (Fetch (nasaApiUrl key d)) (logged (Select d) b))
    /\ match net cloud (nasaApiUrl key d) with
       | Rejects reason => msg = reason
       | Resolves r =>
           ok r = false ->
           msg = "NASA API error: " +:+ show (status r) +:+ " - " +:+ text r
       end.
Proof.
  intros Hm Hkey Htr Hd Hsel Hnone Hfail.
  rewrite (serve_miss cloud m d key b Hm Hkey Htr Hd Hsel Hnone).
  unfold provider_fails in Hfail.
  unfold try_catch, bind, fetch_from_nasa, fetch, bind, log, modify, ret, throw. simpl.
  destruct (net cloud (nasaApiUrl key d)) as [reason | r]; simpl.
  - eexists. split; reflexivity.
  - destruct (ok r) eqn:Hok; simpl.
    + destruct Hfail as [Hf | Hj]; [discriminate |]. rewrite Hj. simpl.
      eexists. split; [reflexivity | discriminate].
    + eexists. split; [reflexivity |]. intros _. reflexivity.
Qed.

(** X3, an instance: the provider answers 503. *)
Lemma provider_failure_witness :
  exists msg,
    serve Examples.cloud_down {| method := "POST"; date_param := Some "2024-10-05" |} fresh
    = (Returns (failure msg),
       logged (Fetch (nasaApiUrl "KEY" "2024-10-05")) (logged (Select "2024-10-05") fresh)).
Proof.
  destruct (provider_failure_stores_nothing Examples.cloud_down "POST" "2024-10-05" "KEY" fresh)
    as (msg & H & _); try reflexivity.
  - right. reflexivity.
  - exists msg. exact H.
Defined.

(** X4. A record whose [media_type] is not "image" is inserted without any
    image download or upload: the calls are the select, the provider call and
    the insert, the bucket is untouched, and the row has neither
    [storage_path] nor [thumbnail_storage_path]. *)
Theorem video_is_recorded_without_copies cloud m d key b r n :
  String.eqb m "OPTIONS" = false ->
  NASA_API_KEY cloud = Some key -> truthy key = true ->
  test dateRegex d = true ->
  select_fault cloud d = None ->
  nasa_images b !! d = None ->
  net cloud (nasaApiUrl key d) = Resolves r -> ok r = true -> json r = Some n ->
  String.eqb (Apod.media_type n) "image" = false ->
  insert_fault cloud = None ->
  (nasa_images b ∪ racing cloud) !! Apod.date n = None ->
  serve cloud {| method := m; date_param := Some d |} b
  = (Returns (success (inserted_row cloud n None None) false),
     {| nasa_images := <[Apod.date n := inserted_row cloud n None None]>
                         (nasa_images b ∪ racing cloud);
        bucket := bucket b;
        calls := calls b ++ [Select d; Fetch (nasaApiUrl key d); Insert (Apod.date n)] |}).
Proof.
  intros Hm Hkey Htr Hd Hsel Hnone Hnet Hok Hjson Hvideo Hins Hfree.
  rewrite (serve_miss cloud m d key b Hm Hkey Htr Hd Hsel Hnone).
  rewrite (try_catch_bind_returns _ _ _ _ _ _
             (fetch_from_nasa_ok cloud key d _ r n Hnet Hok Hjson)).
  unfold store_images. rewrite Hvideo.
  erewrite try_catch_bind_returns by reflexivity.
  erewrite try_catch_returns by (apply persist_ok; [exact Hins | exact Hfree]).
  simpl. rewrite <- !app_assoc. reflexivity.
Qed.

(** X4, an instance: the video of 2024-10-04. *)
Lemma video_witness :
  serve Examples.cloud_video {| method := "POST"; date_param := Some "2024-10-04" |} fresh
  = (Returns (success (inserted_row Examples.cloud_video Examples.eclipse None None) false),
     {| nasa_images := <[Apod.date Examples.eclipse
                         := inserted_row Examples.cloud_video Examples.eclipse None None]>
                         (nasa_images fresh ∪ racing Examples.cloud_video);
        bucket := bucket fresh;
        calls := calls fresh ++ [Select "2024-10-04"; Fetch (nasaApiUrl "KEY" "2024-10-04");
                                 Insert (Apod.date Examples.eclipse)] |}).
Proof.
  apply (video_is_recorded_without_copies Examples.cloud_video "POST" "2024-10-04" "KEY" fresh
           Examples.eclipse_reply Examples.eclipse); reflexivity.
Defined.

(** X5. Whatever the request and the outcome, the handler only adds: every
    row that was in the table and every blob that was in the bucket is there
    afterwards, unchanged, and the call log only grows. *)
Theorem serve_never_overwrites cloud req b :
  let b' := snd (serve cloud req b) in
  keeps_rows b b' /\ keeps_blobs b b' /\ exists l, calls b' = calls b ++ l.
Proof.
  split; [apply serve_keeps_rows |]. split; [apply serve_keeps_blobs |].
  assert (H : maintains (grows calls) (serve cloud req)).
  { unfold serve, resolve, persist, store_images, store_standard, store_hd.
    destruct (String.eqb (method req) "OPTIONS"); frame. }
  exact (H b).
Qed.

(** X6. When the provider has an image record but the download of its
    standard image is rejected, the request fails: it is answered 400 with the
    reason of the rejection, nothing is uploaded and no row is inserted, and
    the high-definition image is not tried. *)
Theorem unreachable_image_fails_the_request cloud m d key b r n reason :
  String.eqb m "OPTIONS" = false ->
  NASA_API_KEY cloud = Some key -> truthy key = true ->
  test dateRegex d = true ->
  select_fault cloud d = None ->
  nasa_images b !! d = None ->
  net cloud (nasaApiUrl key d) = Resolves r -> ok r = true -> json r = Some n ->
  String.eqb (Apod.media_type n) "image" = true ->
  net cloud (Apod.url n) = Rejects reason ->
  serve cloud {| method := m; date_param := Some d |} b
  = (Returns (failure reason),
     {| nasa_images := nasa_images b;
        bucket := bucket b;
        calls := calls b ++ [Select d; Fetch (nasaApiUrl key d); Fetch (Apod.url n)] |}).
Proof.
  intros Hm Hkey Htr Hd Hsel Hnone Hnet Hok Hjson Himage Himg.
  rewrite (serve_miss cloud m d key b Hm Hkey Htr Hd Hsel Hnone).
  rewrite (try_catch_bind_returns _ _ _ _ _ _
             (fetch_from_nasa_ok cloud key d _ r n Hnet Hok Hjson)).
  unfold store_images. rewrite Himage.
  erewrite try_catch_bind_throws
    by (erewrite bind_throws; [reflexivity | apply store_standard_rejected; exact Himg]).
  unfold failure, ret, logged. simpl. rewrite <- !app_assoc. reflexivity.
Qed.

(** X6, an instance: the image host refuses the connection. *)
Lemma unreachable_image_witness :
  serve Examples.cloud_image_unreachable {| method := "POST"; date_param := Some "2024-10-05" |}
    fresh
  = (Returns (failure "connection refused"),
     {| nasa_images := nasa_images fresh;
        bucket := bucket fresh;
        calls := calls fresh ++ [Select "2024-10-05"; Fetch (nasaApiUrl "KEY" "2024-10-05");
                                 Fetch (Apod.url Examples.andromeda)] |}).
Proof.
  apply (unreachable_image_fails_the_request Examples.cloud_image_unreachable "POST"
           "2024-10-05" "KEY" fresh Examples.andromeda_reply Examples.andromeda);
    reflexivity.
Defined.

(** X7. When the standard image of an image record can be fetched, the
    request succeeds whatever happens to the uploads and to the
    high-definition copy: the row is inserted and answered with
    [cached = false]. Its [storage_path] is set exactly when the upload of the
    standard copy was accepted, that is when the upload did not fail and no
    object had that name. *)
Theorem failed_copies_do_not_fail_the_request cloud m d key b r n ri :
  String.eqb m "OPTIONS" = false ->
  NASA_API_KEY cloud = Some key -> truthy key = true ->
  test dateRegex d = true ->
  select_fault cloud d = None ->
  nasa_images b !! d = None ->
  net cloud (nasaApiUrl key d) = Resolves r -> ok r = true -> json r = Some n ->
  String.eqb (Apod.media_type n) "image" = true ->
  net cloud (Apod.url n) = Resolves ri ->
  insert_fault cloud = None ->
  (nasa_images b ∪ racing cloud) !! Apod.date n = None ->
  exists storagePath hdStoragePath b',
    serve cloud {| method := m; date_param := Some d |} b
    = (Returns (success (inserted_row cloud n storagePath hdStoragePath) false), b')
    /\ nasa_images b'
       = <[Apod.date n := inserted_row cloud n storagePath hdStoragePath]>
           (nasa_images b ∪ racing cloud)
    /\ storagePath
       = match upload_fault cloud (fileName d (Apod.title n)),
               bucket b !! fileName d (Apod.title n) with
         | None, None => Some (storageBucket +:+ "/" +:+ fileName d (Apod.title n))
         | _, _ => None
         end.
Proof.
  intros Hm Hkey Htr Hd Hsel Hnone Hnet Hok Hjson Himage Himg Hins Hfree.
  rewrite (serve_miss cloud m d key b Hm Hkey Htr Hd Hsel Hnone).
  rewrite (try_catch_bind_returns _ _ _ _ _ _
             (fetch_from_nasa_ok cloud key d _ r n Hnet Hok Hjson)).
  set (b1 := logged (Fetch (nasaApiUrl key d)) (logged (Select d) b)).
  pose proof (store_standard_run cloud d n b1 ri Himg) as Hstd. cbv zeta in Hstd.
  change (bucket b1) with (bucket b) in Hstd.
  set (sp := match upload_fault cloud (fileName d (Apod.title n)),
                   bucket b !! fileName d (Apod.title n) with
             | None, None => Some (storageBucket +:+ "/" +:+ fileName d (Apod.title n))
             | _, _ => None
             end).
  assert (Hstd' : exists b2, store_standard cloud d n b1 = (Returns sp, b2)
                             /\ nasa_images b2 = nasa_images b).
  { rewrite Hstd. subst sp.
    destruct (upload_fault cloud _); [eexists; split; reflexivity |].
    destruct (bucket b !! _); eexists; split; reflexivity. }
  destruct Hstd' as (b2 & Hrun & Htab2).
  pose proof (store_hd_never_throws cloud d n b2) as Hnt.
  pose proof (store_hd_table cloud d n b2) as Htab3. unfold unchanged in Htab3.
  destruct (store_hd cloud d n b2) as [[hp | e] b3] eqn:Hhd;
    [| destruct (Hnt e b3 eq_refl)].
  simpl in Htab3.
  assert (Hstore : store_images cloud d n b1 = (Returns (sp, hp), b3)).
  { unfold store_images. rewrite Himage.
    erewrite bind_returns by exact Hrun. erewrite bind_returns by exact Hhd. reflexivity. }
  rewrite (try_catch_bind_returns _ _ _ _ _ _ Hstore).
  assert (Hfree3 : (nasa_images b3 ∪ racing cloud) !! Apod.date n = None)
    by (rewrite Htab3, Htab2; exact Hfree).
  erewrite try_catch_returns by (apply persist_ok; [exact Hins | exact Hfree3]).
  exists sp, hp. eexists. split; [reflexivity |]. simpl. rewrite Htab3, Htab2.
  split; reflexivity.
Qed.

(** X7, an instance: the record of 2024-10-05. *)
Lemma failed_copies_witness :
  exists storagePath hdStoragePath b',
    serve Examples.cloud {| method := "POST"; date_param := Some "2024-10-05" |} fresh
    = (Returns (success (inserted_row Examples.cloud Examples.andromeda
                           storagePath hdStoragePath) false), b').
Proof.
  destruct (failed_copies_do_not_fail_the_request Examples.cloud "POST" "2024-10-05" "KEY"
              fresh Examples.andromeda_reply Examples.andromeda
              {| status := 200; text := ""; json := None; blob := Examples.jpeg |})
    as (sp & hp & b' & H & _); try reflexivity.
  exists sp, hp, b'. exact H.
Defined.

(** X8. The first request for an image with a high-definition URL, when
    every download and upload goes through: the calls are, in this order, the
    select, the provider call, the standard download and upload, the
    high-definition download and upload, and the insert. Both blobs are in the
    bucket under [fileName] and [hdFileName], whatever the statuses of the two
    downloads, and the row records "nasa-images/" followed by these names as
    [storage_path] and [thumbnail_storage_path]. *)
Theorem first_request_stores_both_copies cloud m d key b r n ri hd rh :
  String.eqb m "OPTIONS" = false ->
  NASA_API_KEY cloud = Some key -> truthy key = true ->
  test dateRegex d = true ->
  select_fault cloud d = None ->
  nasa_images b !! d = None ->
  net cloud (nasaApiUrl key d) = Resolves r -> ok r = true -> json r = Some n ->
  String.eqb (Apod.media_type n) "image" = true ->
  net cloud (Apod.url n) = Resolves ri ->
  Apod.hdurl n = Some hd -> truthy hd = true -> net cloud hd = Resolves rh ->
  upload_fault cloud (fileName d (Apod.title n)) = None ->
  upload_fault cloud (hdFileName d (Apod.title n)) = None ->
  bucket b !! fileName d (Apod.title n) = None ->
  bucket b !! hdFileName d (Apod.title n) = None ->
  insert_fault cloud = None ->
  (nasa_images b ∪ racing cloud) !! Apod.date n = None ->
  let name := fileName d (Apod.title n) in
  let hdName := hdFileName d (Apod.title n) in
  let row := inserted_row cloud n (Some ("nasa-images/" +:+ name))
                          (Some ("nasa-images/" +:+ hdName)) in
  serve cloud {| method := m; date_param := Some d |} b
  = (Returns (success row false),
     {| nasa_images := <[Apod.date n := row]> (nasa_images b ∪ racing cloud);
        bucket := <[hdName := blob rh]> (<[name := blob ri]> (bucket b));
        calls := calls b ++ [Select d; Fetch (nasaApiUrl key d);
                             Fetch (Apod.url n); Upload name;
                             Fetch hd; Upload hdName;
                             Insert (Apod.date n)] |}).
Proof.
  intros Hm Hkey Htr Hd Hsel Hnone Hnet Hok Hjson Himage Himg Hhd Hhdt Hhdnet
    Hup Huphd Hb Hbhd Hins Hfree name hdName row. subst name hdName row.
  rewrite (serve_miss cloud m d key b Hm Hkey Htr Hd Hsel Hnone).
  rewrite (try_catch_bind_returns _ _ _ _ _ _
             (fetch_from_nasa_ok cloud key d _ r n Hnet Hok Hjson)).
  unfold store_images. rewrite Himage.
  erewrite try_catch_bind_returns.
  2:{ erewrite bind_returns.
      2:{ rewrite (store_standard_run cloud d n _ ri Himg). cbv zeta.
          rewrite Hup. simpl. rewrite Hb. reflexivity. }
      erewrite bind_returns.
      2:{ rewrite (store_hd_run cloud d n _ hd rh Hhd Hhdt Hhdnet). cbv zeta.
          rewrite Huphd. simpl.
          rewrite lookup_insert_ne by apply hdFileName_fresh.
          rewrite Hbhd. reflexivity. }
      reflexivity. }
  erewrite try_catch_returns by (apply persist_ok; [exact Hins | exact Hfree]).
  simpl. rewrite <- !app_assoc. reflexivity.
Qed.

(** X8, an instance: the first request for 2024-10-05. *)
Lemma first_request_witness :
  fst (serve Examples.cloud {| method := "POST"; date_param := Some "2024-10-05" |} fresh)
  = Returns (success
               (inserted_row Examples.cloud Examples.andromeda
                  (Some "nasa-images/2024-10-05-m31__the_andromeda_galaxy.jpg")
                  (Some "nasa-images/hd-2024-10-05-m31__the_andromeda_galaxy.jpg"))
               false).
Proof.
  rewrite (first_request_stores_both_copies Examples.cloud "POST" "2024-10-05" "KEY" fresh
             Examples.andromeda_reply Examples.andromeda
             {| status := 200; text := ""; json := None; blob := Examples.jpeg |}
             "https://apod.nasa.gov/image/m31_hd.jpg"
             {| status := 200; text := ""; json := None; blob := Examples.jpeg |});
    reflexivity.
Defined.

(** X9. A record the handler has answered with is served from the table
    by the next request for the same date: the same row comes back with
    [cached = true] after a single select. For a record that was just fetched
    this needs the provider's record to carry the requested date, since the row
    is stored under the provider's date. *)
Theorem answered_record_is_served_from_the_table_next cloud m d key b row c b' :
  String.eqb m "OPTIONS" = false ->
  NASA_API_KEY cloud = Some key -> truthy key = true ->
  test dateRegex d = true ->
  select_fault cloud d = None ->
  serve cloud {| method := m; date_param := Some d |} b = (Returns (success row c), b') ->
  (c = false -> date row = d) ->
  serve cloud {| method := m; date_param := Some d |} b'
  = (Returns (success row true), logged (Select d) b').
Proof.
  intros Hm Hkey Htr Hd Hsel Hrun Hdate.
  apply (serve_hit cloud m d key b' row Hm Hkey Htr Hd Hsel).
  destruct (nasa_images b !! d) as [row0 |] eqn:Hrow.
  - rewrite (serve_hit cloud m d key b row0 Hm Hkey Htr Hd Hsel Hrow) in Hrun.
    injection Hrun as -> _ <-. exact Hrow.
  - destruct (serve_miss_row cloud m d key b row c b' Hm Hkey Htr Hd Hsel Hrow Hrun)
      as [-> Hin].
    rewrite <- (Hdate eq_refl). exact Hin.
Qed.

(** X9, an instance: two requests for 2024-10-05 in a row. *)
Lemma round_trip_witness :
  let req := {| method := "POST"; date_param := Some "2024-10-05" |} in
  let b' := snd (serve Examples.cloud req fresh) in
  let row := inserted_row Examples.cloud Examples.andromeda
               (Some "nasa-images/2024-10-05-m31__the_andromeda_galaxy.jpg")
               (Some "nasa-images/hd-2024-10-05-m31__the_andromeda_galaxy.jpg") in
  serve Examples.cloud req fresh = (Returns (success row false), b')
  /\ serve Examples.cloud req b' = (Returns (success row true), logged (Select "2024-10-05") b').
Proof.
  intros req b' row.
  assert (H : serve Examples.cloud req fresh = (Returns (success row false), b'))
    by (vm_compute; reflexivity).
  split; [exact H |].
  apply (answered_record_is_served_from_the_table_next Examples.cloud "POST" "2024-10-05" "KEY"
           fresh row false b'); solve [reflexivity | exact H].
Defined.

(** X10. An error of the select other than "not found" (code PGRST116) is
    fatal: the request is answered 400 with the error's message right after
    the select, and the provider is not asked. *)
Theorem select_error_fails_the_request cloud m d key b e :
  String.eqb m "OPTIONS" = false ->
  NASA_API_KEY cloud = Some key -> truthy key = true ->
  test dateRegex d = true ->
  select_fault cloud d = Some e ->
  String.eqb (code e) "PGRST116" = false ->
  serve cloud {| method := m; date_param := Some d |} b
  = (Returns (failure (pg_message e)), logged (Select d) b).
Proof.
  intros Hm Hkey Htr Hd Hsel Hcode. unfold serve. cbn [method]. rewrite Hm.
  unfold resolve.
  rewrite (try_catch_bind_returns _ _ _ _ _ _ (require_key_ok cloud key b Hkey Htr)).
  rewrite (try_catch_bind_returns _ _ _ _ _ _ (require_date_ok m d b Hd)).
  erewrite try_catch_bind_throws
    by (unfold lookup, select_single, bind, log, modify, get, ret, throw; simpl;
        rewrite Hsel; simpl; rewrite Hcode; reflexivity).
  reflexivity.
Qed.

(** X10, an instance: the data base times out. *)
Lemma select_error_witness :
  serve Examples.cloud_select_down {| method := "POST"; date_param := Some "2024-10-05" |}
    Examples.seeded
  = (Returns (failure "canceling statement due to timeout"),
     logged (Select "2024-10-05") Examples.seeded).
Proof.
  apply (select_error_fails_the_request Examples.cloud_select_down "POST" "2024-10-05" "KEY"
           Examples.seeded
           {| code := "57014"; pg_message := "canceling statement due to timeout" |});
    reflexivity.
Defined.

(** X11. The copies are not taken back when the insert fails: for an image
    without a high-definition version whose copy was uploaded, an insert error
    is answered 400 with the error's message, no row is inserted, and the blob
    stays in the bucket under its name. *)
Theorem failed_insert_leaves_the_copy_behind cloud m d key b r n ri e :
  String.eqb m "OPTIONS" = false ->
  NASA_API_KEY cloud = Some key -> truthy key = true ->
  test dateRegex d = true ->
  select_fault cloud d = None ->
  nasa_images b !! d = None ->
  net cloud (nasaApiUrl key d) = Resolves r -> ok r = true -> json r = Some n ->
  String.eqb (Apod.media_type n) "image" = true ->
  net cloud (Apod.url n) = Resolves ri ->
  Apod.hdurl n = None ->
  upload_fault cloud (fileName d (Apod.title n)) = None ->
  bucket b !! fileName d (Apod.title n) = None ->
  insert_fault cloud = Some e ->
  serve cloud {| method := m; date_param := Some d |} b
  = (Returns (failure (pg_message e)),
     {| nasa_images := nasa_images b ∪ racing cloud;
        bucket := <[fileName d (Apod.title n) := blob ri]> (bucket b);
        calls := calls b ++ [Select d; Fetch (nasaApiUrl key d);
                             Fetch (Apod.url n); Upload (fileName d (Apod.title n));
                             Insert (Apod.date n)] |}).
Proof.
  intros Hm Hkey Htr Hd Hsel Hnone Hnet Hok Hjson Himage Himg Hhd Hup Hb Hins.
  rewrite (serve_miss cloud m d key b Hm Hkey Htr Hd Hsel Hnone).
  rewrite (try_catch_bind_returns _ _ _ _ _ _
             (fetch_from_nasa_ok cloud key d _ r n Hnet Hok Hjson)).
  unfold store_images. rewrite Himage.
  erewrite try_catch_bind_returns.
  2:{ erewrite bind_returns.
      2:{ rewrite (store_standard_run cloud d n _ ri Himg). cbv zeta.
          rewrite Hup. simpl. rewrite Hb. reflexivity. }
      erewrite bind_returns by (unfold store_hd; rewrite Hhd; reflexivity).
      reflexivity. }
  erewrite try_catch_throws.
  2:{ unfold persist, insert_single, bind, log, modify, get, ret, throw. simpl.
      rewrite Hins. reflexivity. }
  unfold failure, ret. simpl. rewrite <- !app_assoc. reflexivity.
Qed.

(** X11, an instance: the data base refuses the insert of 2024-10-06. *)
Lemma failed_insert_witness :
  let b' := snd (serve Examples.cloud_insert_down
                   {| method := "POST"; date_param := Some "2024-10-06" |} fresh) in
  nasa_images b' = nasa_images fresh ∪ racing Examples.cloud_insert_down
  /\ bucket b' !! "2024-10-06-comet_at_dawn.jpg" = Some Examples.jpeg.
Proof.
  intros b'. subst b'.
  rewrite (failed_insert_leaves_the_copy_behind Examples.cloud_insert_down "POST" "2024-10-06"
             "KEY" fresh Examples.comet_reply Examples.comet Examples.comet_reply
             {| code := "57014"; pg_message := "canceling statement due to timeout" |});
    try reflexivity.
  split; reflexivity.
Defined.

End EdgeFunctionMore.

(** ** Object names and storage paths *)

Section NamesMore.
Import Js EdgeFunction Observe Phone.

Lemma lower_replace_safe c :
  safe_char (lower (if is_digit c || is_lower c || is_upper c then c else "_"%char)) = true.
Proof.
  destruct c as [[] [] [] [] [] [] [] []]; vm_compute; reflexivity.
Qed.

Lemma lower_replace_keeps c :
  safe_char c = true ->
  lower (if is_digit c || is_lower c || is_upper c then c else "_"%char) = c.
Proof.
  destruct c as [[] [] [] [] [] [] [] []]; vm_compute; intros H; try reflexivity; discriminate H.
Qed.

Lemma sanitised_length t :
  String.length (toLowerCase (replace_non_alnum t)) = String.length t.
Proof. induction t as [| c t IH]; simpl; [reflexivity | rewrite IH; reflexivity]. Qed.

Lemma sanitised_safe t :
  forallb safe_char (list_ascii_of_string (toLowerCase (replace_non_alnum t))) = true.
Proof.
  induction t as [| c t IH]; [reflexivity |].
  cbn [replace_non_alnum toLowerCase list_ascii_of_string forallb].
  rewrite lower_replace_safe, IH. reflexivity.
Qed.

Lemma sanitised_fixed t :
  forallb safe_char (list_ascii_of_string t) = true ->
  toLowerCase (replace_non_alnum t) = t.
Proof.
  induction t as [| c t IH]; [reflexivity |].
  cbn [replace_non_alnum toLowerCase list_ascii_of_string forallb].
  intros H. apply andb_true_iff in H as [Hc Ht].
  rewrite lower_replace_keeps by exact Hc. rewrite IH by exact Ht. reflexivity.
Qed.

(** X12. Object names are the date, a dash, the sanitised title and ".jpg",
    with "hd-" in front for the high-definition copy. The sanitised title has
    the length of the title and consists of digits, lower-case letters and
    underscores only; sanitising it again changes nothing, so a title and its
    sanitised form get the same object name. *)
Theorem object_names_are_sanitised d t :
  exists safe,
    fileName d t = d +:+ "-" +:+ safe +:+ ".jpg"
    /\ hdFileName d t = "hd-" +:+ d +:+ "-" +:+ safe +:+ ".jpg"
    /\ String.length safe = String.length t
    /\ forallb safe_char (list_ascii_of_string safe) = true
    /\ toLowerCase (replace_non_alnum safe) = safe.
Proof.
  exists (toLowerCase (replace_non_alnum t)).
  split; [reflexivity |]. split; [reflexivity |].
  split; [apply sanitised_length |]. split; [apply sanitised_safe |].
  apply sanitised_fixed, sanitised_safe.
Qed.

(** X13. The storage path the handler records for the standard copy is not
    the name it uploaded the copy under: it is that name with "nasa-images/" in
    front. The public URL the client derives from the recorded path therefore
    names the bucket twice and differs from the public URL of the uploaded
    object; unless an object of that longer name was in the bucket before,
    there is none. *)
Theorem recorded_storage_path_is_not_the_object_key cloud P d n b p b' :
  store_standard cloud d n b = (Returns (Some p), b') ->
  let key := fileName d (Apod.title n) in
  p = "nasa-images/" +:+ key
  /\ (exists content, bucket b' !! key = Some content)
  /\ Supabase.getNasaImagePublicUrl P p
     = supabaseUrl P +:+ "/storage/v1/object/public/nasa-images/nasa-images/" +:+ key
  /\ Supabase.getNasaImagePublicUrl P p <> Supabase.getNasaImagePublicUrl P key
  /\ (bucket b !! p = None -> bucket b' !! p = None).
Proof.
  intros Hrun key.
  assert (Hne : "nasa-images/" +:+ key <> key).
  { intros H. apply (f_equal String.length) in H. rewrite length_append in H.
    simpl in H. lia. }
  revert Hrun. unfold store_standard, fetch, upload, bind, log, modify, get, ret, throw.
  simpl. destruct (net cloud (Apod.url n)) as [reason | ri]; simpl; [discriminate |].
  fold key. destruct (upload_fault cloud key); simpl; [discriminate |].
  destruct (bucket b !! key) eqn:Hk; simpl; [discriminate |].
  intros [= <- <-]. simpl.
  split; [reflexivity |].
  split; [eexists; apply lookup_insert_eq |].
  split; [reflexivity |].
  split.
  - unfold Supabase.getNasaImagePublicUrl. intros H.
    apply String.app_inj in H. apply String.app_inj in H. exact (Hne H).
  - intros Hp. rewrite lookup_insert_ne; [exact Hp |]. intros H. symmetry in H. exact (Hne H).
Qed.

(** X13, an instance: the standard copy of the record of 2024-10-05. *)
Lemma recorded_storage_path_witness :
  let b' := snd (store_standard Examples.cloud "2024-10-05" Examples.andromeda fresh) in
  let key := "2024-10-05-m31__the_andromeda_galaxy.jpg" in
  (exists content, bucket b' !! key = Some content)
  /\ bucket b' !! ("nasa-images/" +:+ key) = None.
Proof.
  intros b' key.
  destruct (recorded_storage_path_is_not_the_object_key Examples.cloud PhoneExamples.online
              "2024-10-05" Examples.andromeda fresh ("nasa-images/" +:+ key) b')
    as (_ & Hin & _ & _ & Hout); [vm_compute; reflexivity |].
  split; [exact Hin |]. apply Hout. reflexivity.
Defined.

End NamesMore.

(** ** The client resolver: when it throws *)

Section ClientMore.
Import Js Phone Supabase Observe.

(** X14. [getNasaImageOfDay] always makes one call to the endpoint and
    prints the response. It throws [NasaNoDataError] exactly when the endpoint
    answered with an HTTP error whose body has [errorCode] "NASA_NO_DATA", and
    the message and the date of the exception are the body's [error] and [date]
    fields, not the date that was asked for. The only other exception it lets
    escape comes from an HTTP error whose body does not parse. *)
Theorem resolver_throws_no_data_only_for_the_code P d w :
  snd (getNasaImageOfDay P d w) = resolved P d w
  /\ (forall m dd,
        fst (getNasaImageOfDay P d w) = Throws (NasaNoDataError m dd)
        <-> exists body,
              Functions.error (invoke P d) = Some (Functions.FunctionsHttpError (Some body))
              /\ field "errorCode" body = Some (JString "NASA_NO_DATA")
              /\ m = string_field "error" body
              /\ dd = string_field "date" body)
  /\ (forall e, fst (getNasaImageOfDay P d w) = Throws e ->
                instanceof_NasaNoDataError e = true
                \/ Functions.error (invoke P d) = Some (Functions.FunctionsHttpError None)).
Proof.
  assert (Hrun : getNasaImageOfDay P d w = (settle (invoke P d), resolved P d w)) by reflexivity.
  rewrite Hrun. cbn [fst snd]. split; [reflexivity |]. unfold settle.
  destruct (Functions.error (invoke P d)) as [[[body |] | msg | msg] |].
  - destruct (field "errorCode" body) as [[code | c | row] |] eqn:Hf.
    + destruct (String.eqb_spec code "NASA_NO_DATA") as [-> | Hne].
      * split.
        -- intros m dd. split.
           ++ intros [= <- <-]. exists body.
              split; [reflexivity |]. split; [exact Hf |]. split; reflexivity.
           ++ intros (body' & [= <-] & _ & -> & ->). reflexivity.
        -- intros e [= <-]. left. reflexivity.
      * split.
        -- intros m dd. split; [discriminate |].
           intros (body' & [= <-] & H & _). rewrite Hf in H. congruence.
        -- discriminate.
    + split; [| discriminate]. intros m dd. split; [discriminate |].
      intros (body' & [= <-] & H & _). rewrite Hf in H. discriminate.
    + split; [| discriminate]. intros m dd. split; [discriminate |].
      intros (body' & [= <-] & H & _). rewrite Hf in H. discriminate.
    + split; [| discriminate]. intros m dd. split; [discriminate |].
      intros (body' & [= <-] & H & _). rewrite Hf in H. discriminate.
  - split.
    + intros m dd. split; [discriminate |]. intros (body' & [=] & _).
    + intros e _. right. reflexivity.
  - split; [| discriminate]. intros m dd. split; [discriminate |]. intros (body' & [=] & _).
  - split; [| discriminate]. intros m dd. split; [discriminate |]. intros (body' & [=] & _).
  - split; [| discriminate]. intros m dd. split; [discriminate |]. intros (body' & [=] & _).
Qed.

End ClientMore.

(** ** The client talking to the edge function *)

Section EndToEnd.
Import Js EdgeFunction Observe.

(** X15. The client sends the date in the body of its request and the
    handler reads it from the query string only: the request the client builds
    is answered 400 "Invalid date format. Please provide date in YYYY-MM-DD
    format" for every date and every state of the table, without any call, and
    the client hands that answer on as absent data. *)
Theorem client_request_is_rejected_for_every_date cloud key d b :
  NASA_API_KEY cloud = Some key -> truthy key = true ->
  serve cloud (invoke_request d) b
  = (Returns (failure "Invalid date format. Please provide date in YYYY-MM-DD format"), b)
  /\ Supabase.settle
       (relay (failure "Invalid date format. Please provide date in YYYY-MM-DD format"))
     = Returns None.
Proof.
  intros Hkey Htr. split; [| reflexivity].
  unfold serve. change (String.eqb (method (invoke_request d)) "OPTIONS") with false.
  cbv iota. unfold resolve.
  rewrite (try_catch_bind_returns _ _ _ _ _ _ (require_key_ok cloud key b Hkey Htr)).
  erewrite try_catch_bind_throws by (apply (require_date_bad "POST" None b); exact I).
  reflexivity.
Qed.

(** X15, an instance: a date that is in the table. *)
Lemma client_request_witness :
  serve Examples.cloud (invoke_request "2024-10-05") Examples.seeded
  = (Returns (failure "Invalid date format. Please provide date in YYYY-MM-DD format"),
     Examples.seeded).
Proof.
  apply (client_request_is_rejected_for_every_date Examples.cloud "KEY" "2024-10-05"
           Examples.seeded); reflexivity.
Defined.

End EndToEnd.

(** ** The two versions of the resolver *)

Section VersionsMore.
Import Js Phone Observe.

(** X16. The two versions of the client resolver: where the first version
    returns, there was no error and the current version returns the same value
    after the same call; the first version throws every error it is handed,
    while the current one returns the data after the failures that do not carry
    the no-data code. *)
Theorem resolver_versions_agree_where_the_first_returns P d w :
  (forall x w',
      SupabaseV1.getNasaImageOfDay P d w = (Returns x, w') ->
      Functions.error (invoke P d) = None
      /\ x = Functions.data (invoke P d)
      /\ fst (Supabase.getNasaImageOfDay P d w) = Returns x
      /\ calls (snd (Supabase.getNasaImageOfDay P d w)) = calls w')
  /\ (forall e, Functions.error (invoke P d) = Some e ->
                fst (SupabaseV1.getNasaImageOfDay P d w) = Throws e)
  /\ (other_failure (invoke P d) ->
      (exists e, fst (SupabaseV1.getNasaImageOfDay P d w) = Throws e)
      /\ fst (Supabase.getNasaImageOfDay P d w) = Returns (Functions.data (invoke P d))).
Proof.
  assert (Hnew : Supabase.getNasaImageOfDay P d w
                 = (Supabase.settle (invoke P d), resolved P d w)) by reflexivity.
  rewrite Hnew. cbn [fst snd].
  unfold SupabaseV1.getNasaImageOfDay, bind, modify, throw, ret. cbv beta iota.
  unfold Supabase.settle, other_failure.
  destruct (Functions.error (invoke P d)) as [[[body |] | msg | msg] |].
  - split; [intros x w' [=] |]. split; [intros e [= <-]; reflexivity |].
    intros Hother. split; [eauto |].
    destruct (field "errorCode" body) as [[code | c | row] |]; try reflexivity.
    destruct (String.eqb_spec code "NASA_NO_DATA") as [-> | Hne]; [| reflexivity].
    contradiction Hother. reflexivity.
  - split; [intros x w' [=] |]. split; [intros e [= <-]; reflexivity |]. contradiction.
  - split; [intros x w' [=] |]. split; [intros e [= <-]; reflexivity |].
    intros _. split; [eauto | reflexivity].
  - split; [intros x w' [=] |]. split; [intros e [= <-]; reflexivity |].
    intros _. split; [eauto | reflexivity].
  - split; [| split; [discriminate | contradiction]].
    intros x w' [= <- <-]. repeat split; reflexivity.
Qed.

End VersionsMore.

(** ** The cache: failures and maintenance *)

Section CacheMoreFacts.
Import Js Phone Supabase ImageCache Observe.
Context (P : Platform).

#[global] Instance keeps_files_preorder : PreOrder keeps_files.
Proof.
  split.
  - intros w. unfold keeps_files. set_solver.
  - intros w1 w2 w3. unfold keeps_files. set_solver.
Qed.

#[global] Instance settles_cache_preorder : PreOrder (settles_cache P).
Proof.
  split.
  - intros w. left. reflexivity.
  - intros w1 w2 w3 H12 [H23 | H23]; [| right; exact H23].
    destruct H12 as [H12 | H12]; [left; congruence | right; rewrite H23; exact H12].
Qed.

Lemma unchanged_keeps_files {A} (m : M A) :
  maintains (unchanged files) m -> maintains keeps_files m.
Proof. intros H w. unfold keeps_files. rewrite (H w). set_solver. Qed.

Lemma unchanged_settles_cache {A} (m : M A) :
  maintains (unchanged files) m -> maintains (settles_cache P) m.
Proof. intros H w. left. apply H. Qed.

Lemma makeDirectoryAsync_keeps_files path : maintains keeps_files (makeDirectoryAsync path).
Proof. intros w. unfold keeps_files. simpl. set_solver. Qed.

Lemma downloadAsync_keeps_files u p : maintains keeps_files (downloadAsync P u p).
Proof.
  intros w. unfold keeps_files, downloadAsync, called, bind, modify, ret, throw. simpl.
  destruct (download P u); simpl; set_solver.
Qed.

#[local] Hint Resolve makeDirectoryAsync_keeps_files downloadAsync_keeps_files : frame.
#[local] Hint Extern 2 (maintains keeps_files _) =>
  apply unchanged_keeps_files; solve [frame] : frame.

Lemma downloadAndCache_keeps_files u d : maintains keeps_files (downloadAndCache P u d).
Proof. unfold downloadAndCache, ensureCacheDir. frame. Qed.

Lemma getImage_keeps_files n s d : maintains keeps_files (getImage P n s d).
Proof. unfold getImage, downloadAndCache, ensureCacheDir. frame. Qed.

(** After a download attempt the cache directory is there, and so is the
    file when the transfer completed, whatever its status. *)
Lemma downloadAndCache_leaves u d w :
  CACHE_DIR P ∈ files (snd (downloadAndCache P u d w))
  /\ (forall st, download P u = Completes st ->
                 getCacheFilePath P d ∈ files (snd (downloadAndCache P u d w))).
Proof.
  unfold downloadAndCache, ensureCacheDir, getInfoAsync, makeDirectoryAsync, downloadAsync,
    try_catch, called, print, bind, modify, get, ret, throw.
  simpl.
  destruct (bool_decide (CACHE_DIR P ∈ files w)) eqn:Hdir; simpl;
    [apply bool_decide_eq_true_1 in Hdir |];
    destruct (download P u) as [reason | st]; simpl;
    try destruct (st =? 200); simpl;
    (split; [set_solver | intros st0 [=]; set_solver]).
Qed.

Lemma downloadAndCache_settles u d : maintains (settles_cache P) (downloadAndCache P u d).
Proof. intros w. right. apply downloadAndCache_leaves. Qed.

#[local] Hint Resolve downloadAndCache_settles : frame.
#[local] Hint Extern 2 (maintains (settles_cache _) _) =>
  apply unchanged_settles_cache; solve [frame] : frame.

Lemma getImage_settles n s d : maintains (settles_cache P) (getImage P n s d).
Proof. unfold getImage. frame. Qed.

Lemma getImage_hit n s d w :
  getCacheFilePath P d ∈ files w ->
  getImage P n s d w
  = (Returns (getCacheFilePath P d),
     with_calls (fun l => l ++ [GetInfo (getCacheFilePath P d)]) w).
Proof.
  intros Hin. unfold getImage.
  rewrite (bind_returns _ _ _ _ _ (getCachedImage_hit P d w Hin)). reflexivity.
Qed.

(** A transfer from the first source that completes leaves its file,
    whatever [getImage] does next. *)
Lemma getImage_leaves_transfer nasaUrl storagePath d w st :
  getCacheFilePath P d ∉ files w ->
  truthy_opt nasaUrl = true ->
  download P (default "" nasaUrl) = Completes st ->
  getCacheFilePath P d ∈ files (snd (getImage P nasaUrl storagePath d w)).
Proof.
  intros Hmiss Hn Hdl. unfold getImage.
  rewrite (bind_returns _ _ _ _ _ (getCachedImage_miss P d w Hmiss)).
  rewrite Hn. set (w0 := with_calls _ w).
  pose proof (proj2 (downloadAndCache_leaves (default "" nasaUrl) d w0) st Hdl) as Hfile.
  destruct (downloadAndCache P (default "" nasaUrl) d w0) as [[uri | e] w2] eqn:Hrun;
    simpl in Hfile.
  - erewrite bind_returns
      by (erewrite try_catch_bind_returns by exact Hrun; reflexivity).
    exact Hfile.
  - erewrite bind_returns
      by (erewrite try_catch_bind_throws by exact Hrun; reflexivity).
    match goal with
    | |- _ ∈ files (snd (?m ?w3)) =>
        assert (Hk : maintains keeps_files m)
          by (unfold downloadAndCache, ensureCacheDir; frame);
        apply (Hk w3)
    end.
    exact Hfile.
Qed.

Lemma preloadImage_settles n s d : maintains (settles_cache P) (preloadImage P n s d).
Proof. unfold preloadImage, getImage. frame. Qed.

Lemma settled_cache_is_consistent w w' :
  cache_consistent P w -> settles_cache P w w' -> cache_consistent P w'.
Proof.
  intros Hc [Heq | Hdir] p Hp Hin; [rewrite Heq in *; exact (Hc p Hp Hin) | exact Hdir].
Qed.

(** What [clearCache] leaves of a cache that is in order. *)
Lemma clearCache_run w :
  cache_consistent P w ->
  fst (clearCache P w) = Returns tt
  /\ forall p, p ∈ files (snd (clearCache P w)) <->
               String.prefix (CACHE_DIR P) p = false /\ p ∈ files w.
Proof.
  intros Hc.
  unfold clearCache, deleteAsync, getInfoAsync, try_catch, called, print, bind, modify, get, ret.
  simpl. destruct (bool_decide (CACHE_DIR P ∈ files w)) eqn:Hdir; simpl.
  - split; [reflexivity |]. intros p.
    apply (elem_of_filter (fun p => String.prefix (CACHE_DIR P) p = false)).
  - split; [reflexivity |]. intros p. split; [| tauto]. intros Hin. split; [| exact Hin].
    destruct (String.prefix (CACHE_DIR P) p) eqn:Hp; [| reflexivity].
    apply bool_decide_eq_false_1 in Hdir. contradiction (Hdir (Hc p Hp Hin)).
Qed.

End CacheMoreFacts.

Section CacheMoreTheorems.
Import Js Phone Supabase ImageCache Observe.

(** X17. Without a cached file and without a usable source (both URLs
    absent or empty) [getImage] throws "No valid image URL available" after the
    one existence check: nothing is downloaded and no file or directory is
    created. *)
Theorem getImage_without_a_source_throws P nasaUrl storagePath d w :
  (getCacheFilePath P d ∉ files w) ->
  truthy_opt nasaUrl = false -> truthy_opt storagePath = false ->
  getImage P nasaUrl storagePath d w
  = (Throws (Error "No valid image URL available"),
     with_calls (fun l => l ++ [GetInfo (getCacheFilePath P d)]) w).
Proof.
  intros Hmiss Hn Hs. unfold getImage.
  rewrite (bind_returns _ _ _ _ _ (getCachedImage_miss P d w Hmiss)).
  rewrite Hn. erewrite bind_returns by reflexivity. rewrite Hs. reflexivity.
Qed.

(** X17, an instance: no remote URL and an empty storage path. *)
Lemma getImage_without_a_source_witness :
  getImage PhoneExamples.online None (Some "") "2024-10-03" PhoneExamples.blank
  = (Throws (Error "No valid image URL available"),
     with_calls (fun l => l ++ [GetInfo "file:///cache/nasa-images/2024-10-03.jpg"])
       PhoneExamples.blank).
Proof.
  apply (getImage_without_a_source_throws PhoneExamples.online None (Some "") "2024-10-03"
           PhoneExamples.blank); [set_solver | reflexivity | reflexivity].
Defined.

(** X18. A download that completes with another status than 200 leaves its
    body at the cache path. When no source answers with 200, [getImage]
    throws, but the file is there: every later call for that date reports a
    cache hit and returns the path without downloading anything. *)
Theorem rejected_download_is_left_in_the_cache P nasaUrl storagePath d w st :
  (getCacheFilePath P d ∉ files w) ->
  truthy_opt nasaUrl = true ->
  download P (default "" nasaUrl) = Completes st -> st <> 200 ->
  snd (first_success P (sources P nasaUrl storagePath)) = false ->
  let w1 := snd (getImage P nasaUrl storagePath d w) in
  (exists e, fst (getImage P nasaUrl storagePath d w) = Throws e)
  /\ getCacheFilePath P d ∈ files w1
  /\ (forall nasaUrl' storagePath',
        getImage P nasaUrl' storagePath' d w1
        = (Returns (getCacheFilePath P d),
           with_calls (fun l => l ++ [GetInfo (getCacheFilePath P d)]) w1)).
Proof.
  intros Hmiss Hn Hdl Hst Hnone w1.
  assert (Hin : getCacheFilePath P d ∈ files w1)
    by exact (getImage_leaves_transfer P nasaUrl storagePath d w st Hmiss Hn Hdl).
  split; [| split; [exact Hin | intros n' s'; apply getImage_hit; exact Hin]].
  destruct (getImage_miss P nasaUrl storagePath d w Hmiss) as (l & _ & _ & Hr).
  rewrite Hnone in Hr. exact Hr.
Qed.

(** X18, an instance: the image host answers 404 and there is no copy in the
    blob store. *)
Lemma rejected_download_witness :
  let P := PhoneExamples.hd_down in
  let gone := Some "https://apod.nasa.gov/image/gone.jpg" in
  let w1 := snd (getImage P gone None "2024-10-03" PhoneExamples.blank) in
  download P "https://apod.nasa.gov/image/gone.jpg" = Completes 404
  /\ (exists e, fst (getImage P gone None "2024-10-03" PhoneExamples.blank) = Throws e)
  /\ (forall nasaUrl' storagePath',
        fst (getImage P nasaUrl' storagePath' "2024-10-03" w1)
        = Returns "file:///cache/nasa-images/2024-10-03.jpg").
Proof.
  intros P gone w1. split; [reflexivity |].
  destruct (rejected_download_is_left_in_the_cache P gone None "2024-10-03" PhoneExamples.blank
              404) as (Hthrows & _ & Hhit);
    [set_solver | reflexivity | reflexivity | discriminate | reflexivity |].
  split; [exact Hthrows |]. intros n' s'. fold w1 in Hhit. rewrite Hhit. reflexivity.
Defined.

(** X19. The cache stays in order: if entries below the cache directory
    exist only when the directory does, this still holds after [getImage],
    [preloadImage] and [clearCache]; and [getImage] removes no file. *)
Theorem cache_directory_stays_in_order P nasaUrl storagePath d w :
  cache_consistent P w ->
  cache_consistent P (snd (getImage P nasaUrl storagePath d w))
  /\ cache_consistent P (snd (preloadImage P nasaUrl storagePath d w))
  /\ cache_consistent P (snd (clearCache P w))
  /\ keeps_files w (snd (getImage P nasaUrl storagePath d w)).
Proof.
  intros Hc.
  split; [exact (settled_cache_is_consistent P _ _ Hc (getImage_settles P _ _ _ w)) |].
  split; [exact (settled_cache_is_consistent P _ _ Hc (preloadImage_settles P _ _ _ w)) |].
  split; [| apply getImage_keeps_files].
  destruct (clearCache_run P w Hc) as [_ Hfiles].
  intros p Hp Hin. apply Hfiles in Hin as [Hfalse _]. congruence.
Qed.

(** X19, an instance: the empty cache of a fresh device. *)
Lemma cache_directory_witness :
  cache_consistent PhoneExamples.online PhoneExamples.blank
  /\ cache_consistent PhoneExamples.online
       (snd (getImage PhoneExamples.online (Some PhoneExamples.hd) None "2024-10-03"
               PhoneExamples.blank)).
Proof.
  assert (H : cache_consistent PhoneExamples.online PhoneExamples.blank)
    by (intros p _ Hin; simpl in Hin; set_solver).
  split; [exact H |].
  apply (cache_directory_stays_in_order PhoneExamples.online (Some PhoneExamples.hd) None
           "2024-10-03" PhoneExamples.blank H).
Defined.

(** X20. [clearCache] never throws. On a cache that is in order it removes
    every entry below the cache directory and nothing else; afterwards every
    look-up misses and [getImage] goes through its download sources again. *)
Theorem clearCache_forgets_every_image P w :
  cache_consistent P w ->
  let w' := snd (clearCache P w) in
  fst (clearCache P w) = Returns tt
  /\ (forall p, String.prefix (CACHE_DIR P) p = true -> p ∉ files w')
  /\ (forall p, String.prefix (CACHE_DIR P) p = false -> p ∈ files w' <-> p ∈ files w)
  /\ (forall d, fst (getCachedImage P d w') = Returns None)
  /\ (forall nasaUrl storagePath d,
        downloads (since w' (snd (getImage P nasaUrl storagePath d w')))
        = fst (first_success P (sources P nasaUrl storagePath))).
Proof.
  intros Hc w'. destruct (clearCache_run P w Hc) as [Hret Hfiles]. fold w' in Hfiles.
  assert (Hmiss : forall d, getCacheFilePath P d ∉ files w').
  { intros d Hin. apply Hfiles in Hin as [Hp _].
    unfold getCacheFilePath in Hp. rewrite prefix_append in Hp. discriminate. }
  split; [exact Hret |]. split; [| split; [| split]].
  - intros p Hp Hin. apply Hfiles in Hin as [Hfalse _]. congruence.
  - intros p Hp. rewrite Hfiles. tauto.
  - intros d. rewrite (getCachedImage_miss P d w' (Hmiss d)). reflexivity.
  - intros n s d. destruct (getImage_miss P n s d w' (Hmiss d)) as (l & Hcalls & Hd & _).
    rewrite (since_app _ _ _ Hcalls). exact Hd.
Qed.

(** X20, an instance: a cache that holds one image, beside a file of the
    app. *)
Lemma clearCache_witness :
  let w' := snd (clearCache PhoneExamples.online PhoneExamples.stocked) in
  cache_consistent PhoneExamples.online PhoneExamples.stocked
  /\ ("file:///cache/nasa-images/2024-10-03.jpg" ∈ files PhoneExamples.stocked)
  /\ ("file:///cache/nasa-images/2024-10-03.jpg" ∉ files w')
  /\ ("file:///cache/settings.json" ∈ files w').
Proof.
  intros w'.
  assert (H : cache_consistent PhoneExamples.online PhoneExamples.stocked)
    by (intros p _ _; simpl; set_solver).
  destruct (clearCache_forgets_every_image PhoneExamples.online PhoneExamples.stocked H)
    as (_ & Hgone & Hkept & _).
  fold w' in Hgone, Hkept.
  split; [exact H |]. split; [simpl; set_solver |].
  split; [apply Hgone; reflexivity |].
  apply Hkept; [reflexivity | simpl; set_solver].
Defined.

End CacheMoreTheorems.

(** ** The screen: navigation and the end of a load *)

Section ScreenMoreFacts.
Import Js Phone Supabase ImageCache NasaApodScreen Observe.
Context (P : Platform).

Lemma attempt_invokes date r w :
  invokes (calls (snd (attempt P date r w))) = invokes (calls w) ++ [formatDate date].
Proof.
  assert (Hasked : invokes (calls (asked P date r w)) = invokes (calls w) ++ [formatDate date])
    by (unfold invokes, asked, resolved; simpl; rewrite omap_app; reflexivity).
  destruct (settle (invoke P (formatDate date))) as [response | e] eqn:Hs.
  - rewrite (attempt_returns P date r w _ Hs), <- Hasked.
    apply (present_invokes P (clock P r) date (formatDate date) response).
  - rewrite (attempt_throws P date r w _ Hs). exact Hasked.
Qed.

(** The walk of [loadImageForDate], whatever the resolver answers: it probes
    [n + 1] consecutive days, going back, and stops. *)
Lemma loadImageForDate_walk date r w :
  exists n,
    (n <= MAX_RETRY_DAYS - r)%nat
    /\ probes (loadImageForDate P date r w)
       = probes w ++ map (fun i => (formatDate (addDays date (- Z.of_nat i)), (r + i)%nat))
                         (seq 0 (S n))
    /\ invokes (calls (loadImageForDate P date r w))
       = invokes (calls w) ++ map (fun i => formatDate (addDays date (- Z.of_nat i)))
                                  (seq 0 (S n))
    /\ currentDate (screen (loadImageForDate P date r w))
       = match n with O => currentDate (screen w) | S _ => addDays date (- Z.of_nat n) end
    /\ (forall i, (i < n)%nat ->
          addDays date (- Z.of_nat (S i)) >= addDays (clock P (r + i)) (- MAX_DAYS_BACK))
    /\ loading (screen (loadImageForDate P date r w)) = false.
Proof.
  remember (MAX_RETRY_DAYS - r)%nat as k eqn:Hk. revert date r w Hk.
  induction k as [k IH] using lt_wf_ind. intros date r w Hk.
  rewrite loadImageForDate_step.
  pose proof (attempt_probes P date r (resets w)) as Hp.
  pose proof (attempt_invokes date r (resets w)) as Hi.
  pose proof (attempt_currentDate P date r (resets w)) as Hc.
  change (probes (resets w)) with (probes w) in Hp.
  change (invokes (calls (resets w))) with (invokes (calls w)) in Hi.
  change (currentDate (screen (resets w))) with (currentDate (screen w)) in Hc.
  assert (Hstop : forall w1,
             probes w1 = probes w ++ [(formatDate date, r)] ->
             invokes (calls w1) = invokes (calls w) ++ [formatDate date] ->
             currentDate (screen w1) = currentDate (screen w) ->
             loading (screen w1) = false ->
             exists n,
               (n <= k)%nat
               /\ probes w1
                  = probes w ++ map (fun i => (formatDate (addDays date (- Z.of_nat i)),
                                               (r + i)%nat)) (seq 0 (S n))
               /\ invokes (calls w1)
                  = invokes (calls w) ++ map (fun i => formatDate (addDays date (- Z.of_nat i)))
                                             (seq 0 (S n))
               /\ currentDate (screen w1)
                  = match n with
                    | O => currentDate (screen w)
                    | S _ => addDays date (- Z.of_nat n)
                    end
               /\ (forall i, (i < n)%nat ->
                     addDays date (- Z.of_nat (S i))
                     >= addDays (clock P (r + i)) (- MAX_DAYS_BACK))
               /\ loading (screen w1) = false).
  { intros w1 H1 H2 H3 H4. exists 0%nat. simpl. rewrite addDays_0, Nat.add_0_r.
    split; [lia |]. split; [exact H1 |]. split; [exact H2 |]. split; [exact H3 |].
    split; [intros i Hlt; lia | exact H4]. }
  destruct (attempt P date r (resets w)) as [[u | e] w1]; simpl in Hp, Hi, Hc.
  - apply Hstop; [exact Hp | exact Hi | exact Hc | reflexivity].
  - destruct (instanceof_NasaNoDataError e);
      [| apply Hstop; [exact Hp | exact Hi | exact Hc | reflexivity]].
    destruct (r <? MAX_RETRY_DAYS)%nat eqn:Hr;
      [| apply Hstop; [exact Hp | exact Hi | exact Hc | reflexivity]].
    destruct (addDays date (-1) >=? addDays (clock P r) (- MAX_DAYS_BACK)) eqn:Hstep;
      [| apply Hstop; [exact Hp | exact Hi | exact Hc | reflexivity]].
    apply Nat.ltb_lt in Hr.
    set (w2 := setCurrentDate (addDays date (-1)) _).
    destruct (IH (MAX_RETRY_DAYS - S r)%nat ltac:(lia) (addDays date (-1)) (S r) w2 eq_refl)
      as (n & Hn & Hpn & Hin & Hcn & Hbn & Hln).
    assert (Hshift : forall i, addDays (addDays date (-1)) (- Z.of_nat i)
                               = addDays date (- Z.of_nat (S i))).
    { intros i. rewrite addDays_addDays. f_equal. lia. }
    exists (S n). split; [lia |].
    split; [| split; [| split; [| split]]].
    + change (probes (setLoading false ?x)) with (probes x). rewrite Hpn.
      assert (Hw2 : probes w2 = probes w ++ [(formatDate date, r)]).
      { unfold w2. unfold probes in *. simpl. rewrite omap_app. simpl.
        rewrite app_nil_r. exact Hp. }
      rewrite Hw2, <- app_assoc. f_equal.
      change (seq 0 (S (S n))) with (0%nat :: seq 1 (S n)).
      rewrite <- seq_shift, map_cons, map_map. refine (f_equal2 cons _ _).
      * simpl Z.of_nat. simpl Z.opp. rewrite addDays_0, Nat.add_0_r. reflexivity.
      * apply map_ext. intros i. rewrite Hshift. f_equal. lia.
    + change (invokes (calls (setLoading false ?x))) with (invokes (calls x)). rewrite Hin.
      change (invokes (calls w2)) with (invokes (calls w1)). rewrite Hi, <- app_assoc. f_equal.
      change (seq 0 (S (S n))) with (0%nat :: seq 1 (S n)).
      rewrite <- seq_shift, map_cons, map_map. refine (f_equal2 cons _ _).
      * simpl Z.of_nat. simpl Z.opp. rewrite addDays_0. reflexivity.
      * apply map_ext. intros i. rewrite Hshift. reflexivity.
    + change (currentDate (screen (setLoading false ?x))) with (currentDate (screen x)).
      rewrite Hcn. destruct n; [reflexivity | apply Hshift].
    + intros i Hlt. destruct i as [| i].
      * rewrite Nat.add_0_r. apply Z.geb_le in Hstep.
        change (- Z.of_nat 1) with (-1). lia.
      * rewrite <- Hshift. replace (r + S i)%nat with (S r + i)%nat by lia.
        apply Hbn. lia.
    + reflexivity.
Qed.

Lemma attempt_throws_plain date r w e w1 :
  answers P date -> attempt P date r w = (Throws e, w1) -> plain e.
Proof.
  unfold answers. intros Ha Hrun.
  destruct (settle (invoke P (formatDate date))) as [response | e0] eqn:Hs.
  - rewrite (attempt_returns P date r w _ Hs) in Hrun.
    exact (present_throws_plain P _ _ _ _ _ _ _ Hrun).
  - rewrite (attempt_throws P date r w _ Hs) in Hrun. injection Hrun as <- _. exact Ha.
Qed.

(** A date for which the resolver does not signal "no data" is loaded in one
    probe, and the cursor stays where it is. *)
Lemma loadImageForDate_answered date r w :
  answers P date ->
  currentDate (screen (loadImageForDate P date r w)) = currentDate (screen w)
  /\ probes (loadImageForDate P date r w) = probes w ++ [(formatDate date, r)].
Proof.
  intros Ha. rewrite loadImageForDate_step.
  pose proof (attempt_probes P date r (resets w)) as Hp.
  pose proof (attempt_currentDate P date r (resets w)) as Hc.
  pose proof (attempt_throws_plain date r (resets w)) as Ht.
  destruct (attempt P date r (resets w)) as [[u | e] w1]; simpl in Hp, Hc.
  - split; [exact Hc | exact Hp].
  - rewrite (Ht e w1 Ha eq_refl). split; [exact Hc | exact Hp].
Qed.

Lemma getImage_returns n s d w p w1 :
  getImage P n s d w = (Returns p, w1) ->
  p = getCacheFilePath P d /\ p ∈ files w1.
Proof.
  intros Hrun. destruct (decide (getCacheFilePath P d ∈ files w)) as [Hin | Hout].
  - unfold getImage in Hrun.
    rewrite (bind_returns _ _ _ _ _ (getCachedImage_hit P d w Hin)) in Hrun.
    injection Hrun as <- <-. split; [reflexivity | exact Hin].
  - destruct (getImage_miss P n s d w Hout) as (l & _ & _ & Hr).
    rewrite Hrun in Hr. simpl in Hr.
    destruct (snd (first_success P (sources P n s))).
    + destruct Hr as [[= ->] Hin]. split; [reflexivity | exact Hin].
    + destruct Hr as [e He]. discriminate.
Qed.

(** When the [try] block completes, a record and the URI of its asset are
    on the screen; the URI of an image is a file of the cache. *)
Lemma present_returns today date ds response w w1 :
  present P today date ds response w = (Returns tt, w1) ->
  error (screen w1) = error (screen w)
  /\ exists details uri,
       imageData (screen w1) = Some details
       /\ localImageUri (screen w1) = Some uri
       /\ (String.eqb (media_type details) "image" = true ->
           uri = getCacheFilePath P ds /\ uri ∈ files w1)
       /\ (String.eqb (media_type details) "image" = false -> uri = url details).
Proof.
  intros Hrun.
  split; [pose proof (present_error P today date ds response w) as He;
          rewrite Hrun in He; exact He |].
  revert Hrun. unfold present. destruct response as [resp |]; [| discriminate].
  erewrite bind_returns by reflexivity. erewrite bind_returns by reflexivity.
  set (w0 := setImageData _ w).
  destruct (String.eqb (media_type (data resp)) "image") eqn:Hmedia.
  - destruct (getImage P (Some (or_else (hdurl (data resp)) (url (data resp))))
                (storage_path (data resp)) ds w0) as [[p | e] w2] eqn:Hget.
    + erewrite bind_returns by (erewrite bind_returns by exact Hget; reflexivity).
      destruct (getImage_returns _ _ _ _ _ _ Hget) as [-> Hin].
      assert (Himg : imageData (screen w2) = Some (data resp)).
      { assert (Hm : maintains (unchanged (fun w => imageData (screen w)))
                       (getImage P (Some (or_else (hdurl (data resp)) (url (data resp))))
                          (storage_path (data resp)) ds)) by frame.
        pose proof (Hm w0) as Hm0. rewrite Hget in Hm0. exact Hm0. }
      destruct (preloadAdjacentImages_run today date
                  (setLocalImageUri (Some (getCacheFilePath P ds)) w2))
        as (w3 & Hpre & _ & Hf & _ & _ & Hs).
      rewrite Hpre. intros [= <-]. rewrite Hs, Hf. simpl.
      exists (data resp), (getCacheFilePath P ds).
      split; [exact Himg |]. split; [reflexivity |].
      split; [intros _; split; [reflexivity | exact Hin] | congruence].
    + erewrite bind_throws by (erewrite bind_throws by exact Hget; reflexivity).
      discriminate.
  - erewrite bind_returns by reflexivity.
    destruct (preloadAdjacentImages_run today date
                (setLocalImageUri (Some (url (data resp))) w0))
      as (w3 & Hpre & _ & Hf & _ & _ & Hs).
    rewrite Hpre. intros [= <-]. rewrite Hs. simpl.
    exists (data resp), (url (data resp)).
    split; [reflexivity |]. split; [reflexivity |].
    split; [congruence | reflexivity].
Qed.

Lemma attempt_returns_shown date r w w1 :
  attempt P date r w = (Returns tt, w1) ->
  error (screen w1) = error (screen w)
  /\ exists details uri,
       imageData (screen w1) = Some details
       /\ localImageUri (screen w1) = Some uri
       /\ (String.eqb (media_type details) "image" = true ->
           uri ∈ files w1 /\ truthy uri = true)
       /\ (String.eqb (media_type details) "image" = false -> uri = url details).
Proof.
  intros Hrun.
  destruct (settle (invoke P (formatDate date))) as [response | e] eqn:Hs.
  - rewrite (attempt_returns P date r w _ Hs) in Hrun.
    destruct (present_returns _ _ _ _ _ _ Hrun) as (He & details & uri & Hi & Hu & Himg & Hv).
    split; [exact He |]. exists details, uri.
    split; [exact Hi |]. split; [exact Hu |]. split; [| exact Hv].
    intros Hm. destruct (Himg Hm) as [-> Hin].
    split; [exact Hin | apply getCacheFilePath_truthy].
  - rewrite (attempt_throws P date r w _ Hs) in Hrun. discriminate.
Qed.

(** How a load ends: without an error only when a record and its asset are
    on the screen. *)
Lemma loadImageForDate_end date r w :
  let w' := loadImageForDate P date r w in
  loading (screen w') = false
  /\ match error (screen w') with
     | Some _ => True
     | None =>
         exists details uri,
           imageData (screen w') = Some details
           /\ localImageUri (screen w') = Some uri
           /\ (String.eqb (media_type details) "image" = true ->
               uri ∈ files w' /\ truthy uri = true)
           /\ (String.eqb (media_type details) "image" = false -> uri = url details)
     end.
Proof.
  remember (MAX_RETRY_DAYS - r)%nat as k eqn:Hk. revert date r w Hk.
  induction k as [k IH] using lt_wf_ind. intros date r w Hk. cbv zeta.
  rewrite loadImageForDate_step.
  pose proof (attempt_returns_shown date r (resets w)) as Hshown.
  destruct (attempt P date r (resets w)) as [[[] | e] w1].
  - split; [reflexivity |].
    destruct (Hshown w1 eq_refl) as (He & details & uri & Hi & Hu & Himg & Hv).
    change (error (screen (setLoading false w1))) with (error (screen w1)).
    rewrite He. simpl. exists details, uri.
    split; [exact Hi |]. split; [exact Hu |]. split; [exact Himg | exact Hv].
  - destruct (instanceof_NasaNoDataError e); [| split; reflexivity || exact I].
    destruct (r <? MAX_RETRY_DAYS)%nat eqn:Hr; [| split; reflexivity || exact I].
    destruct (addDays date (-1) >=? addDays (clock P r) (- MAX_DAYS_BACK));
      [| split; reflexivity || exact I].
    apply Nat.ltb_lt in Hr.
    split; [reflexivity |].
    exact (proj2 (IH (MAX_RETRY_DAYS - S r)%nat ltac:(lia) (addDays date (-1)) (S r) _ eq_refl)).
Qed.

(** The walk over [n + 1] dates without data that ends at the cap. *)
Lemma walk_exhausted n : forall date r w,
  (r + n = MAX_RETRY_DAYS)%nat ->
  (forall i, (i <= n)%nat ->
     exists m dd, settle (invoke P (formatDate (addDays date (- Z.of_nat i))))
                  = Throws (NasaNoDataError m dd)) ->
  (forall i, (i < n)%nat ->
     addDays date (- Z.of_nat (S i)) >= addDays (clock P (r + i)) (- MAX_DAYS_BACK)) ->
  let w' := loadImageForDate P date r w in
  probes w'
  = probes w ++ map (fun i => (formatDate (addDays date (- Z.of_nat i)), (r + i)%nat))
                    (seq 0 (S n))
  /\ currentDate (screen w')
     = match n with O => currentDate (screen w) | S _ => addDays date (- Z.of_nat n) end
  /\ error (screen w') = Some "No NASA images available for the last 20 days"
  /\ localImageUri (screen w') = None
  /\ imageData (screen w') = imageData (screen w)
  /\ loading (screen w') = false.
Proof.
  induction n as [| n IH]; intros date r w Hcap Hnone Hbound w'; subst w'.
  - destruct (Hnone 0%nat ltac:(lia)) as (m & dd & H0).
    simpl Z.of_nat in H0. simpl Z.opp in H0. rewrite addDays_0 in H0.
    rewrite loadImageForDate_step, (attempt_throws P date r _ _ H0).
    simpl instanceof_NasaNoDataError. cbv iota.
    rewrite (proj2 (Nat.ltb_ge r MAX_RETRY_DAYS)) by lia.
    assert (r = MAX_RETRY_DAYS) as -> by lia.
    split; [| repeat split].
    change (probes (setLoading false (setError ?e ?x))) with (probes x).
    rewrite (asked_probes P date MAX_RETRY_DAYS (resets w)). simpl.
    rewrite addDays_0. reflexivity.
  - destruct (Hnone 0%nat ltac:(lia)) as (m & dd & H0).
    simpl Z.of_nat in H0. simpl Z.opp in H0. rewrite addDays_0 in H0.
    rewrite loadImageForDate_step, (attempt_throws P date r _ _ H0).
    simpl instanceof_NasaNoDataError. cbv iota.
    rewrite (proj2 (Nat.ltb_lt r MAX_RETRY_DAYS)) by lia.
    assert (Hstep : (addDays date (-1) >=? addDays (clock P r) (- MAX_DAYS_BACK)) = true).
    { pose proof (Hbound 0%nat ltac:(lia)) as Hb. rewrite Nat.add_0_r in Hb.
      change (- Z.of_nat 1) with (-1) in Hb. apply Z.geb_le. lia. }
    rewrite Hstep.
    set (w2 := setCurrentDate (addDays date (-1)) _).
    assert (Hshift : forall i, addDays (addDays date (-1)) (- Z.of_nat i)
                               = addDays date (- Z.of_nat (S i))).
    { intros i. rewrite addDays_addDays. f_equal. lia. }
    destruct (IH (addDays date (-1)) (S r) w2) as (Hp & Hc & He & Hu & Hi & Hl).
    + lia.
    + intros i Hi. rewrite Hshift. apply Hnone. lia.
    + intros i Hi. rewrite Hshift. replace (S r + i)%nat with (r + S i)%nat by lia.
      apply Hbound. lia.
    + split; [| split; [| split; [| split; [| split]]]].
      * change (probes (setLoading false ?x)) with (probes x). rewrite Hp.
        assert (Hw2 : probes w2 = probes w ++ [(formatDate date, r)]).
        { unfold probes, w2, asked, resolved. simpl.
          rewrite !omap_app, report_probes. simpl. rewrite !app_nil_r. reflexivity. }
        rewrite Hw2, <- app_assoc. f_equal.
        change (seq 0 (S (S n))) with (0%nat :: seq 1 (S n)).
        rewrite <- seq_shift, map_cons, map_map. refine (f_equal2 cons _ _).
        -- simpl Z.of_nat. simpl Z.opp. rewrite addDays_0, Nat.add_0_r. reflexivity.
        -- apply map_ext. intros i. rewrite Hshift. f_equal. lia.
      * change (currentDate (screen (setLoading false ?x))) with (currentDate (screen x)).
        rewrite Hc. destruct n; [reflexivity |]. apply Hshift.
      * exact He.
      * exact Hu.
      * change (imageData (screen (setLoading false ?x))) with (imageData (screen x)).
        rewrite Hi. reflexivity.
      * reflexivity.
Qed.

End ScreenMoreFacts.

Section ScreenMoreTheorems.
Import Js Phone Supabase ImageCache NasaApodScreen Observe.

(** X21. Whatever the resolver answers, [loadImageForDate(date, r)]
    terminates with [loading = false] after probing [n + 1] consecutive days
    going back from [date], with retry counts [r, r + 1, ...], where [n] is at
    most [MAX_RETRY_DAYS - r]; the resolver is called once per probe, so at
    most 21 times when [r = 0]. *)
Theorem loadImageForDate_asks_for_a_bounded_run_of_days P date r w :
  let w' := loadImageForDate P date r w in
  exists n,
    (n <= MAX_RETRY_DAYS - r)%nat
    /\ probes w'
       = probes w ++ map (fun i => (formatDate (addDays date (- Z.of_nat i)), (r + i)%nat))
                         (seq 0 (S n))
    /\ invokes (calls w')
       = invokes (calls w) ++ map (fun i => formatDate (addDays date (- Z.of_nat i)))
                                  (seq 0 (S n))
    /\ (length (invokes (calls w')) <= length (invokes (calls w)) + S (MAX_RETRY_DAYS - r))%nat
    /\ loading (screen w') = false.
Proof.
  intros w'. subst w'.
  destruct (loadImageForDate_walk P date r w) as (n & Hn & Hp & Hi & _ & _ & Hl).
  exists n. split; [exact Hn |]. split; [exact Hp |]. split; [exact Hi |].
  split; [| exact Hl].
  rewrite Hi, length_app, length_map, length_seq. lia.
Qed.

(** X22. While the clock stands at [today], navigation keeps the date on
    the screen between [today - MAX_DAYS_BACK] days and [today]: this holds
    after [goToNextDay], after [goToPreviousDay] and after the load of the
    current date, walk back included. At the upper end [goToNextDay] does
    nothing at all, and at the lower end neither does [goToPreviousDay]. *)
Theorem navigation_stays_in_the_window P today w :
  (forall r, clock P r = today) ->
  in_window today (currentDate (screen w)) ->
  in_window today (currentDate (screen (goToNextDay P today w)))
  /\ in_window today (currentDate (screen (goToPreviousDay P today w)))
  /\ in_window today (currentDate (screen (loadImageForDate P (currentDate (screen w)) 0 w)))
  /\ (addDays (currentDate (screen w)) 1 > today -> goToNextDay P today w = w)
  /\ (addDays (currentDate (screen w)) (-1) < addDays today (- MAX_DAYS_BACK) ->
      goToPreviousDay P today w = w).
Proof.
  intros Hclock Hwin.
  assert (Hload : forall date w0,
             in_window today (currentDate (screen w0)) ->
             addDays today (- MAX_DAYS_BACK) <= date <= today ->
             in_window today (currentDate (screen (loadImageForDate P date 0 w0)))).
  { intros date w0 Hw0 Hdate.
    destruct (loadImageForDate_walk P date 0 w0) as (n & _ & _ & _ & Hc & Hb & _).
    rewrite Hc. destruct n as [| n]; [exact Hw0 |].
    specialize (Hb n ltac:(lia)). rewrite Hclock in Hb.
    unfold in_window. split; [lia |].
    unfold addDays, msPerDay in *. lia. }
  unfold goToNextDay, goToPreviousDay.
  split; [| split; [| split; [| split]]].
  - destruct (addDays (currentDate (screen w)) 1 <=? today) eqn:Hnext; [| exact Hwin].
    apply Z.leb_le in Hnext. apply Hload.
    + unfold in_window in *. simpl. unfold addDays, msPerDay, MAX_DAYS_BACK in *. lia.
    + unfold in_window in *. unfold addDays, msPerDay, MAX_DAYS_BACK in *. lia.
  - destruct (addDays (currentDate (screen w)) (-1) >=? addDays today (- MAX_DAYS_BACK))
      eqn:Hprev; [| exact Hwin].
    apply Z.geb_le in Hprev. apply Hload.
    + unfold in_window in *. simpl. unfold addDays, msPerDay, MAX_DAYS_BACK in *. lia.
    + unfold in_window in *. unfold addDays, msPerDay, MAX_DAYS_BACK in *. lia.
  - apply Hload; [exact Hwin | exact Hwin].
  - intros Hgt. rewrite (proj2 (Z.leb_gt _ _)) by lia. reflexivity.
  - intros Hlt. destruct (_ >=? _) eqn:Hge; [| reflexivity].
    apply Z.geb_le in Hge. lia.
Qed.

(** X22, an instance: noon of 2024-10-05, the screen showing that day. *)
Lemma navigation_window_witness :
  let P := PhoneExamples.online in
  let today := PhoneExamples.noon in
  (forall r, clock P r = today)
  /\ in_window today (currentDate (screen PhoneExamples.blank))
  /\ in_window today (currentDate (screen (goToPreviousDay P today PhoneExamples.blank)))
  /\ goToNextDay P today PhoneExamples.blank = PhoneExamples.blank.
Proof.
  intros P today.
  assert (Hclock : forall r, clock P r = today) by reflexivity.
  assert (Hwin : in_window today (currentDate (screen PhoneExamples.blank)))
    by (vm_compute; split; discriminate).
  destruct (navigation_stays_in_the_window P today PhoneExamples.blank Hclock Hwin)
    as (_ & Hprev & _ & Hnext & _).
  split; [exact Hclock |]. split; [exact Hwin |]. split; [exact Hprev |].
  apply Hnext. vm_compute. reflexivity.
Defined.

(** X23. Going to the previous day and then to the next day comes back to
    the date on the screen, when both moves are inside the window and the
    resolver does not signal "no data" for either date: each move makes one
    probe with retry count 0. *)
Theorem previous_then_next_returns_to_the_date P today w :
  let D := currentDate (screen w) in
  addDays today (- MAX_DAYS_BACK) <= addDays D (-1) ->
  D <= today ->
  answers P (addDays D (-1)) ->
  answers P D ->
  currentDate (screen (goToPreviousDay P today w)) = addDays D (-1)
  /\ currentDate (screen (goToNextDay P today (goToPreviousDay P today w))) = D
  /\ probes (goToNextDay P today (goToPreviousDay P today w))
     = probes w ++ [(formatDate (addDays D (-1)), 0%nat); (formatDate D, 0%nat)].
Proof.
  intros D Hlow Hhigh Hprev Hcur.
  assert (Hback : goToPreviousDay P today w
                  = loadImageForDate P (addDays D (-1)) 0 (setCurrentDate (addDays D (-1)) w)).
  { unfold goToPreviousDay. fold D. rewrite (proj2 (Z.geb_le _ _)) by exact Hlow. reflexivity. }
  destruct (loadImageForDate_answered P (addDays D (-1)) 0 (setCurrentDate (addDays D (-1)) w)
              Hprev) as [Hc1 Hp1].
  rewrite <- Hback in Hc1, Hp1. simpl in Hc1.
  assert (Hnext : addDays (currentDate (screen (goToPreviousDay P today w))) 1 = D)
    by (rewrite Hc1, addDays_addDays; apply addDays_0).
  assert (Hforth : goToNextDay P today (goToPreviousDay P today w)
                   = loadImageForDate P D 0 (setCurrentDate D (goToPreviousDay P today w))).
  { unfold goToNextDay. rewrite Hnext, (proj2 (Z.leb_le _ _)) by exact Hhigh. reflexivity. }
  destruct (loadImageForDate_answered P D 0 (setCurrentDate D (goToPreviousDay P today w)) Hcur)
    as [Hc2 Hp2].
  rewrite <- Hforth in Hc2, Hp2. simpl in Hc2.
  split; [exact Hc1 |]. split; [exact Hc2 |].
  rewrite Hp2. change (probes (setCurrentDate D ?x)) with (probes x).
  rewrite Hp1. change (probes (setCurrentDate _ w)) with (probes w).
  rewrite <- app_assoc. reflexivity.
Qed.

(** X23, an instance: the endpoint cannot be reached, which is not the
    no-data signal. *)
Lemma previous_then_next_witness :
  let P := PhoneExamples.offline in
  let today := PhoneExamples.noon in
  let D := currentDate (screen PhoneExamples.blank) in
  addDays today (- MAX_DAYS_BACK) <= addDays D (-1)
  /\ D <= today
  /\ answers P (addDays D (-1))
  /\ answers P D
  /\ currentDate (screen (goToNextDay P today (goToPreviousDay P today PhoneExamples.blank))) = D.
Proof.
  intros P today D.
  assert (H1 : addDays today (- MAX_DAYS_BACK) <= addDays D (-1)) by (vm_compute; discriminate).
  assert (H2 : D <= today) by (vm_compute; discriminate).
  assert (H3 : answers P (addDays D (-1))) by exact I.
  assert (H4 : answers P D) by exact I.
  destruct (previous_then_next_returns_to_the_date P today PhoneExamples.blank H1 H2 H3 H4)
    as (_ & Hback & _).
  repeat (split; [assumption |]). exact Hback.
Defined.

(** X24. How a load ends: the spinner is gone, and the screen shows the
    error text when the error message is not empty. When there is no error, a
    record and the URI of its asset are on the screen: for an image the URI is
    a file that exists in the cache and the image viewer shows it; for a video
    it is the record's URL, shown in the video viewer unless it is empty. *)
Theorem loadImageForDate_ends_with_an_error_or_an_asset P date r w showOverlay :
  let w' := loadImageForDate P date r w in
  let s := screen w' in
  loading s = false
  /\ render s showOverlay <> Spinner
  /\ (forall msg, error s = Some msg -> truthy msg = true ->
                  render s showOverlay = Failure msg)
  /\ (error s = None ->
      exists details uri,
        imageData s = Some details
        /\ localImageUri s = Some uri
        /\ (String.eqb (media_type details) "image" = true ->
            uri ∈ files w'
            /\ render s showOverlay
               = ImageViewer uri (if showOverlay then Some details else None))
        /\ (String.eqb (media_type details) "image" = false ->
            uri = url details
            /\ render s showOverlay
               = if truthy uri
                 then VideoViewer uri (if showOverlay then Some details else None)
                 else NoImage)).
Proof.
  intros w' s. destruct (loadImageForDate_end P date r w) as [Hl Hend].
  fold w' in Hl, Hend. fold s in Hl, Hend.
  split; [exact Hl |].
  split; [unfold render; rewrite Hl;
          destruct (truthy_opt (error s)); [discriminate |];
          destruct (imageData s), (localImageUri s); try discriminate;
          destruct (truthy s0); [destruct (String.eqb _ _) |]; discriminate |].
  split.
  - intros msg He Ht. unfold render. rewrite Hl, He. simpl. rewrite Ht. reflexivity.
  - intros He. rewrite He in Hend. destruct Hend as (details & uri & Hi & Hu & Himg & Hv).
    exists details, uri. split; [exact Hi |]. split; [exact Hu |]. split.
    + intros Hm. destruct (Himg Hm) as [Hin Ht]. split; [exact Hin |].
      unfold render. rewrite Hl, He, Hi, Hu, Hm. simpl. rewrite Ht. reflexivity.
    + intros Hm. split; [apply Hv, Hm |].
      unfold render. rewrite Hl, He, Hi, Hu, Hm. simpl.
      destruct (truthy uri); reflexivity.
Qed.

(** X25. When the resolver signals "no data" for [D] and the twenty days
    before it, all inside the window, [loadImageForDate(D)] probes these
    twenty-one days and gives up with "No NASA images available for the last 20
    days". The date on the screen is left twenty days back, no asset is shown,
    and the record of the previous load is still in [imageData] behind the
    error text. *)
Theorem walk_gives_up_after_twenty_one_days P D w :
  (forall i, (i <= MAX_RETRY_DAYS)%nat ->
     exists m dd, settle (invoke P (formatDate (addDays D (- Z.of_nat i))))
                  = Throws (NasaNoDataError m dd)) ->
  (forall i, (i < MAX_RETRY_DAYS)%nat ->
     addDays D (- Z.of_nat (S i)) >= addDays (clock P i) (- MAX_DAYS_BACK)) ->
  let w' := loadImageForDate P D 0 w in
  probes w'
  = probes w ++ map (fun i => (formatDate (addDays D (- Z.of_nat i)), i)) (seq 0 21)
  /\ currentDate (screen w') = addDays D (-20)
  /\ error (screen w') = Some "No NASA images available for the last 20 days"
  /\ localImageUri (screen w') = None
  /\ imageData (screen w') = imageData (screen w)
  /\ render (screen w') false = Failure "No NASA images available for the last 20 days".
Proof.
  intros Hnone Hbound w'. subst w'.
  destruct (walk_exhausted P MAX_RETRY_DAYS D 0%nat w eq_refl Hnone Hbound)
    as (Hp & Hc & He & Hu & Hi & Hl).
  split; [exact Hp |]. split; [exact Hc |]. split; [exact He |].
  split; [exact Hu |]. split; [exact Hi |].
  unfold render. rewrite Hl, He. reflexivity.
Qed.

(** X25, an instance: an endpoint that has no data for any date. *)
Lemma walk_gives_up_witness :
  let P := PhoneExamples.barren in
  let D := PhoneExamples.midnight in
  let w' := loadImageForDate P D 0 PhoneExamples.blank in
  (forall i, (i <= MAX_RETRY_DAYS)%nat ->
     exists m dd, settle (invoke P (formatDate (addDays D (- Z.of_nat i))))
                  = Throws (NasaNoDataError m dd))
  /\ (forall i, (i < MAX_RETRY_DAYS)%nat ->
        addDays D (- Z.of_nat (S i)) >= addDays (clock P i) (- MAX_DAYS_BACK))
  /\ currentDate (screen w') = addDays D (-20)
  /\ error (screen w') = Some "No NASA images available for the last 20 days".
Proof.
  intros P D w'.
  assert (Hnone : forall i, (i <= MAX_RETRY_DAYS)%nat ->
            exists m dd, settle (invoke P (formatDate (addDays D (- Z.of_nat i))))
                         = Throws (NasaNoDataError m dd))
    by (intros i _; eexists _, _; reflexivity).
  assert (Hbound : forall i, (i < MAX_RETRY_DAYS)%nat ->
            addDays D (- Z.of_nat (S i)) >= addDays (clock P i) (- MAX_DAYS_BACK)).
  { intros i Hi. unfold MAX_RETRY_DAYS in Hi.
    unfold addDays, msPerDay, MAX_DAYS_BACK, D, PhoneExamples.midnight. simpl clock.
    unfold PhoneExamples.noon. lia. }
  destruct (walk_gives_up_after_twenty_one_days P D PhoneExamples.blank Hnone Hbound)
    as (_ & Hc & He & _).
  split; [exact Hnone |]. split; [exact Hbound |]. split; [exact Hc | exact He].
Defined.

End ScreenMoreTheorems.

(** ** The walk behind the edge function *)

Section WalkEndToEnd.
Import Js Phone Supabase NasaApodScreen Observe.

(** Whatever the edge function answers, the client resolver does not signal
    "no data" for it. *)
Lemma deployed_answers cloud b req P date : answers (deployed cloud b req P) date.
Proof.
  unfold answers, deployed, response. cbn [invoke].
  destruct (EdgeFunction.serve cloud (req (formatDate date)) b) as [[r | e] b'] eqn:Hs;
    cbn [fst].
  - pose proof (serve_never_signals_no_data cloud _ b r b' Hs) as Hno.
    destruct (settle (relay r)) as [x | e]; [exact I |].
    unfold plain. destruct e; try reflexivity. destruct (Hno _ _ eq_refl).
  - reflexivity.
Qed.

(** C3, at the failing input. The provider has no picture for 2024-10-06 yet
    (it answers 404 "No data available") and has the one of 2024-10-05, which
    is within the allowed range; the app, whose endpoint is the edge function,
    loads 2024-10-06 at noon of that day. The walk that the specification and
    the repository's notes on error handling describe would probe 2024-10-06
    and then 2024-10-05 and move the cursor there. Instead the edge
    function answers 400 without an error code, the resolver returns nothing,
    reading [response.data] throws, and the load ends after its one probe with
    that exception's message on the screen and the cursor on 2024-10-06. This
    is not special to the input: behind the edge function no load, for any
    state of the cloud and any date, makes a second probe or moves the
    cursor. *)
Theorem provider_no_data_does_not_start_the_walk :
  let app := deployed Examples.cloud EdgeFunction.fresh Examples.request
               PhoneExamples.next_day in
  let D := PhoneExamples.next_midnight in
  let w := setCurrentDate D PhoneExamples.blank in
  let w' := loadImageForDate app D 0 w in
  formatDate D = "2024-10-06"
  /\ formatDate (addDays D (-1)) = "2024-10-05"
  /\ EdgeFunction.net Examples.cloud (EdgeFunction.nasaApiUrl "KEY" "2024-10-06")
     = EdgeFunction.Resolves
         {| EdgeFunction.status := 404;
            EdgeFunction.text := "No data available for date";
            EdgeFunction.json := None;
            EdgeFunction.blob := Examples.jpeg |}
  /\ EdgeFunction.net Examples.cloud (EdgeFunction.nasaApiUrl "KEY" "2024-10-05")
     = EdgeFunction.Resolves Examples.andromeda_reply
  /\ addDays D (-1) >= addDays (clock app 0) (- MAX_DAYS_BACK)
  /\ invoke app "2024-10-06"
     = relay (failure "NASA API error: 404 - No data available for date")
  /\ settle (invoke app "2024-10-06") = Returns None
  /\ (exists resp, settle (invoke app "2024-10-05") = Returns (Some resp))
  /\ probes w' = [("2024-10-06", 0%nat)]
  /\ currentDate (screen w') = D
  /\ imageData (screen w') = None
  /\ loading (screen w') = false
  /\ error (screen w') = Some "Cannot read property 'data' of undefined"
  /\ (forall cloud b req P date r w0,
        let w1 := loadImageForDate (deployed cloud b req P) date r w0 in
        probes w1 = probes w0 ++ [(formatDate date, r)]
        /\ currentDate (screen w1) = currentDate (screen w0)).
Proof.
  cbv zeta.
  assert (Hgen : forall cloud b req P date r w0,
             probes (loadImageForDate (deployed cloud b req P) date r w0)
             = probes w0 ++ [(formatDate date, r)]
             /\ currentDate (screen (loadImageForDate (deployed cloud b req P) date r w0))
                = currentDate (screen w0)).
  { intros cloud b req P date r w0.
    destruct (loadImageForDate_answered (deployed cloud b req P) date r w0
                (deployed_answers cloud b req P date)) as [Hc Hp].
    split; [exact Hp | exact Hc]. }
  assert (HD : formatDate PhoneExamples.next_midnight = "2024-10-06")
    by (vm_compute; reflexivity).
  split; [exact HD |].
  split; [vm_compute; reflexivity |].
  split; [vm_compute; reflexivity |].
  split; [vm_compute; reflexivity |].
  split; [vm_compute; discriminate |].
  split; [vm_compute; reflexivity |].
  split; [vm_compute; reflexivity |].
  split; [eexists; vm_compute; reflexivity |].
  destruct (Hgen Examples.cloud EdgeFunction.fresh Examples.request PhoneExamples.next_day
              PhoneExamples.next_midnight 0%nat
              (setCurrentDate PhoneExamples.next_midnight PhoneExamples.blank)) as [Hp Hc].
  split; [rewrite Hp, HD; reflexivity |].
  split; [rewrite Hc; reflexivity |].
  rewrite loadImageForDate_step.
  split; [vm_compute; reflexivity |].
  split; [vm_compute; reflexivity |].
  split; [vm_compute; reflexivity |].
  exact Hgen.
Qed.

End WalkEndToEnd.

(** ** Dates *)

Section DatesMore.
Import Js NasaApodScreen Observe Phone.

Lemma all_from_spec n : forall lo p,
  all_from n lo p = true -> forall z, lo <= z < lo + 2 ^ Z.of_nat n -> p z = true.
Proof.
  induction n as [| n IH]; intros lo p H z Hz.
  - simpl in *. assert (z = lo) as -> by lia. exact H.
  - cbn [all_from] in H. apply andb_true_iff in H as [H1 H2].
    rewrite Nat2Z.inj_succ, Z.pow_succ_r in Hz by lia.
    destruct (Z_lt_dec z (lo + 2 ^ Z.of_nat n)) as [Hlt | Hge].
    + apply (IH lo p H1). lia.
    + apply (IH _ p H2). lia.
Qed.

Lemma years_checked :
  all_from 14 0 (fun y => if (1000 <=? y) && (y <=? 9999) then year_checks y else true) = true.
Proof. vm_compute. reflexivity. Qed.

Lemma two_digits_checked :
  all_from 7 0 (fun n => if n <=? 99 then two_digit_checks n else true) = true.
Proof. vm_compute. reflexivity. Qed.

Lemma string_of_chars s l : list_ascii_of_string s = l -> s = string_of_list_ascii l.
Proof. intros <-. symmetry. apply string_of_list_ascii_of_string. Qed.

(** A year of four digits is rendered as four digits that spell it. *)
Lemma show_year y :
  1000 <= y <= 9999 ->
  exists a b c d,
    show y = String a (String b (String c (String d "")))
    /\ is_digit a = true /\ is_digit b = true /\ is_digit c = true /\ is_digit d = true
    /\ 1000 * digit_value a + 100 * digit_value b + 10 * digit_value c + digit_value d = y.
Proof.
  intros Hy.
  pose proof (all_from_spec 14 0 _ years_checked y ltac:(simpl; lia)) as H.
  cbv beta in H.
  rewrite (proj2 (andb_true_iff _ _) (conj (proj2 (Z.leb_le _ _) (proj1 Hy))
                                           (proj2 (Z.leb_le _ _) (proj2 Hy)))) in H.
  unfold year_checks in H.
  destruct (list_ascii_of_string (show y)) as [| a [| b [| c [| d [| e l]]]]] eqn:Hl;
    try discriminate H.
  apply string_of_chars in Hl. simpl in Hl.
  apply andb_true_iff in H as [Hd Hv]. cbn [forallb] in Hd.
  rewrite !andb_true_iff in Hd. destruct Hd as (Ha & Hb & Hc & Hd & _).
  apply Z.eqb_eq in Hv.
  exists a, b, c, d. rewrite Hl. repeat split; assumption.
Qed.

(** A month or a day is rendered, after padding, as two digits that spell it. *)
Lemma show_two_digits n :
  0 <= n <= 99 ->
  exists a b,
    padStart2 (show n) = String a (String b "")
    /\ is_digit a = true /\ is_digit b = true
    /\ 10 * digit_value a + digit_value b = n.
Proof.
  intros Hn.
  pose proof (all_from_spec 7 0 _ two_digits_checked n ltac:(simpl; lia)) as H.
  cbv beta in H. rewrite (proj2 (Z.leb_le _ _) (proj2 Hn)) in H.
  unfold two_digit_checks in H.
  destruct (list_ascii_of_string (padStart2 (show n))) as [| a [| b [| c l]]] eqn:Hl;
    try discriminate H.
  apply string_of_chars in Hl. simpl in Hl.
  apply andb_true_iff in H as [Hd Hv]. cbn [forallb] in Hd.
  rewrite !andb_true_iff in Hd. destruct Hd as (Ha & Hb & _).
  apply Z.eqb_eq in Hv.
  exists a, b. rewrite Hl. repeat split; assumption.
Qed.

Lemma civil_valid z :
  let '(y, m, d) := civil z in
  1 <= m <= 12 /\ 1 <= d <= days_in_month y m.
Proof.
  unfold civil. cbv zeta.
  set (z' := z + 719468).
  set (era := z' / 146097).
  set (doe := z' - era * 146097).
  set (yoe := (doe - doe / 1460 + doe / 36524 - doe / 146096) / 365).
  set (doy := doe - (365 * yoe + yoe / 4 - yoe / 100)).
  set (mp := (5 * doy + 2) / 153).
  assert (Hdoe : 0 <= doe <= 146096) by (subst doe era; Z.div_mod_to_equations; lia).
  assert (Hyoe : 0 <= yoe <= 399) by (subst yoe; Z.div_mod_to_equations; lia).
  assert (Hdoy : 0 <= doy <= 365) by (subst doy yoe; Z.div_mod_to_equations; lia).
  assert (Hmp : 0 <= mp <= 11) by (subst mp; Z.div_mod_to_equations; lia).
  assert (Hleap : doy = 365 -> leap_year (yoe + era * 400 + 1) = true).
  { intros H365. unfold leap_year.
    assert (Hy : (yoe + 1) mod 4 = 0 /\ ((yoe + 1) mod 100 <> 0 \/ yoe = 399)).
    { subst doy yoe. (Z.div_mod_to_equations; lia). }
    destruct Hy as [H4 H100].
    replace ((yoe + era * 400 + 1) mod 4) with ((yoe + 1) mod 4)
      by (Z.div_mod_to_equations; lia).
    rewrite H4. simpl.
    destruct H100 as [H100 | H399].
    - replace ((yoe + era * 400 + 1) mod 100) with ((yoe + 1) mod 100)
        by (Z.div_mod_to_equations; lia).
      apply Z.eqb_neq in H100. rewrite H100. reflexivity.
    - replace ((yoe + era * 400 + 1) mod 400) with 0
        by (rewrite H399; Z.div_mod_to_equations; lia).
      apply orb_true_r. }
  clearbody doy. clear Hdoe.
  assert (Hcases : mp = 0 \/ mp = 1 \/ mp = 2 \/ mp = 3 \/ mp = 4 \/ mp = 5 \/ mp = 6
                   \/ mp = 7 \/ mp = 8 \/ mp = 9 \/ mp = 10 \/ mp = 11) by lia.
  unfold days_in_month.
  destruct Hcases as [H | [H | [H | [H | [H | [H | [H | [H | [H | [H | [H | H]]]]]]]]]]];
    rewrite H in *; simpl;
    try (split; [lia |]; subst mp; Z.div_mod_to_equations; lia).
  split; [lia |].
  destruct (leap_year (yoe + era * 400 + 1)) eqn:Hl.
  - subst mp; Z.div_mod_to_equations; lia.
  - assert (doy <> 365) by (intros H365; specialize (Hleap H365); discriminate Hleap).
    subst mp; Z.div_mod_to_equations; lia.
Qed.

Lemma civil_round_trip z : days_from_civil (civil z) = z.
Proof.
  pose proof (civil_valid z) as Hv.
  unfold civil in *. cbv zeta in *.
  set (z' := z + 719468) in *.
  set (era := z' / 146097) in *.
  set (doe := z' - era * 146097) in *.
  set (yoe := (doe - doe / 1460 + doe / 36524 - doe / 146096) / 365) in *.
  set (doy := doe - (365 * yoe + yoe / 4 - yoe / 100)) in *.
  set (mp := (5 * doy + 2) / 153) in *.
  assert (Hdoe : 0 <= doe <= 146096) by (subst doe era; Z.div_mod_to_equations; lia).
  assert (Hyoe : 0 <= yoe <= 399) by (subst yoe; Z.div_mod_to_equations; lia).
  assert (Hdoy : 0 <= doy <= 365) by (subst doy yoe; Z.div_mod_to_equations; lia).
  assert (Hmp : 0 <= mp <= 11) by (subst mp; Z.div_mod_to_equations; lia).
  unfold days_from_civil.
  destruct (mp <? 10) eqn:Hlt; [apply Z.ltb_lt in Hlt | apply Z.ltb_ge in Hlt].
  - rewrite (proj2 (Z.leb_gt (mp + 3) 2)) by lia.
    rewrite (proj2 (Z.gtb_lt (mp + 3) 2)) by lia.
    replace ((yoe + era * 400) / 400) with era by (Z.div_mod_to_equations; lia).
    replace (yoe + era * 400 - era * 400) with yoe by lia.
    replace (mp + 3 - 3) with mp by lia.
    (subst mp doy doe z'; Z.div_mod_to_equations; lia).
  - rewrite (proj2 (Z.leb_le (mp - 9) 2)) by lia.
    assert (Hgt : (mp - 9 >? 2) = false) by (rewrite Z.gtb_ltb; apply Z.ltb_ge; lia).
    rewrite Hgt.
    replace ((yoe + era * 400 + 1 - 1) / 400) with era by (Z.div_mod_to_equations; lia).
    replace (yoe + era * 400 + 1 - 1 - era * 400) with yoe by lia.
    replace (mp - 9 + 9) with mp by lia.
    (subst mp doy doe z'; Z.div_mod_to_equations; lia).
Qed.

(** The ten characters of a formatted date. *)
Lemma formatDate_chars date y m d :
  civil (date / msPerDay) = (y, m, d) ->
  1000 <= y <= 9999 ->
  exists y1 y2 y3 y4 m1 m2 d1 d2,
    formatDate date
    = String y1 (String y2 (String y3 (String y4 (String "-"
        (String m1 (String m2 (String "-" (String d1 (String d2 "")))))))))
    /\ forallb is_digit [y1; y2; y3; y4; m1; m2; d1; d2] = true
    /\ 1000 * digit_value y1 + 100 * digit_value y2 + 10 * digit_value y3 + digit_value y4 = y
    /\ 10 * digit_value m1 + digit_value m2 = m
    /\ 10 * digit_value d1 + digit_value d2 = d.
Proof.
  intros Hc Hy. pose proof (civil_valid (date / msPerDay)) as Hv. rewrite Hc in Hv.
  destruct Hv as [Hm Hd].
  assert (Hd31 : d <= 31).
  { unfold days_in_month in Hd.
    destruct (m =? 2); [destruct (leap_year y) |]; [lia | lia |].
    destruct ((m =? 4) || (m =? 6) || (m =? 9) || (m =? 11)); lia. }
  destruct (show_year y Hy) as (y1 & y2 & y3 & y4 & Hsy & H1 & H2 & H3 & H4 & Hvy).
  destruct (show_two_digits m ltac:(lia)) as (m1 & m2 & Hsm & H5 & H6 & Hvm).
  destruct (show_two_digits d ltac:(lia)) as (d1 & d2 & Hsd & H7 & H8 & Hvd).
  exists y1, y2, y3, y4, m1, m2, d1, d2.
  split.
  - unfold formatDate. rewrite Hc, Hsy, Hsm, Hsd. reflexivity.
  - split; [cbn [forallb]; rewrite H1, H2, H3, H4, H5, H6, H7, H8; reflexivity |].
    split; [exact Hvy |]. split; [exact Hvm | exact Hvd].
Qed.

Lemma formatDate_parsed date :
  1000 <= getFullYear date <= 9999 ->
  parse_date (formatDate date) = Some (civil (date / msPerDay)).
Proof.
  intros Hy. unfold getFullYear in Hy.
  destruct (civil (date / msPerDay)) as [[y m] d] eqn:Hc. simpl in Hy.
  destruct (formatDate_chars date y m d Hc Hy)
    as (y1 & y2 & y3 & y4 & m1 & m2 & d1 & d2 & Hs & _ & Hvy & Hvm & Hvd).
  unfold parse_date. rewrite Hs. cbn [list_ascii_of_string].
  rewrite Hvy, Hvm, Hvd. reflexivity.
Qed.

(** X26. For every date whose year has four digits, [formatDate] yields
    ten characters that match the handler's pattern for dates and name a day
    that exists in the calendar; reading year, month and day back from them
    gives the date's own, and the handler's date check lets the string pass. *)
Theorem formatDate_yields_a_calendar_date date :
  1000 <= getFullYear date <= 9999 ->
  test EdgeFunction.dateRegex (formatDate date) = true
  /\ iso_calendar_date (formatDate date) = true
  /\ parse_date (formatDate date) = Some (civil (date / msPerDay))
  /\ (forall m b,
        EdgeFunction.require_date
          {| EdgeFunction.method := m; EdgeFunction.date_param := Some (formatDate date) |} b
        = (Returns (formatDate date), b)).
Proof.
  intros Hy. unfold getFullYear in Hy.
  destruct (civil (date / msPerDay)) as [[y m] d] eqn:Hc. simpl in Hy.
  destruct (formatDate_chars date y m d Hc Hy)
    as (y1 & y2 & y3 & y4 & m1 & m2 & d1 & d2 & Hs & Hdig & Hvy & Hvm & Hvd).
  pose proof (civil_valid (date / msPerDay)) as Hv. rewrite Hc in Hv. destruct Hv as [Hm Hd].
  assert (Htest : test EdgeFunction.dateRegex (formatDate date) = true).
  { rewrite Hs. cbn [forallb] in Hdig. rewrite !andb_true_iff in Hdig.
    destruct Hdig as (H1 & H2 & H3 & H4 & H5 & H6 & H7 & H8 & _).
    unfold EdgeFunction.dateRegex. cbn [test atom_matches].
    rewrite H1, H2, H3, H4, H5, H6, H7, H8. reflexivity. }
  split; [exact Htest |]. split; [| split].
  - unfold iso_calendar_date. rewrite Hs. cbn [list_ascii_of_string].
    rewrite Hdig, Hvy, Hvm, Hvd. cbn [Ascii.eqb Bool.eqb andb].
    rewrite (proj2 (Z.leb_le 1 m)), (proj2 (Z.leb_le m 12)), (proj2 (Z.leb_le 1 d)),
      (proj2 (Z.leb_le d _)) by lia.
    reflexivity.
  - unfold parse_date. rewrite Hs. cbn [list_ascii_of_string].
    rewrite Hvy, Hvm, Hvd. reflexivity.
  - intros meth b. apply require_date_ok. exact Htest.
Qed.

(** X26, an instance: midnight of 2024-10-05. *)
Lemma formatDate_witness :
  1000 <= getFullYear PhoneExamples.midnight <= 9999
  /\ formatDate PhoneExamples.midnight = "2024-10-05"
  /\ iso_calendar_date (formatDate PhoneExamples.midnight) = true.
Proof.
  assert (H : 1000 <= getFullYear PhoneExamples.midnight <= 9999)
    by (vm_compute; split; discriminate).
  split; [exact H |]. split; [reflexivity |].
  apply (formatDate_yields_a_calendar_date PhoneExamples.midnight H).
Defined.

Lemma getCacheFilePath_inj P d1 d2 :
  ImageCache.getCacheFilePath P d1 = ImageCache.getCacheFilePath P d2 -> d1 = d2.
Proof.
  unfold ImageCache.getCacheFilePath. intros H.
  apply String.app_inj in H. exact (append_inj_r _ _ _ H).
Qed.

Lemma formatDate_same_day d1 d2 :
  1000 <= getFullYear d1 <= 9999 -> 1000 <= getFullYear d2 <= 9999 ->
  formatDate d1 = formatDate d2 <-> d1 / msPerDay = d2 / msPerDay.
Proof.
  intros H1 H2. split.
  - intros Heq.
    pose proof (formatDate_parsed d1 H1) as Hp1.
    pose proof (formatDate_parsed d2 H2) as Hp2.
    assert (Hc : civil (d1 / msPerDay) = civil (d2 / msPerDay)) by congruence.
    apply (f_equal days_from_civil) in Hc. rewrite !civil_round_trip in Hc. exact Hc.
  - intros Heq. unfold formatDate. rewrite Heq. reflexivity.
Qed.

(** X27. Two dates (with four-digit years) get the same formatted string,
    and with it the same cache file, exactly when they fall on the same day;
    in particular a date a whole number of days away, such as a neighbour that
    is preloaded, never shares the cache file of the date. *)
Theorem dates_share_a_cache_file_only_on_the_same_day P d1 d2 :
  1000 <= getFullYear d1 <= 9999 -> 1000 <= getFullYear d2 <= 9999 ->
  (formatDate d1 = formatDate d2 <-> d1 / msPerDay = d2 / msPerDay)
  /\ (ImageCache.getCacheFilePath P (formatDate d1) = ImageCache.getCacheFilePath P (formatDate d2)
      <-> d1 / msPerDay = d2 / msPerDay)
  /\ (forall n, d2 = addDays d1 n -> n <> 0 -> formatDate d2 <> formatDate d1).
Proof.
  intros H1 H2. pose proof (formatDate_same_day d1 d2 H1 H2) as Hsame.
  split; [exact Hsame |]. split.
  - split.
    + intros H. apply Hsame. exact (getCacheFilePath_inj P _ _ H).
    + intros H. apply Hsame in H. rewrite H. reflexivity.
  - intros n -> Hn Heq. symmetry in Heq. apply Hsame in Heq.
    unfold addDays in Heq. rewrite Z.div_add in Heq by (unfold msPerDay; lia). lia.
Qed.

(** X27, an instance: midnight and noon of 2024-10-05. *)
Lemma same_day_witness :
  let d1 := PhoneExamples.midnight in
  let d2 := PhoneExamples.noon in
  1000 <= getFullYear d1 <= 9999
  /\ 1000 <= getFullYear d2 <= 9999
  /\ formatDate d1 = formatDate d2
  /\ (ImageCache.getCacheFilePath PhoneExamples.online (formatDate d1)
      = ImageCache.getCacheFilePath PhoneExamples.online (formatDate d2)
      <-> d1 / msPerDay = d2 / msPerDay).
Proof.
  intros d1 d2.
  assert (H1 : 1000 <= getFullYear d1 <= 9999) by (vm_compute; split; discriminate).
  assert (H2 : 1000 <= getFullYear d2 <= 9999) by (vm_compute; split; discriminate).
  destruct (dates_share_a_cache_file_only_on_the_same_day PhoneExamples.online d1 d2 H1 H2)
    as (Hsame & Hfile & _).
  split; [exact H1 |]. split; [exact H2 |].
  split; [apply Hsame; reflexivity | exact Hfile].
Defined.

End DatesMore.
